(** * Fréchet Inception Distance script: a shallow embedding of
    [fid_score_lsun_numpy.py] and the properties of its three stages
    (activation extractor, moment estimator, distance evaluator).

    Layout of the development:
    - scalars: the interface numpy's float64 offers to the script, with a
      binary64 instance (primitive floats) and an exact rational instance;
    - arrays: [ndarray] values (shape + row-major data) and the numpy
      operations the script calls;
    - effects: a state-and-exception monad [Py] over a world made of the
      array heap, the file system and the trace of prints and foreign calls;
    - the functions of the script, in source order;
    - the properties. *)

From Stdlib Require Import String ZArith QArith Qabs Qcanon Bool List Lia Floats Uint63.
Import ListNotations.
Set Implicit Arguments.
Set Warnings "-inexact-float".
Close Scope Qc_scope.
Close Scope Q_scope.

(* ===================================================================== *)
(** ** Scalars *)
(* ===================================================================== *)

(** What the script needs from numpy's scalar type.  [from_int] is the
    conversion Python applies to an [int] operand of a float operation. *)
Class Scalar (F : Type) : Type := {
  from_int : Z -> F;
  fadd : F -> F -> F;
  fsub : F -> F -> F;
  fmul : F -> F -> F;
  fdiv : F -> F -> F;
  fabs : F -> F;
  feqb : F -> F -> bool;
  fleb : F -> F -> bool;
  fltb : F -> F -> bool;
  isfinite : F -> bool;
  isnan : F -> bool
}.

Declare Scope num_scope.
Delimit Scope num_scope with num.
Infix "+" := fadd : num_scope.
Infix "-" := fsub : num_scope.
Infix "*" := fmul : num_scope.
Infix "/" := fdiv : num_scope.

(** A decimal literal of the source ([1e-6], [1e-3], [0.5]) denotes a
    rational; it is read into the scalar type by one correctly rounded
    division of two exactly represented integers. *)
Definition lit {F} `{Scalar F} (q : Q) : F :=
  (from_int (Qnum q) / from_int (Zpos (Qden q)))%num.

(** binary64, as numpy's float64. *)
Definition float_of_Z (z : Z) : float :=
  match z with
  | Z0 => PrimFloat.zero
  | Zpos _ => PrimFloat.of_uint63 (Uint63.of_Z z)
  | Zneg p => PrimFloat.opp (PrimFloat.of_uint63 (Uint63.of_Z (Zpos p)))
  end.

#[export] Instance float64 : Scalar float := {|
  from_int := float_of_Z;
  fadd := PrimFloat.add;
  fsub := PrimFloat.sub;
  fmul := PrimFloat.mul;
  fdiv := PrimFloat.div;
  fabs := PrimFloat.abs;
  feqb := PrimFloat.eqb;
  fleb := PrimFloat.leb;
  fltb := PrimFloat.ltb;
  isfinite := PrimFloat.is_finite;
  isnan := PrimFloat.is_nan
|}.

(** Exact rational arithmetic: the idealisation in which "the sample
    covariance" is a single number rather than a rounding of it. *)
Definition Qc_abs (x : Qc) : Qc := Q2Qc (Qabs x).
Definition Qc_eqb (x y : Qc) : bool := Qeq_bool x y.
Definition Qc_leb (x y : Qc) : bool := Qle_bool x y.
Definition Qc_ltb (x y : Qc) : bool := negb (Qle_bool y x).

#[export] Instance exact : Scalar Qc := {|
  from_int := fun z => Q2Qc (inject_Z z);
  fadd := Qcplus;
  fsub := Qcminus;
  fmul := Qcmult;
  fdiv := Qcdiv;
  fabs := Qc_abs;
  feqb := Qc_eqb;
  fleb := Qc_leb;
  fltb := Qc_ltb;
  isfinite := fun _ => true;
  isnan := fun _ => false
|}.

(* ===================================================================== *)
(** ** Arrays, exceptions and the numpy operations of the script *)
(* ===================================================================== *)

Section Script.
Context {F : Type} {SF : Scalar F}.

(** A numpy array of scalars: its shape and its elements in row-major
    (C) order.  A 0-d array has shape [[]] and one element. *)
Record ndarray : Type := mk_ndarray { shape : list nat; data : list F }.

(** The number of elements of an array of shape [s]. *)
Definition size_of (s : list nat) : nat := fold_right Nat.mul 1%nat s.

(** Python's [==] on shape tuples. *)
Fixpoint shape_eqb (s t : list nat) : bool :=
  match s, t with
  | [], [] => true
  | x :: s', y :: t' => Nat.eqb x y && shape_eqb s' t'
  | _, _ => false
  end.

(** A piece of formatted text: a literal, or a value rendered by Python's
    formatting ([%s], [%f], [%d], [str], [format]); the rendering itself is
    not modelled. *)
Inductive frag : Type :=
| Str (s : string)
| Num (x : F)
| Int (z : Z)
| Tuple (l : list nat).
Definition text : Type := list frag.

(** The exceptions the script can end with.  [OutsideModel] is not a
    Python exception: it marks an argument outside the embedded fragment
    (means of more than one dimension, covariances of more than two,
    operands that numpy would broadcast). *)
Inductive exn : Type :=
| AssertionError (msg : string)
| ValueError (msg : text)
| KeyError (key : text)
| IndexError (msg : string)
| TypeError (msg : string)
| NameError (name : string)
| AxisError (msg : string)
| SystemExit (code : Z)
| FileNotFoundError (path : string)
| OutsideModel (why : string).

Inductive result (A : Type) : Type :=
| Ok (a : A)
| Raise (e : exn).
Arguments Ok {A} a.
Arguments Raise {A} e.

(** Element [(i, j)] of row-major data with [c] columns. *)
Definition get2 (c : nat) (d : list F) (i j : nat) : F :=
  nth (i * c + j) d (from_int 0).

(** Row-major data of the [r] x [c] array whose element [(i, j)] is [f i j]. *)
Definition tabulate2 (r c : nat) (f : nat -> nat -> F) : list F :=
  flat_map (fun i => map (f i) (seq 0 c)) (seq 0 r).

(** [np.add.reduce] over a sequence: the first element, then the others
    added left to right; the identity [0.0] for an empty one. *)
Definition np_sum (l : list F) : F :=
  match l with
  | [] => from_int 0
  | x :: t => fold_left fadd t x
  end.

(** A sum of [n] products as BLAS accumulates it: from [0.0], in index
    order. *)
Definition dot_acc (n : nat) (f : nat -> F) : F :=
  fold_left (fun acc k => (acc + f k)%num) (seq 0 n) (from_int 0).

(** [a - b] and [a + b] for operands of one shape (the only case the
    script reaches). *)
Definition zip_with (op : F -> F -> F) (a b : ndarray) : result ndarray :=
  if shape_eqb (shape a) (shape b)
  then Ok (mk_ndarray (shape a)
             (map (fun p => op (fst p) (snd p)) (combine (data a) (data b))))
  else Raise (OutsideModel "broadcasting of unequal shapes").
Definition np_subtract : ndarray -> ndarray -> result ndarray := zip_with fsub.
Definition np_add : ndarray -> ndarray -> result ndarray := zip_with fadd.

(** [a * x] and [a + x] for a Python float [x]. *)
Definition np_scale (a : ndarray) (x : F) : ndarray :=
  mk_ndarray (shape a) (map (fun y => (y * x)%num) (data a)).
Definition np_shift (a : ndarray) (x : F) : ndarray :=
  mk_ndarray (shape a) (map (fun y => (y + x)%num) (data a)).

(** [x.dot(y)] for two 1-d arrays: a scalar. *)
Definition np_dot_vec (x y : ndarray) : result F :=
  match shape x, shape y with
  | [n], [m] =>
      if Nat.eqb n m
      then Ok (dot_acc n (fun k =>
                 (nth k (data x) (from_int 0) * nth k (data y) (from_int 0))%num))
      else Raise (ValueError [Str "shapes not aligned"])
  | _, _ => Raise (OutsideModel "dot of arrays that are not both 1-d")
  end.

(** [a.dot(b)] for two 2-d arrays: the matrix product. *)
Definition np_dot_mat (a b : ndarray) : result ndarray :=
  match shape a, shape b with
  | [r; c], [r'; c'] =>
      if Nat.eqb c r'
      then Ok (mk_ndarray [r; c']
                 (tabulate2 r c' (fun i j =>
                    dot_acc c (fun k =>
                      (get2 c (data a) i k * get2 c' (data b) k j)%num))))
      else Raise (ValueError [Str "shapes not aligned"])
  | _, _ => Raise (OutsideModel "dot of arrays that are not both 2-d")
  end.

(** [np.eye(n)]. *)
Definition np_eye (n : nat) : ndarray :=
  mk_ndarray [n; n]
    (tabulate2 n n (fun i j => if Nat.eqb i j then from_int 1 else from_int 0)).

(** [np.diagonal(a)] and [np.trace(a)] of a 2-d array. *)
Definition np_diagonal (a : ndarray) : result (list F) :=
  match shape a with
  | [r; c] => Ok (map (fun i => get2 c (data a) i i) (seq 0 (Nat.min r c)))
  | [] | [_] =>
      Raise (ValueError [Str "diag requires an array of at least two dimensions"])
  | _ => Raise (OutsideModel "diagonal of an array of more than two dimensions")
  end.
Definition np_trace (a : ndarray) : result F :=
  match np_diagonal a with
  | Ok d => Ok (np_sum d)
  | Raise e => Raise e
  end.

(** [np.isclose(x, y, rtol, atol)] on one element ([|x - y| <= atol +
    rtol * |y|] when both are finite, [x == y] otherwise), and
    [np.allclose] of a sequence against the scalar [y]. *)
Definition np_isclose (rtol atol x y : F) : bool :=
  if isfinite x && isfinite y
  then fleb (fabs (x - y)%num) (atol + rtol * fabs y)%num
  else feqb x y.
Definition np_allclose (l : list F) (y rtol atol : F) : bool :=
  forallb (fun x => np_isclose rtol atol x y) l.

(** [np.maximum] propagates NaN; [np.max] folds it over a non-empty array. *)
Definition np_maximum (x y : F) : F :=
  if isnan x then x else if isnan y then y else if fltb x y then y else x.
Definition np_max (l : list F) : result F :=
  match l with
  | [] => Raise (ValueError [Str "zero-size array to reduction operation maximum which has no identity"])
  | x :: t => Ok (fold_left np_maximum t x)
  end.

(** What [scipy.linalg.sqrtm] hands back: an array of real dtype, or one
    of complex dtype given by its real and imaginary parts. *)
Inductive carray : Type :=
| RealArray (a : ndarray)
| ComplexArray (re im : ndarray).

Definition np_iscomplexobj (c : carray) : bool :=
  match c with RealArray _ => false | ComplexArray _ _ => true end.
Definition np_isfinite_all (c : carray) : bool :=
  match c with
  | RealArray a => forallb isfinite (data a)
  | ComplexArray re im =>
      forallb (fun p => isfinite (fst p) && isfinite (snd p))
              (combine (data re) (data im))
  end.
Definition real_part (c : carray) : ndarray :=
  match c with RealArray a => a | ComplexArray re _ => re end.
Definition imag_part (c : carray) : ndarray :=
  match c with
  | RealArray a => mk_ndarray (shape a) (map (fun _ => from_int 0) (data a))
  | ComplexArray _ im => im
  end.

(** [a[start:stop]] for [0 <= start]: the rows from [start] up to
    [stop], clipped to the array, as Python slices do.  (A 0-d array has
    no rows; the script has failed on [len] before it slices one.) *)
Definition slice_rows (start stop : nat) (a : ndarray) : ndarray :=
  match shape a with
  | [] => a
  | n :: rest =>
      let k := (Nat.min stop n - start)%nat in
      let stride := size_of rest in
      mk_ndarray (k :: rest)
        (firstn (k * stride) (skipn (start * stride) (data a)))
  end.

(** [a[start:stop] = v] on a 2-d [a] with [v] 2-d: the new data of [a].
    numpy broadcasts an axis of [v] of length one, and refuses any other
    mismatch. *)
Definition set_rows (start stop : nat) (v a : ndarray) : result (list F) :=
  match shape a, shape v with
  | [n; c], [vn; vc] =>
      let k := (Nat.min stop n - start)%nat in
      if (Nat.eqb vn k || Nat.eqb vn 1) && (Nat.eqb vc c || Nat.eqb vc 1)
      then Ok (firstn (start * c) (data a)
               ++ tabulate2 k c (fun i j =>
                    get2 vc (data v) (if Nat.eqb vn 1 then 0 else i)
                                     (if Nat.eqb vc 1 then 0 else j))
               ++ skipn ((start + k) * c) (data a))
      else Raise (ValueError [Str "could not broadcast input array from shape ";
                              Tuple (shape v); Str " into shape "; Tuple [k; c]])
  | _, _ => Raise (OutsideModel "slice assignment between arrays that are not 2-d")
  end.

(** [t.reshape(t.size(0), -1)]. *)
Definition reshape_rows (t : ndarray) : result ndarray :=
  match shape t with
  | [] => Raise (IndexError "Dimension specified as 0 but tensor has no dimensions")
  | O :: _ => Raise (ValueError [Str "cannot reshape array of size 0 into shape (0,newaxis)"])
  | n :: rest => Ok (mk_ndarray [n; size_of rest] (data t))
  end.

(** [t.size(d)] of a torch tensor. *)
Definition tensor_size (t : ndarray) (d : nat) : result nat :=
  match nth_error (shape t) d with
  | Some n => Ok n
  | None => Raise (IndexError "Dimension out of range")
  end.

(** Python's [range(start, stop, step)]. *)
Definition python_range (start stop step : Z) : result (list Z) :=
  if (step =? 0)%Z then Raise (ValueError [Str "range() arg 3 must not be zero"])
  else
    let count :=
      if (0 <? step)%Z
      then (if (start <? stop)%Z then (stop - start - 1) / step + 1 else 0)%Z
      else (if (stop <? start)%Z then (start - stop - 1) / (- step) + 1 else 0)%Z in
    Ok (map (fun k => (start + Z.of_nat k * step)%Z) (seq 0 (Z.to_nat count))).

(** Python's builtin [min] and [max] over a sequence of floats. *)
Definition py_min (l : list F) : result F :=
  match l with
  | [] => Raise (ValueError [Str "min() arg is an empty sequence"])
  | x :: t => Ok (fold_left (fun cur y => if fltb y cur then y else cur) t x)
  end.
Definition py_max (l : list F) : result F :=
  match l with
  | [] => Raise (ValueError [Str "max() arg is an empty sequence"])
  | x :: t => Ok (fold_left (fun cur y => if fltb cur y then y else cur) t x)
  end.

(** [np.mean(a, axis=0)]: the sum over the first axis, divided by its
    length. *)
Definition np_mean_axis0 (a : ndarray) : result ndarray :=
  match shape a with
  | [] => Raise (AxisError "axis 0 is out of bounds for array of dimension 0")
  | n :: rest =>
      let stride := size_of rest in
      Ok (mk_ndarray rest
            (map (fun j =>
                    (np_sum (map (fun k => nth (k * stride + j) (data a) (from_int 0))
                                 (seq 0 n))
                     / from_int (Z.of_nat n))%num)
                 (seq 0 stride)))
  end.

(** [a.squeeze()]: the axes of length one are dropped. *)
Definition np_squeeze (a : ndarray) : ndarray :=
  mk_ndarray (filter (fun n => negb (Nat.eqb n 1)) (shape a)) (data a).

(** [np.cov(m, rowvar=False)] as numpy computes it (numpy 1.x):
    - [X = array(m, ndmin=2)]; [X = X.T] unless [X] has a single row;
    - an array without variables gives [array([]).reshape(0, 0)];
    - [avg = average(X, axis=1)];
    - [fact = X.shape[1] - ddof] with [ddof = 1], replaced by [0.0] when
      it is not positive;
    - [X -= avg[:, None]]; [c = dot(X, X.T.conj())];
      [c *= np.true_divide(1, fact)]; the result is [c.squeeze()]. *)
Definition np_cov_rowvar_false (m : ndarray) : result ndarray :=
  match
    match shape m with
    | [] => Some (1, 1)%nat
    | [n] => Some (1, n)%nat
    | [r; c] => Some (r, c)
    | _ => None
    end
  with
  | None => Raise (ValueError [Str "m has more than 2 dimensions"])
  | Some (r0, c0) =>
      (* X : vars x obs *)
      let transposed := negb (Nat.eqb r0 1) in
      let vars := if transposed then c0 else r0 in
      let obs := if transposed then r0 else c0 in
      let X i k := if transposed then get2 c0 (data m) k i
                   else get2 c0 (data m) i k in
      if Nat.eqb vars 0 then Ok (mk_ndarray [0; 0]%nat [])
      else
        let avg i := (np_sum (map (X i) (seq 0 obs)) / from_int (Z.of_nat obs))%num in
        let fact := (Z.of_nat obs - 1)%Z in
        let fact := if (fact <=? 0)%Z then 0%Z else fact in
        let Xc i k := (X i k - avg i)%num in
        let c i j := dot_acc obs (fun k => (Xc i k * Xc j k)%num) in
        let norm := (from_int 1 / from_int fact)%num in
        Ok (np_squeeze
              (mk_ndarray [vars; vars]
                 (tabulate2 vars vars (fun i j => (c i j * norm)%num))))
  end.

End Script.
Arguments ndarray F : clear implicits.
Arguments carray F : clear implicits.
Arguments exn F : clear implicits.
Arguments result F A : clear implicits.
Arguments frag F : clear implicits.
Arguments text F : clear implicits.
Arguments mk_ndarray {F} shape data.
Arguments Ok {F A} a.
Arguments Raise {F A} e.
Arguments Str {F} s.
Arguments Num {F} x.
Arguments Int {F} z.
Arguments Tuple {F} l.
Arguments AssertionError {F} msg.
Arguments ValueError {F} msg.
Arguments KeyError {F} key.
Arguments IndexError {F} msg.
Arguments TypeError {F} msg.
Arguments NameError {F} name.
Arguments AxisError {F} msg.
Arguments SystemExit {F} code.
Arguments FileNotFoundError {F} path.
Arguments OutsideModel {F} why.
Arguments RealArray {F} a.
Arguments ComplexArray {F} re im.

(* ===================================================================== *)
(** ** Effects *)
(* ===================================================================== *)

Section Program.
Context {F : Type} {SF : Scalar F}.

(** An array that crosses a function boundary (an argument, a returned
    value) is an object of the heap, named by a [handle]: the buffer it
    reads and the shape it reads it with.  Two handles on one buffer are
    two views of the same memory, so a write through one shows through the
    other.  Arrays that a function body creates and never hands out are
    kept as [ndarray] values. *)
Record handle : Type := mk_handle { base : nat; hshape : list nat }.

(** The contents of a file [np.load] can open. *)
Inductive file : Type :=
| NpzFile (entries : list (string * ndarray F))
| NpyFile (a : ndarray F).

(** What the script does to the outside, in order. *)
Inductive event : Type :=
| Printed (t : text F)
| InceptionV3_init (blocks : list Z)
| ModelCuda
| ModelEval
| ModelForward (batch : ndarray F) (on_gpu : bool)
| SqrtmCall (a : ndarray F) (disp : bool)
| NpLoad (path : string)
| RandomSeed
| RandomRand (shp : list nat).

Record world : Type := mk_world {
  heap : list (list F);
  files : string -> option file;
  trace : list event
}.

Definition Py (A : Type) : Type := world -> result F A * world.

Definition ret {A} (a : A) : Py A := fun w => (Ok a, w).
Definition raise {A} (e : exn F) : Py A := fun w => (Raise e, w).
Definition bind {A B} (m : Py A) (k : A -> Py B) : Py B :=
  fun w =>
    match m w with
    | (Ok a, w') => k a w'
    | (Raise e, w') => (Raise e, w')
    end.
Definition lift {A} (r : result F A) : Py A := fun w => (r, w).

Notation "x <- m ;; k" := (bind m (fun x => k))
  (at level 100, m at next level, right associativity).
Notation "m ;; k" := (bind m (fun _ => k))
  (at level 100, right associativity).
Notation "' pat <- m ;; k" := (bind m (fun x => match x with pat => k end))
  (at level 100, pat pattern, m at next level, right associativity).

Definition emit (ev : event) : Py unit :=
  fun w => (Ok tt, mk_world (heap w) (files w) (trace w ++ [ev])).
Definition print (t : text F) : Py unit := emit (Printed t).

(** [assert cond, msg]. *)
Definition py_assert (cond : bool) (msg : string) : Py unit :=
  if cond then ret tt else raise (AssertionError msg).

(** Reading the array a handle names. *)
Definition load (h : handle) : Py (ndarray F) :=
  fun w => (Ok (mk_ndarray (hshape h) (nth (base h) (heap w) [])), w).
(** A fresh object holding [a]. *)
Definition alloc (a : ndarray F) : Py handle :=
  fun w => (Ok (mk_handle (List.length (heap w)) (shape a)),
            mk_world (heap w ++ [data a]) (files w) (trace w)).
(** Overwriting the buffer of an existing object in place. *)
Fixpoint set_nth {A} (n : nat) (x : A) (l : list A) : list A :=
  match l, n with
  | [], _ => []
  | _ :: t, O => x :: t
  | y :: t, S n' => y :: set_nth n' x t
  end.
Definition store (h : handle) (d : list F) : Py unit :=
  fun w => (Ok tt, mk_world (set_nth (base h) d (heap w)) (files w) (trace w)).

(** A [for] loop over a sequence. *)
Fixpoint for_each {A} (l : list A) (body : A -> Py unit) : Py unit :=
  match l with
  | [] => ret tt
  | x :: t => body x ;; for_each t body
  end.

(** [np.atleast_1d] and [np.atleast_2d]: the array itself when it has
    enough dimensions, else a reshaped view of the same buffer. *)
Definition np_atleast_1d (h : handle) : handle :=
  match hshape h with
  | [] => mk_handle (base h) [1%nat]
  | _ => h
  end.
Definition np_atleast_2d (h : handle) : handle :=
  match hshape h with
  | [] => mk_handle (base h) [1%nat; 1%nat]
  | [n] => mk_handle (base h) [1%nat; n]
  | _ => h
  end.

(* ===================================================================== *)
(** ** The activation extractor: [get_activations_numpy] *)
(* ===================================================================== *)

(** The feature network is foreign code (torch): a model is whatever
    [model(batch)[0]] computes, a tensor or an exception. *)
Record model : Type := mk_model {
  forward : ndarray F -> result F (ndarray F)
}.
(** [torch.from_numpy(images).type(torch.FloatTensor)] and
    [adaptive_avg_pool2d(pred, output_size=(1, 1))], foreign as well. *)
Variable to_FloatTensor : ndarray F -> ndarray F.
Variable adaptive_avg_pool2d : ndarray F -> ndarray F.
(** What [np.empty] finds in the memory it is given. *)
Variable uninitialised : nat -> F.

Definition np_empty (shp : list nat) : ndarray F :=
  mk_ndarray shp (map uninitialised (seq 0 (size_of shp))).

(** [len(a)]. *)
Definition py_len (a : ndarray F) : result F nat :=
  match shape a with
  | [] => Raise (TypeError "len() of unsized object")
  | n :: _ => Ok n
  end.

Definition batch_warning : text F :=
  [Str "Warning: batch size is bigger than the data size. Setting batch size to data size"].

(** [pred_arr] is the one array the script updates in place (the slice
    assignment of line 139, a [store]); it is returned to the caller.
    With [verbose] set, the first batch fails on the name [n_batches],
    which the script never binds.  [tqdm] only reports progress. *)
Definition get_activations_numpy
    (np_array : handle) (mdl : model) (batch_size : Z) (dims : Z)
    (cuda verbose : bool) : Py handle :=
  emit ModelEval ;;
  a <- load np_array ;;
  print [Tuple (shape a)] ;;
  n <- lift (py_len a) ;;
  print [Str "len "; Int (Z.of_nat n)] ;;
  batch_size <-
    (if (Z.of_nat n <? batch_size)%Z
     then print batch_warning ;; ret (Z.of_nat n)
     else ret batch_size) ;;
  (if (dims <? 0)%Z
   then raise (ValueError [Str "negative dimensions are not allowed"])
   else ret tt) ;;
  pred_arr <- alloc (np_empty [n; Z.to_nat dims]) ;;
  starts <- lift (python_range 0 (Z.of_nat n) batch_size) ;;
  for_each starts (fun i =>
    (if verbose
     then raise (NameError "n_batches")
     else ret tt) ;;
    let start := i in
    let end_ := (i + batch_size)%Z in
    a <- load np_array ;;
    let images := slice_rows (Z.to_nat start) (Z.to_nat end_) a in
    let batch := to_FloatTensor images in
    emit (ModelForward batch cuda) ;;
    pred <- lift (forward mdl batch) ;;
    (* If model output is not scalar, apply global spatial average pooling. *)
    h <- lift (tensor_size pred 2) ;;
    not_scalar <-
      (if negb (Nat.eqb h 1) then ret true
       else w <- lift (tensor_size pred 3) ;; ret (negb (Nat.eqb w 1))) ;;
    let pred := if not_scalar then adaptive_avg_pool2d pred else pred in
    rows <- lift (reshape_rows pred) ;;
    cur <- load pred_arr ;;
    d <- lift (set_rows (Z.to_nat start) (Z.to_nat end_) rows cur) ;;
    store pred_arr d) ;;
  (if verbose then print [Str " done"] else ret tt) ;;
  ret pred_arr.

(* ===================================================================== *)
(** ** The distance evaluator: [calculate_frechet_distance] *)
(* ===================================================================== *)

(** [scipy.linalg.sqrtm], foreign code: any function from a matrix to a
    real or complex matrix, or to an exception. *)
Variable sqrtm : ndarray F -> result F (carray F).

Definition linalg_sqrtm (a : ndarray F) (disp : bool) : Py (carray F) :=
  emit (SqrtmCall a disp) ;; lift (sqrtm a).

(** The default of the parameter [eps], and the tolerances of
    [np.allclose(..., 0, atol=1e-3)] ([rtol] keeps numpy's default). *)
Definition eps_default : F := lit (1 # 1000000)%Q.
Definition atol_imag : F := lit (1 # 1000)%Q.
Definition rtol_default : F := lit (1 # 100000)%Q.

Definition singular_msg (eps : F) : text F :=
  [Str "fid calculation produces singular product; adding "; Num eps;
   Str " to diagonal of cov estimates"].

(** The four parameters are objects of the caller.  [np.atleast_1d] and
    [np.atleast_2d] return them or views of them; every other operation
    of the body ([mu1 - mu2], [sigma1.dot(sigma2)], [np.eye(...) * eps],
    [sigma1 + offset], [covmean.real], ...) builds a new array, kept here
    as a value; none is of the in-place kind ([+=], [out=], a slice
    assignment), which would be a [store]. *)
Definition calculate_frechet_distance
    (mu1 sigma1 mu2 sigma2 : handle) (eps : F) : Py F :=
  let mu1 := np_atleast_1d mu1 in
  let mu2 := np_atleast_1d mu2 in
  let sigma1 := np_atleast_2d sigma1 in
  let sigma2 := np_atleast_2d sigma2 in
  py_assert (shape_eqb (hshape mu1) (hshape mu2))
    "Training and test mean vectors have different lengths" ;;
  py_assert (shape_eqb (hshape sigma1) (hshape sigma2))
    "Training and test covariances have different dimensions" ;;
  (* diff = mu1 - mu2 *)
  m1 <- load mu1 ;;
  m2 <- load mu2 ;;
  diff <- lift (np_subtract m1 m2) ;;
  (* covmean, _ = linalg.sqrtm(sigma1.dot(sigma2), disp=False) *)
  s1 <- load sigma1 ;;
  s2 <- load sigma2 ;;
  prod <- lift (np_dot_mat s1 s2) ;;
  covmean <- linalg_sqrtm prod false ;;
  covmean <-
    (if negb (np_isfinite_all covmean) then
       print (singular_msg eps) ;;
       let offset := np_scale (np_eye (nth 0 (hshape sigma1) 0%nat)) eps in
       s1 <- load sigma1 ;;
       a <- lift (np_add s1 offset) ;;
       s2 <- load sigma2 ;;
       b <- lift (np_add s2 offset) ;;
       prod' <- lift (np_dot_mat a b) ;;
       linalg_sqrtm prod' true
     else ret covmean) ;;
  (* Numerical error might give slight imaginary component *)
  covmean <-
    (if np_iscomplexobj covmean then
       d <- lift (np_diagonal (imag_part covmean)) ;;
       (if negb (np_allclose d (from_int 0) rtol_default atol_imag) then
          m <- lift (np_max (map fabs (data (imag_part covmean)))) ;;
          raise (ValueError [Str "Imaginary component "; Num m])
        else ret tt) ;;
       ret (real_part covmean)
     else ret (real_part covmean)) ;;
  tr_covmean <- lift (np_trace covmean) ;;
  dd <- lift (np_dot_vec diff diff) ;;
  s1 <- load sigma1 ;;
  t1 <- lift (np_trace s1) ;;
  s2 <- load sigma2 ;;
  t2 <- lift (np_trace s2) ;;
  ret (dd + t1 + t2 - from_int 2 * tr_covmean)%num.

(* ===================================================================== *)
(** ** The driver: [calculate_fid_mnist_npy] *)
(* ===================================================================== *)

(** [InceptionV3.BLOCK_INDEX_BY_DIM] and the constructor [InceptionV3]
    live in the module [inception], which the script imports. *)
Variable BLOCK_INDEX_BY_DIM : Z -> option Z.
Variable InceptionV3 : list Z -> model.
(** The draw of [np.random.rand] for a shape. *)
Variable random_rand : list nat -> ndarray F.

Definition stats_path : string := "./fid_stats_lsun_train.npz".
Definition no_stats_msg : text F :=
  [Str "could not find precomputed lsun stats, exiting"].

(** [os.path.exists(p)]. *)
Definition os_path_exists (p : string) : Py bool :=
  fun w => (Ok (match files w p with Some _ => true | None => false end), w).

(** [np.load(p)]. *)
Definition np_load (p : string) : Py file :=
  emit (NpLoad p) ;;
  fun w =>
    match files w p with
    | Some f => (Ok f, w)
    | None => (Raise (FileNotFoundError p), w)
    end.

(** [f[key][:]] on what [np.load] returned. *)
Fixpoint assoc (key : string) (l : list (string * ndarray F)) : option (ndarray F) :=
  match l with
  | [] => None
  | (k, v) :: t => if String.eqb k key then Some v else assoc key t
  end.
Definition npz_item (f : file) (key : string) : result F (ndarray F) :=
  match f with
  | NpzFile entries =>
      match assoc key entries with
      | Some a =>
          match shape a with
          | [] => Raise (IndexError "too many indices for array")
          | _ => Ok a
          end
      | None => Raise (KeyError [Str key])
      end
  | NpyFile a =>
      Raise (IndexError "only integers, slices (`:`), ellipsis (`...`), numpy.newaxis (`None`) and integer or boolean arrays are valid indices")
  end.

(** The moment estimator of lines 228-229 (and 238-239). *)
Definition moments (act : handle) : Py (handle * handle) :=
  a <- load act ;;
  m <- lift (np_mean_axis0 a) ;;
  m2 <- alloc m ;;
  a <- load act ;;
  c <- lift (np_cov_rowvar_false a) ;;
  s2 <- alloc c ;;
  ret (m2, s2).

Definition calculate_fid_mnist_npy
    (path : list string) (batch_size : Z) (cuda : bool) (dims : Z)
    (rand_data : bool) : Py unit :=
  block_idx <-
    (match BLOCK_INDEX_BY_DIM dims with
     | Some b => ret b
     | None => raise (KeyError [Int dims])
     end) ;;
  emit (InceptionV3_init [block_idx]) ;;
  let mdl := InceptionV3 [block_idx] in
  (if cuda then emit ModelCuda else ret tt) ;;
  (* m1 = np.array([]); s1 = np.array([]): rebound before any use *)
  found <- os_path_exists stats_path ;;
  '(m1, s1) <-
    (if found then
       f <- np_load stats_path ;;
       mu <- lift (npz_item f "mu") ;;
       sigma <- lift (npz_item f "sigma") ;;
       m1 <- alloc mu ;;
       s1 <- alloc sigma ;;
       (* f.close() *)
       ret (m1, s1)
     else
       print no_stats_msg ;;
       raise (SystemExit 0)) ;;
  p0 <-
    (match path with
     | p :: _ => ret p
     | [] => raise (IndexError "list index out of range")
     end) ;;
  f <- np_load p0 ;;
  np_1 <-
    (match f with
     | NpyFile a => ret a
     | NpzFile _ =>
         raise (TypeError "unsupported operand type(s) for *: 'NpzFile' and 'float'")
     end) ;;
  let np_1 := np_shift (np_scale np_1 (lit (1 # 2)%Q)) (lit (1 # 2)%Q) in
  lo <- lift (py_min (data np_1)) ;;
  hi <- lift (py_max (data np_1)) ;;
  print [Str "min "; Num lo; Str "  max "; Num hi; Str " "] ;;
  np_1h <- alloc np_1 ;;
  act2 <- get_activations_numpy np_1h mdl batch_size dims cuda false ;;
  '(m2, s2) <- moments act2 ;;
  fid_value <- calculate_frechet_distance m1 s1 m2 s2 eps_default ;;
  print [Str "FID: "; Str " "; Num fid_value] ;;
  (if rand_data then
     emit RandomSeed ;;
     emit (RandomRand (shape np_1)) ;;
     rand <- alloc (random_rand (shape np_1)) ;;
     act2 <- get_activations_numpy rand mdl batch_size dims cuda false ;;
     '(m2, s2) <- moments act2 ;;
     fid_value <- calculate_frechet_distance m1 s1 m2 s2 eps_default ;;
     print [Str "FID rand data: "; Str " "; Num fid_value]
   else ret tt).

(** The exit status of the interpreter for a run of the script that ends
    this way: that of [SystemExit] when it is raised, 1 for any other
    uncaught exception, 0 otherwise. *)
Definition exit_status {A} (r : result F A) : Z :=
  match r with
  | Ok _ => 0
  | Raise (SystemExit code) => code
  | Raise _ => 1
  end.

End Program.

(* ===================================================================== *)
(** ** The builder of reference statistics: [calculate_fid_mnist_test_set] *)
(* ===================================================================== *)

Set Warnings "-abstract-large-number".

Section Builder.
Context {F : Type} {SF : Scalar F}.

Notation "x <- m ;; k" := (bind m (fun x => k))
  (at level 100, m at next level, right associativity).
Notation "m ;; k" := (bind m (fun _ => k))
  (at level 100, right associativity).
Notation "' pat <- m ;; k" := (bind m (fun x => match x with pat => k end))
  (at level 100, pat pattern, m at next level, right associativity).

Variable to_FloatTensor adaptive_avg_pool2d : ndarray F -> ndarray F.
Variable uninitialised : nat -> F.
Variable BLOCK_INDEX_BY_DIM : Z -> option Z.
Variable InceptionV3 : list Z -> model (F:=F).
(** [datasets.MNIST(root, train=..., download=...).data.numpy()]:
    torchvision, foreign code.  It may download the data set, write it
    under [root], print, or fail; what it does to the world is its own. *)
Variable datasets_MNIST : string -> bool -> bool -> Py (F:=F) (ndarray F).

(** [a.reshape(shp)]: the same elements under another shape of the same
    size. *)
Definition np_reshape (a : ndarray F) (shp : list nat) : result F (ndarray F) :=
  if Nat.eqb (size_of (shape a)) (size_of shp)
  then Ok (mk_ndarray shp (data a))
  else Raise (ValueError [Str "cannot reshape array of size ";
                          Int (Z.of_nat (size_of (shape a)));
                          Str " into shape "; Tuple shp]).

(** [a / x] for a Python float [x]. *)
Definition np_true_divide (a : ndarray F) (x : F) : ndarray F :=
  mk_ndarray (shape a) (map (fun y => (y / x)%num) (data a)).

(** [np.repeat(a, repeats, axis)] for [axis = 1], the axis the script
    repeats along: every block [a[i, c]] is laid down [repeats] times in
    a row. *)
Definition np_repeat (a : ndarray F) (repeats axis : nat) : result F (ndarray F) :=
  match axis with
  | 1%nat =>
      match shape a with
      | n :: c :: rest =>
          let stride := size_of rest in
          Ok (mk_ndarray (n :: (c * repeats)%nat :: rest)
                (flat_map
                   (fun q => concat (repeat (firstn stride
                                               (skipn (q * stride) (data a)))
                                            repeats))
                   (seq 0 (n * c))))
      | [_] => Raise (AxisError "axis 1 is out of bounds for array of dimension 1")
      | [] => Raise (AxisError "axis 1 is out of bounds for array of dimension 0")
      end
  | _ => Raise (OutsideModel "np.repeat along another axis than 1")
  end.

(** [np.save(p, arr)] for a name [p] that ends in [.npy] (numpy appends
    the extension to any other name): the file holds the array as it is
    at that moment. *)
Definition np_save (p : string) (h : handle) : Py (F:=F) unit :=
  a <- load h ;;
  fun w => (Ok tt,
            mk_world (heap w)
              (fun q => if String.eqb q p then Some (NpyFile a) else files w q)
              (trace w)).

Definition mnist_root : string := "/tmp/mnist-data".
Definition mean_path : string := "./mnist-mean.npy".
Definition cov_path : string := "./mnist-cov.npy".

(** The parameter [path] is not used by the function. *)
Definition calculate_fid_mnist_test_set
    (path : list string) (batch_size : Z) (cuda : bool) (dims : Z)
  : Py (F:=F) unit :=
  block_idx <-
    (match BLOCK_INDEX_BY_DIM dims with
     | Some b => ret b
     | None => raise (KeyError [Int dims])
     end) ;;
  emit (InceptionV3_init [block_idx]) ;;
  let mdl := InceptionV3 [block_idx] in
  (if cuda then emit ModelCuda else ret tt) ;;
  test_set <- datasets_MNIST mnist_root false true ;;
  test_set <- lift (np_reshape test_set [10000; 1; 28; 28]%nat) ;;
  let test_set := np_true_divide test_set (lit (255 # 1)%Q) in
  test_set <- lift (np_repeat test_set 3 1) ;;
  test_set <- alloc test_set ;;
  act1 <- get_activations_numpy to_FloatTensor adaptive_avg_pool2d uninitialised
            test_set mdl batch_size dims cuda false ;;
  '(m1, s1) <- moments act1 ;;
  np_save mean_path m1 ;;
  np_save cov_path s1.

End Builder.

(* ===================================================================== *)
(** ** The image reader: [imread] *)
(* ===================================================================== *)

Section Imread.
Context {F : Type} {SF : Scalar F}.

(** [Image.open(filename)] read as an array of the image's own type, and
    the conversion of one element to [uint8] that
    [np.asarray(..., dtype=np.uint8)] applies: PIL and numpy's cast,
    foreign code. *)
Variable Image_open : string -> Py (F:=F) (ndarray F).
Variable as_uint8 : F -> F.

(** [a[..., :k]]: the first [k] entries along the last axis. *)
Definition first_channels (k : nat) (a : ndarray F) : result F (ndarray F) :=
  match rev (shape a) with
  | [] => Raise (IndexError "too many indices for array: array is 0-dimensional, but 1 were indexed")
  | c :: front =>
      let outer := size_of (rev front) in
      Ok (mk_ndarray (rev front ++ [Nat.min k c])
            (tabulate2 outer (Nat.min k c) (get2 c (data a))))
  end.

Definition imread (filename : string) : Py (F:=F) (ndarray F) :=
  bind (Image_open filename) (fun img =>
  let a := mk_ndarray (shape img) (map as_uint8 (data img)) in
  lift (first_channels 3 a)).

End Imread.

(* ===================================================================== *)
(** ** Vocabulary of the properties *)
(* ===================================================================== *)

Section Vocabulary.
Context {F : Type} {SF : Scalar F}.

(** The elements an argument holds when the function is entered. *)
Definition buffer (w : world (F:=F)) (h : handle) : list F :=
  nth (base h) (heap w) [].

(** [Tr m] of a [d] x [d] matrix given by its row-major elements. *)
Definition Tr (d : nat) (m : list F) : F :=
  np_sum (map (fun i => get2 d m i i) (seq 0 d)).

(** [x - y] and [||v||^2] for vectors. *)
Definition vec_sub (x y : list F) : list F :=
  map (fun p => (fst p - snd p)%num) (combine x y).
Definition sq_norm (n : nat) (v : list F) : F :=
  dot_acc n (fun k => (nth k v (from_int 0) * nth k v (from_int 0))%num).

(** The product of two [d] x [d] matrices, and [m + eps * I]. *)
Definition mat_mul (d : nat) (a b : list F) : list F :=
  tabulate2 d d (fun i j =>
    dot_acc d (fun k => (get2 d a i k * get2 d b k j)%num)).
Definition add_diag (d : nat) (eps : F) (m : list F) : list F :=
  map (fun p => (fst p + snd p)%num)
      (combine m (data (np_scale (np_eye d) eps))).

(** The two matrices [sqrtm] can be asked about. *)
Definition product (d : nat) (s1 s2 : list F) : ndarray F :=
  mk_ndarray [d; d] (mat_mul d s1 s2).
Definition regularised_product (d : nat) (eps : F) (s1 s2 : list F) : ndarray F :=
  mk_ndarray [d; d] (mat_mul d (add_diag d eps s1) (add_diag d eps s2)).

(** The diagonal of the imaginary part of a [d] x [d] root, and the test
    [np.allclose(..., 0, atol=1e-3)] on it. *)
Definition imag_diagonal (d : nat) (im : ndarray F) : list F :=
  map (fun i => get2 d (data im) i i) (seq 0 d).
Definition negligible_imag (d : nat) (c : carray F) : Prop :=
  match c with
  | RealArray _ => True
  | ComplexArray _ im =>
      shape im = [d; d] /\
      np_allclose (imag_diagonal d im) (from_int 0) rtol_default atol_imag = true
  end.

(** The largest magnitude among the elements of [im], as [np.max] of
    [np.abs] computes it. *)
Definition max_magnitude (im : ndarray F) : F :=
  match map fabs (data im) with
  | [] => from_int 0
  | x :: t => fold_left np_maximum t x
  end.

(** The distance formula on the elements of the four arguments and of the
    root [S]: [||mu1 - mu2||^2 + Tr(sigma1) + Tr(sigma2) - 2 Tr(S)]. *)
Definition frechet_value (n d : nat) (m1 s1 m2 s2 S : list F) : F :=
  (sq_norm n (vec_sub m1 m2) + Tr d s1 + Tr d s2 - from_int 2 * Tr d S)%num.

(** The matrix root that reaches line 190: the first answer of [sqrtm]
    when all its elements are finite, the answer to the retry otherwise;
    and what the function has printed and called by then. *)
Definition root_used (sqrtm : ndarray F -> result F (carray F))
    (d : nat) (eps : F) (s1 s2 : list F) : result F (carray F) :=
  match sqrtm (product d s1 s2) with
  | Ok r =>
      if np_isfinite_all r then Ok r
      else sqrtm (regularised_product d eps s1 s2)
  | Raise e => Raise e
  end.
Definition sqrtm_events (sqrtm : ndarray F -> result F (carray F))
    (d : nat) (eps : F) (s1 s2 : list F) : list (event (F:=F)) :=
  SqrtmCall (product d s1 s2) false ::
  match sqrtm (product d s1 s2) with
  | Ok r =>
      if np_isfinite_all r then []
      else [Printed (singular_msg eps);
            SqrtmCall (regularised_product d eps s1 s2) true]
  | Raise _ => []
  end.

(** What lines 190-200 make of a root, for [n]-vectors and [d] x [d]
    matrices (lemma [frechet_run] relates it to the function). *)
Definition imaginary_check (root : carray F) : result F unit :=
  if np_iscomplexobj root then
    match np_diagonal (imag_part root) with
    | Ok dg =>
        if negb (np_allclose dg (from_int 0) rtol_default atol_imag) then
          match np_max (map fabs (data (imag_part root))) with
          | Ok m => Raise (ValueError [Str "Imaginary component "; Num m])
          | Raise e => Raise e
          end
        else Ok tt
    | Raise e => Raise e
    end
  else Ok tt.
Definition finish (n d : nat) (m1 s1 m2 s2 : list F) (root : carray F)
  : result F F :=
  match imaginary_check root with
  | Ok _ =>
      match np_trace (real_part root) with
      | Ok t =>
          Ok (sq_norm n (vec_sub m1 m2) + Tr d s1 + Tr d s2 - from_int 2 * t)%num
      | Raise e => Raise e
      end
  | Raise e => Raise e
  end.

(** An answer of [sqrtm] with an element that is not finite, anywhere in
    the matrix; an element of a complex answer is finite when its real
    and its imaginary part are. *)
Definition has_nonfinite_entry (c : carray F) : Prop :=
  match c with
  | RealArray a => exists x, In x (data a) /\ isfinite x = false
  | ComplexArray re im =>
      exists x y, In (x, y) (combine (data re) (data im))
                  /\ (isfinite x = false \/ isfinite y = false)
  end.

(** A computation that leaves every object of the heap as it found it. *)
Definition heap_kept {A} (m : Py (F:=F) A) : Prop :=
  forall w, heap (snd (m w)) = heap w.

End Vocabulary.

Definition count (l : list Qc) : Qc :=
  Q2Qc (inject_Z (Z.of_nat (List.length l))).

(* ===================================================================== *)
(** ** Vocabulary of the properties of the whole script *)
(* ===================================================================== *)

Section MoreVocabulary.
Context {F : Type} {SF : Scalar F}.

(** The batch size the loop of the extractor runs with (lines 106-109). *)
Definition effective_batch_size (n : nat) (batch_size : Z) : Z :=
  if (Z.of_nat n <? batch_size)%Z then Z.of_nat n else batch_size.

(** The values [i] of the loop, [range(0, n, b)]. *)
Definition batch_starts (n : nat) (b : Z) : list Z :=
  match python_range (F:=F) 0 (Z.of_nat n) b with
  | Ok l => l
  | Raise _ => []
  end.

(** The number of rows of [a[i : i + b]] in an array of [n] rows, and the
    tensor the network is given for that slice. *)
Definition rows_at (n : nat) (b i : Z) : nat :=
  (Nat.min (Z.to_nat (i + b)) n - Z.to_nat i)%nat.
Definition batch_at (to_FloatTensor : ndarray F -> ndarray F)
    (a : ndarray F) (b i : Z) : ndarray F :=
  to_FloatTensor (slice_rows (Z.to_nat i) (Z.to_nat (i + b)) a).

(** What the extractor does before its loop: [model.eval()], the two
    prints, and the warning when the batch size is cut down. *)
Definition extractor_prelude (shp : list nat) (n : nat) (batch_size : Z)
  : list (event (F:=F)) :=
  [ModelEval; Printed [Tuple shp]; Printed [Str "len "; Int (Z.of_nat n)]]
  ++ (if (Z.of_nat n <? batch_size)%Z then [Printed batch_warning] else []).

(** A property of the world that a computation maintains, however it
    ends. *)
Definition stable (Inv : world (F:=F) -> Prop) {A} (m : Py (F:=F) A) : Prop :=
  forall w, Inv w -> Inv (snd (m w)).

(** The events a run of the script may produce, given its two switches:
    the GPU only with [cuda], the random generator only with
    [rand_data]. *)
Definition permitted (cuda rand_data : bool) (ev : event (F:=F)) : Prop :=
  match ev with
  | ModelCuda => cuda = true
  | ModelForward _ on_gpu => on_gpu = cuda
  | RandomSeed | RandomRand _ => rand_data = true
  | _ => True
  end.

Definition uses_gpu (ev : event (F:=F)) : bool :=
  match ev with
  | ModelCuda | ModelForward _ true => true
  | _ => false
  end.
Definition uses_random (ev : event (F:=F)) : bool :=
  match ev with
  | RandomSeed | RandomRand _ => true
  | _ => false
  end.
Definition is_forward (ev : event (F:=F)) : bool :=
  match ev with
  | ModelForward _ _ => true
  | _ => false
  end.

(** The trace of [w] is that of [w0] followed by events that satisfy [P]. *)
Definition grown_by (P : event (F:=F) -> Prop) (w0 w : world (F:=F)) : Prop :=
  exists evs, trace w = trace w0 ++ evs /\ Forall P evs.

(** Lines 136-137: the answer of the network, averaged over its spatial
    axes unless it is of size 1 x 1 there already. *)
Definition pooled (adaptive_avg_pool2d : ndarray F -> ndarray F)
    (pred : ndarray F) : ndarray F :=
  if negb (Nat.eqb (nth 2 (shape pred) 1%nat) 1)
     || negb (Nat.eqb (nth 3 (shape pred) 1%nat) 1)
  then adaptive_avg_pool2d pred
  else pred.

End MoreVocabulary.

(* ===================================================================== *)
(** ** Sample collaborators and worlds, for concrete runs in binary64 *)
(* ===================================================================== *)

(** The matrix square root of a diagonal matrix: the root of each element. *)
Definition sqrtm_diag (a : ndarray float) : result float (carray float) :=
  Ok (RealArray (mk_ndarray (shape a) (map PrimFloat.sqrt (data a)))).

(** A routine that answers [c] to every matrix. *)
Definition sqrtm_const (c : carray float) (a : ndarray float)
  : result float (carray float) := Ok c.

(** [scipy.linalg.sqrtm] on a real upper triangular 2 x 2 matrix with a
    non-negative diagonal, which is its own Schur form: the roots of the
    diagonal, and above them [t01 / (r00 + r11)]; when that denominator is
    zero the element is 0 for [t01 = 0], and otherwise the routine gives up
    and fills its answer with NaN.  Other matrices are outside this
    sample. *)
Definition sqrtm_triu2 (a : ndarray float) : result float (carray float) :=
  match shape a, data a with
  | [2; 2]%nat, [t00; t01; t10; t11] =>
      if (PrimFloat.eqb t10 0 && PrimFloat.leb 0 t00 && PrimFloat.leb 0 t11)%bool
      then
        let r00 := PrimFloat.sqrt t00 in
        let r11 := PrimFloat.sqrt t11 in
        let denom := (r00 + r11)%float in
        if negb (PrimFloat.eqb denom 0)
        then Ok (RealArray (mk_ndarray [2; 2]%nat [r00; (t01 / denom)%float; 0%float; r11]))
        else if PrimFloat.eqb t01 0
        then Ok (RealArray (mk_ndarray [2; 2]%nat [r00; 0%float; 0%float; r11]))
        else Ok (RealArray (mk_ndarray [2; 2]%nat
                              [PrimFloat.nan; PrimFloat.nan; PrimFloat.nan; PrimFloat.nan]))
      else Raise (OutsideModel "sqrtm of a matrix that is not upper triangular")
  | _, _ => Raise (OutsideModel "sqrtm of a matrix that is not 2 x 2")
  end.

(** A world whose heap holds the given buffers, with no file and nothing
    printed yet. *)
Definition world_of (bufs : list (list float)) : world (F:=float) :=
  mk_world bufs (fun _ => None) [].

(** A stand-in for the feature network: it gives an image of one pixel
    that pixel as its only feature (a tensor of shape [(n, 1, 1, 1)]). *)
Definition pixel_net : model (F:=float) :=
  mk_model (fun b => Ok (mk_ndarray [hd 0%nat (shape b); 1; 1; 1]%nat (data b))).

(** Seven images of one pixel each, numbered by their pixel. *)
Definition seven_images : list float :=
  [0; 1; 2; 3; 4; 5; 6]%float.

(** A sample of the table [BLOCK_INDEX_BY_DIM], for concrete runs of the
    driver. *)
Definition block_index_sample (dims : Z) : option Z :=
  if (dims =? 64)%Z then Some 0%Z
  else if (dims =? 192)%Z then Some 1%Z
  else if (dims =? 768)%Z then Some 2%Z
  else if (dims =? 2048)%Z then Some 3%Z
  else None.

(** What [pixel_net] answers, as an array. *)
Definition pixel_out (b : ndarray float) : ndarray float :=
  mk_ndarray [hd 0%nat (shape b); 1; 1; 1]%nat (data b).

(** The table of a network with a single feature. *)
Definition pixel_table (dims : Z) : option Z :=
  if (dims =? 1)%Z then Some 0%Z else None.

(** A file system with reference statistics for one feature and three
    generated images of one pixel each. *)
Definition sample_files (p : string) : option (file (F:=float)) :=
  if String.eqb p stats_path
  then Some (NpzFile [("mu"%string, mk_ndarray [1%nat] [0.5%float]);
                      ("sigma"%string, mk_ndarray [1; 1]%nat [1%float])])
  else if String.eqb p "generated.npy"
  then Some (NpyFile (mk_ndarray [3; 1; 1; 1]%nat [(-1)%float; 0%float; 1%float]))
  else None.
Definition sample_world : world (F:=float) := mk_world [] sample_files [].

(** A feature network that ignores the pixels: [D] zero features for
    every image. *)
Definition zero_net (D : nat) : model (F:=float) :=
  mk_model (fun b => Ok (mk_ndarray [hd 0%nat (shape b); D; 1; 1]%nat
                           (repeat 0%float (hd 0%nat (shape b) * D)))).

(** Two data-set loaders: one that finds two images of one pixel, one
    that finds ten thousand black images. *)
Definition mnist_two (root : string) (train download : bool)
  : Py (F:=float) (ndarray float) :=
  ret (mk_ndarray [2; 1; 1]%nat [0; 255]%float).
Definition mnist_zeros (root : string) (train download : bool)
  : Py (F:=float) (ndarray float) :=
  ret (mk_ndarray [10000; 28; 28]%nat (repeat 0%float (10000 * 28 * 28))).

(** An image file of one RGBA pixel. *)
Definition rgba_pixel (filename : string) : Py (F:=float) (ndarray float) :=
  ret (mk_ndarray [1; 1; 4]%nat [10; 20; 30; 255]%float).

(** The array of an answer, for naming the value of a call that succeeds. *)
Definition answer (r : result float (ndarray float)) : ndarray float :=
  match r with
  | Ok a => a
  | Raise _ => mk_ndarray [] []
  end.

(** A network that answers with the images themselves, as feature maps,
    and the average pooling of maps of two elements. *)
Definition map_net : model (F:=float) := mk_model (fun b => Ok b).
Fixpoint pair_means (l : list float) : list float :=
  match l with
  | x :: y :: t => ((x + y) / 2)%float :: pair_means t
  | _ => []
  end.
Definition pool_pairs (t : ndarray float) : ndarray float :=
  mk_ndarray [hd 0%nat (shape t); hd 0%nat (tl (shape t)); 1; 1]%nat
    (pair_means (data t)).

(** A file system whose generated samples are an archive of statistics,
    and one whose samples are an array of no image. *)
Definition archive_files (p : string) : option (file (F:=float)) :=
  if String.eqb p "generated.npy"
  then Some (NpzFile [("mu"%string, mk_ndarray [1%nat] [0.5%float]);
                      ("sigma"%string, mk_ndarray [1; 1]%nat [1%float])])
  else sample_files p.
Definition empty_files (p : string) : option (file (F:=float)) :=
  if String.eqb p "generated.npy"
  then Some (NpyFile (mk_ndarray [0; 1; 1; 1]%nat []))
  else sample_files p.

(** Unfolding of the monad's operations, for symbolic runs. *)
Ltac run_py :=
  unfold bind, py_assert, load, lift, linalg_sqrtm, emit, print, ret, raise.

(* ===================================================================== *)
(** * Properties *)
(* ===================================================================== *)

Example lit_eps : lit (1 # 1000000)%Q = 1e-6%float.
Proof. reflexivity. Qed.

Example lit_atol : lit (1 # 1000)%Q = 1e-3%float.
Proof. reflexivity. Qed.

Section Facts.
Context {F : Type} {SF : Scalar F}.

Notation "x <- m ;; k" := (bind m (fun x => k))
  (at level 100, m at next level, right associativity).
Notation "m ;; k" := (bind m (fun _ => k))
  (at level 100, right associativity).

Lemma shape_eqb_refl (s : list nat) : shape_eqb s s = true.
Proof.
  induction s as [|x s IH]; simpl; [reflexivity|].
  now rewrite Nat.eqb_refl.
Qed.

Lemma shape_eqb_eq (s t : list nat) : shape_eqb s t = true <-> s = t.
Proof.
  split.
  - revert t. induction s as [|x s IH]; destruct t as [|y t]; simpl;
      try discriminate; auto.
    intro H. apply andb_prop in H. destruct H as [H1 H2].
    apply Nat.eqb_eq in H1. f_equal; auto.
  - intros ->. apply shape_eqb_refl.
Qed.

Lemma shape_eqb_neq (s t : list nat) : s <> t -> shape_eqb s t = false.
Proof.
  intro H. destruct (shape_eqb s t) eqn:E; [|reflexivity].
  apply shape_eqb_eq in E. contradiction.
Qed.

Lemma base_atleast_1d (h : handle) : base (np_atleast_1d h) = base h.
Proof. unfold np_atleast_1d. destruct (hshape h); reflexivity. Qed.

Lemma base_atleast_2d (h : handle) : base (np_atleast_2d h) = base h.
Proof. unfold np_atleast_2d. destruct (hshape h) as [|? [|? ?]]; reflexivity. Qed.

(** *** The frame of the monad's operations *)

Lemma heap_kept_ret A (a : A) : heap_kept (F:=F) (ret a).
Proof. intro w. reflexivity. Qed.

Lemma heap_kept_raise A (e : exn F) : heap_kept (@raise F A e).
Proof. intro w. reflexivity. Qed.

Lemma heap_kept_lift A (r : result F A) : heap_kept (lift r).
Proof. intro w. reflexivity. Qed.

Lemma heap_kept_emit (ev : event (F:=F)) : heap_kept (emit ev).
Proof. intro w. reflexivity. Qed.

Lemma heap_kept_load (h : handle) : heap_kept (F:=F) (load h).
Proof. intro w. reflexivity. Qed.

Lemma heap_kept_assert (c : bool) (msg : string) :
  heap_kept (F:=F) (py_assert c msg).
Proof. intro w. destruct c; reflexivity. Qed.

Lemma heap_kept_bind A B (m : Py (F:=F) A) (k : A -> Py B) :
  heap_kept m -> (forall a, heap_kept (k a)) -> heap_kept (bind m k).
Proof.
  intros Hm Hk w. unfold bind. specialize (Hm w).
  destruct (m w) as [[a|e] w']; simpl in *.
  - rewrite Hk. exact Hm.
  - exact Hm.
Qed.

Lemma heap_kept_if A (b : bool) (m1 m2 : Py (F:=F) A) :
  heap_kept m1 -> heap_kept m2 -> heap_kept (if b then m1 else m2).
Proof. destruct b; auto. Qed.

Lemma frechet_heap_kept sqrtm mu1 sigma1 mu2 sigma2 (eps : F) :
  heap_kept (calculate_frechet_distance sqrtm mu1 sigma1 mu2 sigma2 eps).
Proof.
  unfold calculate_frechet_distance, linalg_sqrtm, print.
  repeat first
    [ apply heap_kept_ret | apply heap_kept_raise | apply heap_kept_lift
    | apply heap_kept_emit | apply heap_kept_load | apply heap_kept_assert
    | apply heap_kept_if
    | apply heap_kept_bind; [ | intro ] ].
Qed.

(** C10.  [calculate_frechet_distance] never writes to an object of the
    heap: however it ends (a distance, the assertion, the imaginary-part
    error, an exception of [sqrtm]), and whether or not it took the
    epsilon fallback, the heap is the one it was called with; so each of
    the four arguments [mu1], [sigma1], [mu2], [sigma2] reads as before. *)
Theorem frechet_distance_keeps_its_arguments
    sqrtm mu1 sigma1 mu2 sigma2 (eps : F) (w : world) :
  let w' := snd (calculate_frechet_distance sqrtm mu1 sigma1 mu2 sigma2 eps w) in
  heap w' = heap w /\
  buffer w' mu1 = buffer w mu1 /\ buffer w' sigma1 = buffer w sigma1 /\
  buffer w' mu2 = buffer w mu2 /\ buffer w' sigma2 = buffer w sigma2.
Proof.
  intro w'.
  assert (H : heap w' = heap w) by apply frechet_heap_kept.
  unfold buffer. rewrite H. auto.
Qed.

(** C4 (as amended).  When the shapes of the two means differ after
    [np.atleast_1d], or the shapes of the two covariances differ after
    [np.atleast_2d], the function raises [AssertionError] and returns no
    distance; it has then called nothing and printed nothing. *)
Theorem shape_mismatch_is_an_assertion_error
    sqrtm mu1 sigma1 mu2 sigma2 (eps : F) (w : world) :
  hshape (np_atleast_1d mu1) <> hshape (np_atleast_1d mu2) \/
  hshape (np_atleast_2d sigma1) <> hshape (np_atleast_2d sigma2) ->
  exists msg,
    calculate_frechet_distance sqrtm mu1 sigma1 mu2 sigma2 eps w
    = (Raise (AssertionError msg), w).
Proof.
  intro H. unfold calculate_frechet_distance. cbv zeta. run_py.
  destruct (shape_eqb (hshape (np_atleast_1d mu1)) (hshape (np_atleast_1d mu2)))
    eqn:E1.
  - destruct H as [H | H].
    + apply shape_eqb_eq in E1. contradiction.
    + eexists. rewrite (shape_eqb_neq H). reflexivity.
  - eexists. reflexivity.
Qed.

(** The run of the function on [n]-vectors and [d] x [d] matrices, in
    one equation: the outcome is [finish] of the root used, the heap and
    the files are untouched, and the trace grows by [sqrtm_events]. *)
Lemma frechet_run
    sqrtm mu1 sigma1 mu2 sigma2 (eps : F) (w : world) (n d : nat) :
  hshape (np_atleast_1d mu1) = [n] ->
  hshape (np_atleast_1d mu2) = [n] ->
  hshape (np_atleast_2d sigma1) = [d; d] ->
  hshape (np_atleast_2d sigma2) = [d; d] ->
  calculate_frechet_distance sqrtm mu1 sigma1 mu2 sigma2 eps w
  = (match root_used sqrtm d eps (buffer w sigma1) (buffer w sigma2) with
     | Ok r => finish n d (buffer w mu1) (buffer w sigma1)
                 (buffer w mu2) (buffer w sigma2) r
     | Raise e => Raise e
     end,
     mk_world (heap w) (files w)
       (trace w ++ sqrtm_events sqrtm d eps (buffer w sigma1) (buffer w sigma2))).
Proof.
  intros Hm1 Hm2 Hs1 Hs2.
  assert (tail : forall r (w' : world),
    heap w' = heap w ->
    (covmean <- (if np_iscomplexobj r then
                   bind (lift (np_diagonal (imag_part r))) (fun dg =>
                   bind (if negb (np_allclose dg (from_int 0) rtol_default atol_imag)
                         then bind (lift (np_max (map fabs (data (imag_part r)))))
                                (fun m => raise (ValueError [Str "Imaginary component "; Num m]))
                         else ret tt) (fun _ => ret (real_part r)))
                 else ret (real_part r)) ;;
     tr_covmean <- lift (np_trace covmean) ;;
     dd <- lift (np_dot_vec
                   (mk_ndarray [n] (vec_sub (buffer w mu1) (buffer w mu2)))
                   (mk_ndarray [n] (vec_sub (buffer w mu1) (buffer w mu2)))) ;;
     s1 <- load (np_atleast_2d sigma1) ;;
     t1 <- lift (np_trace s1) ;;
     s2 <- load (np_atleast_2d sigma2) ;;
     t2 <- lift (np_trace s2) ;;
     ret (dd + t1 + t2 - from_int 2 * tr_covmean)%num) w'
    = (finish n d (buffer w mu1) (buffer w sigma1)
         (buffer w mu2) (buffer w sigma2) r, w')).
  { intros r w' Hh.
    assert (last : forall a : ndarray F,
      (tr_covmean <- lift (np_trace a) ;;
       dd <- lift (np_dot_vec
                     (mk_ndarray [n] (vec_sub (buffer w mu1) (buffer w mu2)))
                     (mk_ndarray [n] (vec_sub (buffer w mu1) (buffer w mu2)))) ;;
       s1 <- load (np_atleast_2d sigma1) ;;
       t1 <- lift (np_trace s1) ;;
       s2 <- load (np_atleast_2d sigma2) ;;
       t2 <- lift (np_trace s2) ;;
       ret (dd + t1 + t2 - from_int 2 * tr_covmean)%num) w'
      = (match np_trace a with
         | Ok t => Ok (sq_norm n (vec_sub (buffer w mu1) (buffer w mu2))
                       + Tr d (buffer w sigma1) + Tr d (buffer w sigma2)
                       - from_int 2 * t)%num
         | Raise e => Raise e
         end, w')).
    { intro a. run_py. destruct (np_trace a) as [t|e]; [|reflexivity].
      rewrite Hs1, Hs2, !base_atleast_2d, Hh.
      unfold np_dot_vec, np_trace, np_diagonal. cbn [shape data].
      rewrite !Nat.eqb_refl, !Nat.min_id. reflexivity. }
    unfold finish, imaginary_check.
    destruct (np_iscomplexobj r).
    - unfold bind at 1. unfold bind at 1. unfold lift at 1.
      destruct (np_diagonal (imag_part r)) as [dg|e]; [|reflexivity].
      unfold bind at 1.
      destruct (negb (np_allclose dg (from_int 0) rtol_default atol_imag)).
      + unfold bind at 1. unfold lift at 1.
        destruct (np_max (map fabs (data (imag_part r)))); reflexivity.
      + unfold ret at 1. unfold ret at 1. apply last.
    - unfold bind at 1. unfold ret at 1. apply last. }
  unfold calculate_frechet_distance. cbv zeta.
  unfold root_used, sqrtm_events.
  assert (L1 : forall w0, load (F:=F) (np_atleast_1d mu1) w0
               = (Ok (mk_ndarray [n] (buffer w0 mu1)), w0)).
  { intro w0. unfold load, buffer. now rewrite Hm1, base_atleast_1d. }
  assert (L2 : forall w0, load (F:=F) (np_atleast_1d mu2) w0
               = (Ok (mk_ndarray [n] (buffer w0 mu2)), w0)).
  { intro w0. unfold load, buffer. now rewrite Hm2, base_atleast_1d. }
  assert (L3 : forall w0, load (F:=F) (np_atleast_2d sigma1) w0
               = (Ok (mk_ndarray [d; d] (buffer w0 sigma1)), w0)).
  { intro w0. unfold load, buffer. now rewrite Hs1, base_atleast_2d. }
  assert (L4 : forall w0, load (F:=F) (np_atleast_2d sigma2) w0
               = (Ok (mk_ndarray [d; d] (buffer w0 sigma2)), w0)).
  { intro w0. unfold load, buffer. now rewrite Hs2, base_atleast_2d. }
  unfold bind at 1. unfold py_assert at 1.
  rewrite Hm1, Hm2, shape_eqb_refl. unfold ret at 1.
  unfold bind at 1. unfold py_assert at 1.
  rewrite Hs1, Hs2, shape_eqb_refl. unfold ret at 1.
  unfold bind at 1. rewrite L1. cbv beta iota.
  unfold bind at 1. rewrite L2. cbv beta iota.
  unfold bind at 1. unfold lift at 1.
  unfold np_subtract, zip_with. cbn [shape data]. rewrite shape_eqb_refl.
  unfold bind at 1. rewrite L3. cbv beta iota.
  unfold bind at 1. rewrite L4. cbv beta iota.
  unfold bind at 1. unfold lift at 1.
  unfold np_dot_mat at 1. cbn [shape data]. rewrite Nat.eqb_refl.
  fold (vec_sub (buffer w mu1) (buffer w mu2)).
  fold (mat_mul d (buffer w sigma1) (buffer w sigma2)).
  fold (product d (buffer w sigma1) (buffer w sigma2)).
  unfold bind at 1. unfold linalg_sqrtm at 1.
  unfold bind at 1. unfold emit at 1. unfold lift at 1.
  cbn [heap files trace].
  destruct (sqrtm (product d (buffer w sigma1) (buffer w sigma2))) as [r1|e1];
    [|reflexivity].
  unfold bind at 1.
  destruct (np_isfinite_all r1) eqn:Hfin; cbn [negb].
  - unfold ret at 1. rewrite tail by reflexivity. reflexivity.
  - unfold bind at 1. unfold print, emit at 1. cbn [heap files trace].
    cbn [nth].
    unfold bind at 1. rewrite L3. cbv beta iota.
    unfold bind at 1. unfold lift at 1.
    unfold np_add at 1, zip_with. cbn [shape data np_scale np_eye].
    rewrite shape_eqb_refl.
    unfold bind at 1. rewrite L4. cbv beta iota.
    unfold bind at 1. unfold lift at 1.
    unfold np_add at 1, zip_with. cbn [shape data np_scale np_eye].
    rewrite shape_eqb_refl.
    unfold bind at 1. unfold lift at 1.
    unfold np_dot_mat at 1. cbn [shape data]. rewrite Nat.eqb_refl.
    unfold buffer at 1 2. cbn [heap]. fold (buffer w sigma1). fold (buffer w sigma2).
    change (mk_ndarray [d; d] _) with
      (regularised_product d eps (buffer w sigma1) (buffer w sigma2)).
    unfold linalg_sqrtm. unfold bind at 1. unfold emit at 1. unfold lift at 1.
    cbn [heap files trace]. rewrite <- !app_assoc. cbn [app].
    destruct (sqrtm (regularised_product d eps (buffer w sigma1) (buffer w sigma2)))
      as [r2|e2]; [|reflexivity].
    rewrite tail by reflexivity. reflexivity.
Qed.

Lemma imaginary_check_ok (d : nat) (root : carray F) :
  negligible_imag d root -> imaginary_check root = Ok tt.
Proof.
  unfold imaginary_check, negligible_imag.
  destruct root as [a | re im]; [reflexivity|].
  intros [Hshape Hclose]. cbn [np_iscomplexobj imag_part].
  unfold np_diagonal. rewrite Hshape, Nat.min_id.
  fold (imag_diagonal d im). now rewrite Hclose.
Qed.

Lemma np_trace_square (d : nat) (a : ndarray F) :
  shape a = [d; d] -> np_trace a = Ok (Tr d (data a)).
Proof.
  intro H. unfold np_trace, np_diagonal. now rewrite H, Nat.min_id.
Qed.

Lemma finish_value (n d : nat) (m1 s1 m2 s2 : list F) (root : carray F) :
  shape (real_part root) = [d; d] ->
  negligible_imag d root ->
  finish n d m1 s1 m2 s2 root
  = Ok (frechet_value n d m1 s1 m2 s2 (data (real_part root))).
Proof.
  intros Hshape Him. unfold finish.
  rewrite imaginary_check_ok with (d:=d) by exact Him.
  rewrite np_trace_square with (d:=d) by exact Hshape.
  reflexivity.
Qed.

(** C1.  For two Gaussian summaries of matching shapes (means that are
    [n]-vectors, covariances that are [d] x [d] matrices), when [sqrtm] of
    [sigma1.dot(sigma2)] is finite, [d] x [d], and real or of negligible
    imaginary diagonal, the function returns
    [||mu1 - mu2||^2 + Tr(sigma1) + Tr(sigma2) - 2 Tr(sqrt(sigma1 sigma2))]. *)
Theorem frechet_distance_formula
    sqrtm mu1 sigma1 mu2 sigma2 (eps : F) (w : world) (n d : nat) root :
  hshape (np_atleast_1d mu1) = [n] ->
  hshape (np_atleast_1d mu2) = [n] ->
  hshape (np_atleast_2d sigma1) = [d; d] ->
  hshape (np_atleast_2d sigma2) = [d; d] ->
  sqrtm (product d (buffer w sigma1) (buffer w sigma2)) = Ok root ->
  np_isfinite_all root = true ->
  shape (real_part root) = [d; d] ->
  negligible_imag d root ->
  fst (calculate_frechet_distance sqrtm mu1 sigma1 mu2 sigma2 eps w)
  = Ok (frechet_value n d (buffer w mu1) (buffer w sigma1)
          (buffer w mu2) (buffer w sigma2) (data (real_part root))).
Proof.
  intros Hm1 Hm2 Hs1 Hs2 Hroot Hfin Hre Him.
  rewrite (frechet_run sqrtm _ _ _ _ eps w Hm1 Hm2 Hs1 Hs2). cbn [fst].
  unfold root_used. rewrite Hroot, Hfin.
  apply finish_value; assumption.
Qed.

Lemma forallb_false {A} (f : A -> bool) (l : list A) :
  forallb f l = false <-> exists x, In x l /\ f x = false.
Proof.
  induction l as [|a l IH]; cbn [forallb In].
  - split; [discriminate | intros (x & [] & _)].
  - destruct (f a) eqn:E; cbn [andb].
    + rewrite IH. split.
      * intros (x & Hx & Hf). eauto.
      * intros (x & [<- | Hx] & Hf); [congruence | eauto].
    + split; [eauto | reflexivity].
Qed.

Lemma np_isfinite_all_false (c : carray F) :
  np_isfinite_all c = false <-> has_nonfinite_entry c.
Proof.
  destruct c as [a | re im]; cbn [np_isfinite_all has_nonfinite_entry].
  - apply forallb_false.
  - rewrite forallb_false. split.
    + intros ([x y] & Hin & Hf). cbn [fst snd] in Hf.
      exists x, y. split; [exact Hin|].
      destruct (isfinite x); [right; exact Hf | now left].
    + intros (x & y & Hin & Hf). exists (x, y). split; [exact Hin|].
      cbn [fst snd]. destruct Hf as [-> | ->]; [reflexivity | apply andb_false_r].
Qed.

(** C5.  On [n]-vectors and [d] x [d] matrices, when the first answer of
    [sqrtm] has an element that is not finite, wherever in the matrix, the
    function prints the message that names [eps], then asks [sqrtm] once
    more, for the root of [(sigma1 + eps I).dot(sigma2 + eps I)]; these
    are all its calls and prints, whatever the second answer is, and the
    outcome is made from that second answer without another test of
    finiteness.  The default of [eps] is the float [1e-6]. *)
Theorem singular_product_retries_once
    sqrtm mu1 sigma1 mu2 sigma2 (eps : F) (w : world) (n d : nat) first :
  hshape (np_atleast_1d mu1) = [n] ->
  hshape (np_atleast_1d mu2) = [n] ->
  hshape (np_atleast_2d sigma1) = [d; d] ->
  hshape (np_atleast_2d sigma2) = [d; d] ->
  sqrtm (product d (buffer w sigma1) (buffer w sigma2)) = Ok first ->
  has_nonfinite_entry first ->
  let run := calculate_frechet_distance sqrtm mu1 sigma1 mu2 sigma2 eps w in
  let retry := regularised_product d eps (buffer w sigma1) (buffer w sigma2) in
  trace (snd run)
  = trace w ++ [SqrtmCall (product d (buffer w sigma1) (buffer w sigma2)) false;
                Printed [Str "fid calculation produces singular product; adding ";
                         Num eps; Str " to diagonal of cov estimates"];
                SqrtmCall retry true]
  /\ fst run
     = match sqrtm retry with
       | Ok second => finish n d (buffer w mu1) (buffer w sigma1)
                        (buffer w mu2) (buffer w sigma2) second
       | Raise e => Raise e
       end
  /\ @eps_default float float64 = 1e-6%float.
Proof.
  intros Hm1 Hm2 Hs1 Hs2 Hfirst Hnonfinite run retry.
  apply np_isfinite_all_false in Hnonfinite.
  unfold run. rewrite (frechet_run sqrtm _ _ _ _ eps w Hm1 Hm2 Hs1 Hs2).
  unfold sqrtm_events, root_used. rewrite Hfirst, Hnonfinite.
  cbn [fst snd trace]. repeat split.
Qed.

End Facts.

(* ===================================================================== *)
(** ** Facts of binary64 *)
(* ===================================================================== *)

Lemma float_sub_zero (x : float) : (x - 0)%float = x.
Proof.
  apply Prim2SF_inj. rewrite FloatAxioms.sub_spec.
  change (Prim2SF 0%float) with (S754_zero false).
  destruct (Prim2SF x) as [[|]|[|]| |s m e]; reflexivity.
Qed.

Lemma SFeqb_finite_refl (s : bool) (m : positive) (e : Z) :
  SFeqb (S754_finite s m e) (S754_finite s m e) = true.
Proof.
  unfold SFeqb, SFcompare.
  rewrite Z.compare_refl, Pos.compare_cont_refl.
  destruct s; reflexivity.
Qed.

Lemma float_not_finite (x : float) :
  PrimFloat.is_finite x = false ->
  Prim2SF x = S754_nan \/ exists s, Prim2SF x = S754_infinity s.
Proof.
  unfold PrimFloat.is_finite, PrimFloat.is_nan, PrimFloat.is_infinity.
  rewrite !FloatAxioms.eqb_spec, FloatAxioms.abs_spec.
  change (Prim2SF infinity) with (S754_infinity false).
  destruct (Prim2SF x) as [[|]|[|]| |s m e]; simpl; try discriminate; eauto.
  rewrite SFeqb_finite_refl. simpl. discriminate.
Qed.

(** [np.isclose(x, 0, atol=1e-3)] is the comparison [|x| <= 1e-3], which
    is false of NaN and of the infinities. *)
Lemma np_isclose_zero (x : float) :
  np_isclose rtol_default atol_imag x (from_int 0)
  = (PrimFloat.abs x <=? 1e-3)%float.
Proof.
  unfold np_isclose. simpl.
  change (PrimFloat.is_finite PrimFloat.zero) with true.
  rewrite andb_true_r.
  destruct (PrimFloat.is_finite x) eqn:Hx.
  - change PrimFloat.zero with 0%float. rewrite float_sub_zero. reflexivity.
  - rewrite FloatAxioms.eqb_spec, FloatAxioms.leb_spec, FloatAxioms.abs_spec.
    destruct (float_not_finite x Hx) as [-> | [s ->]];
      [reflexivity | destruct s; reflexivity].
Qed.

Lemma np_allclose_zero (l : list float) :
  negb (np_allclose l (from_int 0) rtol_default atol_imag)
  = existsb (fun x => negb (PrimFloat.abs x <=? 1e-3)%float) l.
Proof.
  unfold np_allclose. induction l as [|x l IH]; [reflexivity|].
  cbn [forallb existsb]. rewrite negb_andb, IH, np_isclose_zero. reflexivity.
Qed.

(** C6 (as amended).  In binary64, on [n]-vectors and [d] x [d]
    matrices, when the root used is complex ([d] x [d]): the function
    raises [ValueError], reporting the largest magnitude of the imaginary
    part, exactly when some imaginary part [x] on the diagonal fails
    [|x| <= 1e-3] (it exceeds 1e-3, or it is NaN); otherwise it returns
    the distance computed from the real part alone. *)
Theorem imaginary_component_check
    sqrtm mu1 sigma1 mu2 sigma2 (eps : float) (w : world) (n d : nat) re im :
  hshape (np_atleast_1d mu1) = [n] ->
  hshape (np_atleast_1d mu2) = [n] ->
  hshape (np_atleast_2d sigma1) = [d; d] ->
  hshape (np_atleast_2d sigma2) = [d; d] ->
  root_used sqrtm d eps (buffer w sigma1) (buffer w sigma2)
    = Ok (ComplexArray re im) ->
  shape re = [d; d] -> shape im = [d; d] ->
  List.length (data im) = (d * d)%nat ->
  fst (calculate_frechet_distance sqrtm mu1 sigma1 mu2 sigma2 eps w)
  = if existsb (fun x => negb (PrimFloat.abs x <=? 1e-3)%float)
               (imag_diagonal d im)
    then Raise (ValueError [Str "Imaginary component "; Num (max_magnitude im)])
    else Ok (frechet_value n d (buffer w mu1) (buffer w sigma1)
               (buffer w mu2) (buffer w sigma2) (data re)).
Proof.
  intros Hm1 Hm2 Hs1 Hs2 Hroot Hre Him Hlen.
  rewrite (frechet_run sqrtm _ _ _ _ eps w Hm1 Hm2 Hs1 Hs2).
  rewrite Hroot. cbn [fst].
  unfold finish, imaginary_check. cbn [np_iscomplexobj imag_part real_part].
  unfold np_diagonal at 1. rewrite Him, Nat.min_id.
  fold (imag_diagonal d im). rewrite np_allclose_zero.
  destruct (existsb _ (imag_diagonal d im)) eqn:E.
  - unfold np_max, max_magnitude.
    destruct (map fabs (data im)) as [|x t] eqn:Hd; [|reflexivity].
    exfalso. apply map_eq_nil in Hd. rewrite Hd in Hlen. simpl in Hlen.
    destruct d; [discriminate E | discriminate Hlen].
  - unfold np_trace, np_diagonal. rewrite Hre, Nat.min_id. reflexivity.
Qed.

(** *** Concrete runs *)

(** The one-dimensional case of the specification: [mu1 = 0],
    [sigma1 = 1], [mu2 = 1], [sigma2 = 1] give the distance 1. *)
Lemma frechet_distance_formula_witness :
  fst (calculate_frechet_distance sqrtm_diag
         (mk_handle 0 [1%nat]) (mk_handle 1 [1%nat; 1%nat])
         (mk_handle 2 [1%nat]) (mk_handle 3 [1%nat; 1%nat])
         eps_default (world_of [[0%float]; [1%float]; [1%float]; [1%float]]))
  = Ok 1%float.
Proof.
  exact (frechet_distance_formula sqrtm_diag
           (mk_handle 0 [1%nat]) (mk_handle 1 [1%nat; 1%nat])
           (mk_handle 2 [1%nat]) (mk_handle 3 [1%nat; 1%nat])
           eps_default (world_of [[0%float]; [1%float]; [1%float]; [1%float]])
           (n:=1) (d:=1) (root:=RealArray (mk_ndarray [1%nat; 1%nat] [1%float]))
           eq_refl eq_refl eq_refl eq_refl eq_refl eq_refl eq_refl I).
Defined.

(** Means of lengths 2 and 3 are refused. *)
Lemma shape_mismatch_witness :
  exists msg,
    calculate_frechet_distance sqrtm_diag
      (mk_handle 0 [2%nat]) (mk_handle 1 [1%nat; 1%nat])
      (mk_handle 2 [3%nat]) (mk_handle 3 [1%nat; 1%nat])
      eps_default
      (world_of [[0%float; 0%float]; [1%float]; [0%float; 0%float; 0%float]; [1%float]])
    = (Raise (AssertionError msg),
       world_of [[0%float; 0%float]; [1%float]; [0%float; 0%float; 0%float]; [1%float]]).
Proof.
  apply (shape_mismatch_is_an_assertion_error sqrtm_diag
           (mk_handle 0 [2%nat]) (mk_handle 1 [1%nat; 1%nat])
           (mk_handle 2 [3%nat]) (mk_handle 3 [1%nat; 1%nat])).
  left. simpl. discriminate.
Defined.

(** C4, the claim as stated fails: a mean of shape [()] against one of
    shape [(1,)], and a covariance of shape [(1, 1)] against one of shape
    [()] (what [np.cov] returns for a single feature), differ in shape,
    yet the function returns a distance. *)
Lemma shape_mismatch_counterexample :
  let mu1 := mk_handle 0 [] in
  let sigma1 := mk_handle 1 [1%nat; 1%nat] in
  let mu2 := mk_handle 2 [1%nat] in
  let sigma2 := mk_handle 3 [] in
  (hshape mu1 <> hshape mu2 /\ hshape sigma1 <> hshape sigma2) /\
  fst (calculate_frechet_distance sqrtm_diag mu1 sigma1 mu2 sigma2 eps_default
         (world_of [[0%float]; [1%float]; [1%float]; [1%float]]))
  = Ok 1%float.
Proof.
  cbv zeta. split; [split; discriminate | reflexivity].
Qed.

(** Two runs.  A product that has no square root, [[0, 1], [0, 0]]:
    [sqrtm] answers with NaN everywhere, and the retry, on a triangular
    matrix with the diagonal [1e-6 * (1 + 1e-6)], succeeds.  And a routine
    that answers every question with [[1, inf], [0, 1]], not finite above
    the diagonal only: the retry is made, its answer is not tested, and
    the distance is computed from its trace. *)
Lemma singular_product_witness :
  (let w := world_of [[0; 0]%float; [0; 1; 0; 0]%float;
                      [0; 0]%float; [1; 0; 0; 1]%float] in
   let run := calculate_frechet_distance sqrtm_triu2
                (mk_handle 0 [2%nat]) (mk_handle 1 [2; 2]%nat)
                (mk_handle 2 [2%nat]) (mk_handle 3 [2; 2]%nat) 1e-6%float w in
   let e := (1e-6 * (1 + 1e-6))%float in
   trace (snd run)
   = [SqrtmCall (mk_ndarray [2; 2]%nat [0; 1; 0; 0]%float) false;
      Printed [Str "fid calculation produces singular product; adding ";
               Num 1e-6%float; Str " to diagonal of cov estimates"];
      SqrtmCall (mk_ndarray [2; 2]%nat [e; (1 + 1e-6)%float; 0%float; e]) true]
   /\ fst run = Ok (0 + 0 + 2 - 2 * (PrimFloat.sqrt e + PrimFloat.sqrt e))%float)
  /\
  (let stuck := RealArray (mk_ndarray [2; 2]%nat [1; infinity; 0; 1]%float) in
   let w := world_of [[0; 0]%float; [1; 0; 0; 1]%float;
                      [0; 0]%float; [1; 0; 0; 1]%float] in
   let run := calculate_frechet_distance (sqrtm_const stuck)
                (mk_handle 0 [2%nat]) (mk_handle 1 [2; 2]%nat)
                (mk_handle 2 [2%nat]) (mk_handle 3 [2; 2]%nat) 1e-6%float w in
   List.length (trace (snd run)) = 3%nat
   /\ fst run = Ok (0 + 2 + 2 - 2 * 2)%float).
Proof.
  split.
  - cbv zeta.
    pose proof (singular_product_retries_once sqrtm_triu2
             (mk_handle 0 [2%nat]) (mk_handle 1 [2; 2]%nat)
             (mk_handle 2 [2%nat]) (mk_handle 3 [2; 2]%nat) 1e-6%float
             (world_of [[0; 0]%float; [0; 1; 0; 0]%float;
                        [0; 0]%float; [1; 0; 0; 1]%float])
             (n:=2) (d:=2)
             (first:=RealArray (mk_ndarray [2; 2]%nat
                        [PrimFloat.nan; PrimFloat.nan; PrimFloat.nan; PrimFloat.nan]))
             eq_refl eq_refl eq_refl eq_refl eq_refl
             (ex_intro _ PrimFloat.nan (conj (or_introl eq_refl) eq_refl))) as H.
    cbv zeta in H. destruct H as [Htrace [Hout _]].
    split; [exact Htrace | exact Hout].
  - cbv zeta.
    pose proof (singular_product_retries_once
             (sqrtm_const (RealArray (mk_ndarray [2; 2]%nat [1; infinity; 0; 1]%float)))
             (mk_handle 0 [2%nat]) (mk_handle 1 [2; 2]%nat)
             (mk_handle 2 [2%nat]) (mk_handle 3 [2; 2]%nat) 1e-6%float
             (world_of [[0; 0]%float; [1; 0; 0; 1]%float;
                        [0; 0]%float; [1; 0; 0; 1]%float])
             (n:=2) (d:=2)
             (first:=RealArray (mk_ndarray [2; 2]%nat [1; infinity; 0; 1]%float))
             eq_refl eq_refl eq_refl eq_refl eq_refl
             (ex_intro _ infinity (conj (or_intror (or_introl eq_refl)) eq_refl))) as H.
    cbv zeta in H. destruct H as [Htrace [Hout _]].
    split; [rewrite Htrace; reflexivity | exact Hout].
Defined.

(** A complex 1 x 1 root with imaginary part 0.5 is refused, and the
    message reports 0.5. *)
Lemma imaginary_component_witness :
  fst (calculate_frechet_distance
         (sqrtm_const (ComplexArray (mk_ndarray [1%nat; 1%nat] [1%float])
                                    (mk_ndarray [1%nat; 1%nat] [0.5%float])))
         (mk_handle 0 [1%nat]) (mk_handle 1 [1%nat; 1%nat])
         (mk_handle 2 [1%nat]) (mk_handle 3 [1%nat; 1%nat]) eps_default
         (world_of [[0%float]; [1%float]; [1%float]; [1%float]]))
  = Raise (ValueError [Str "Imaginary component "; Num 0.5%float]).
Proof.
  exact (imaginary_component_check
           (sqrtm_const (ComplexArray (mk_ndarray [1%nat; 1%nat] [1%float])
                                      (mk_ndarray [1%nat; 1%nat] [0.5%float])))
           (mk_handle 0 [1%nat]) (mk_handle 1 [1%nat; 1%nat])
           (mk_handle 2 [1%nat]) (mk_handle 3 [1%nat; 1%nat]) eps_default
           (world_of [[0%float]; [1%float]; [1%float]; [1%float]])
           (n:=1) (d:=1)
           eq_refl eq_refl eq_refl eq_refl eq_refl eq_refl eq_refl eq_refl).
Defined.

(** C6, the claim as stated fails: when [sqrtm] answers the 1 x 1 complex
    matrix [1 + NaN j], no imaginary part on the diagonal exceeds 1e-3
    ([1e-3 < |NaN|] is false), yet the function raises the error. *)
Lemma imaginary_nan_counterexample :
  let re := mk_ndarray [1%nat; 1%nat] [1%float] in
  let im := mk_ndarray [1%nat; 1%nat] [PrimFloat.nan] in
  existsb (fun x => (1e-3 <? PrimFloat.abs x)%float) (imag_diagonal 1 im) = false
  /\ fst (calculate_frechet_distance (sqrtm_const (ComplexArray re im))
            (mk_handle 0 [1%nat]) (mk_handle 1 [1%nat; 1%nat])
            (mk_handle 2 [1%nat]) (mk_handle 3 [1%nat; 1%nat]) eps_default
            (world_of [[0%float]; [1%float]; [1%float]; [1%float]]))
     = Raise (ValueError [Str "Imaginary component "; Num PrimFloat.nan]).
Proof.
  cbv zeta. split; reflexivity.
Qed.

(* ===================================================================== *)
(** ** The moment estimator *)
(* ===================================================================== *)

Lemma tabulate2_ext {F} {SF : Scalar F} (r c : nat) (f g : nat -> nat -> F) :
  (forall i j, (i < r)%nat -> (j < c)%nat -> f i j = g i j) ->
  tabulate2 r c f = tabulate2 r c g.
Proof.
  intro H. unfold tabulate2.
  assert (G : forall l, (forall i, In i l -> (i < r)%nat) ->
     flat_map (fun i => map (f i) (seq 0 c)) l
     = flat_map (fun i => map (g i) (seq 0 c)) l).
  { induction l as [|i l IH]; simpl; intros Hl; auto.
    f_equal.
    - apply map_ext_in. intros j Hj. apply in_seq in Hj.
      apply H; [apply Hl; now left | lia].
    - apply IH. intros. apply Hl. now right. }
  apply G. intros i Hi. apply in_seq in Hi. lia.
Qed.








(* ===================================================================== *)
(** ** The activation extractor *)
(* ===================================================================== *)

(** The rows [a[start:start + B]] over [start] in [range(0, N, B)] are
    all the rows of [a], in order, for every positive batch size; the
    last slice is the partial batch when [B] does not divide [N]. *)
Lemma slices_up_to (b N c : nat) :
  flat_map (fun k => seq (k * b) (Nat.min (k * b + b) N - k * b)) (seq 0 c)
  = seq 0 (Nat.min (c * b) N).
Proof.
  induction c as [|c IH]; [reflexivity|].
  rewrite seq_S, flat_map_app, IH. cbn [flat_map plus]. rewrite app_nil_r.
  destruct (Nat.le_gt_cases (c * b) N) as [Hle | Hgt].
  - rewrite (Nat.min_l (c * b) N) by exact Hle.
    replace (Nat.min (S c * b) N)
      with (c * b + (Nat.min (c * b + b) N - c * b))%nat by lia.
    symmetry. apply seq_app.
  - rewrite (Nat.min_r (c * b) N) by lia.
    replace (Nat.min (c * b + b) N - c * b)%nat with 0%nat by lia.
    replace (Nat.min (S c * b) N) with N by lia.
    now rewrite app_nil_r.
Qed.

Lemma batches_cover_every_row {F} {SF : Scalar F} (N : nat) (B : Z) :
  (0 < B)%Z ->
  exists starts,
    python_range (F:=F) 0 (Z.of_nat N) B = Ok starts /\
    flat_map (fun i => seq (Z.to_nat i)
                           (Nat.min (Z.to_nat (i + B)) N - Z.to_nat i)) starts
    = seq 0 N.
Proof.
  intro HB. unfold python_range.
  destruct (Z.eqb_spec B 0); [lia|].
  destruct (Z.ltb_spec 0 B); [|lia].
  eexists. split; [reflexivity|].
  rewrite flat_map_concat_map, map_map, <- flat_map_concat_map.
  set (c := Z.to_nat _).
  set (b := Z.to_nat B).
  rewrite (flat_map_ext _ (fun k => seq (k * b) (Nat.min (k * b + b) N - k * b))).
  - rewrite slices_up_to. f_equal. apply Nat.min_r.
    subst c b. destruct (Z.ltb_spec 0 (Z.of_nat N)) as [HN | HN].
    + replace (Z.of_nat N - 0 - 1)%Z with (Z.of_nat N - 1)%Z by lia.
      assert (Hq : (Z.of_nat N - 1 < B * ((Z.of_nat N - 1) / B + 1))%Z).
      { pose proof (Z.mul_succ_div_gt (Z.of_nat N - 1) B HB). lia. }
      assert (H0 : (0 <= (Z.of_nat N - 1) / B)%Z)
        by (apply Z.div_pos; lia).
      nia.
    + lia.
  - intro k. subst b.
    replace (Z.to_nat (0 + Z.of_nat k * B)) with (k * Z.to_nat B)%nat by nia.
    replace (Z.to_nat (0 + Z.of_nat k * B + B))
      with (k * Z.to_nat B + Z.to_nat B)%nat by nia.
    reflexivity.
Qed.

(** C2, what the code does on the input of the specification: with 7
    images and batch size 3 the network is run on three batches, of 3, 3
    and 1 images, and the array returned has 7 rows, the last one being
    the activation of the seventh image (not 6 rows with the partial
    batch dropped). *)
Theorem seven_images_batch_three :
  let run := get_activations_numpy (fun a => a) (fun a => a)
               (fun _ => PrimFloat.nan)
               (mk_handle 0 [7; 1; 1; 1]%nat) pixel_net 3 1 false false
               (world_of [seven_images]) in
  fst run = Ok (mk_handle 1 [7; 1]%nat)
  /\ heap (snd run) = [seven_images; [0; 1; 2; 3; 4; 5; 6]%float]
  /\ trace (snd run)
     = [ModelEval;
        Printed [Tuple [7; 1; 1; 1]%nat];
        Printed [Str "len "; Int 7];
        ModelForward (mk_ndarray [3; 1; 1; 1]%nat [0; 1; 2]%float) false;
        ModelForward (mk_ndarray [3; 1; 1; 1]%nat [3; 4; 5]%float) false;
        ModelForward (mk_ndarray [1; 1; 1; 1]%nat [6%float]) false].
Proof.
  cbv zeta. repeat split.
Qed.

(* ===================================================================== *)
(** ** The driver *)
(* ===================================================================== *)

(** C3, what the code does when the reference statistics are absent (for
    a dimensionality the table knows): it builds the network, moves it to
    the GPU if asked, prints the diagnostic and raises [SystemExit(0)];
    nothing is loaded and no activation is computed, and the exit status
    of the run is 0, the status of success. *)
Theorem missing_statistics_exit_with_status_zero
    {F : Type} {SF : Scalar F}
    (to_FloatTensor pool : ndarray F -> ndarray F) (uninitialised : nat -> F)
    (sqrtm : ndarray F -> result F (carray F))
    (table : Z -> option Z) (net : list Z -> model)
    (random_rand : list nat -> ndarray F)
    (path : list string) (batch_size : Z) (cuda : bool) (dims : Z)
    (rand_data : bool) (w : world) (block : Z) :
  table dims = Some block ->
  files w stats_path = None ->
  let run := calculate_fid_mnist_npy to_FloatTensor pool uninitialised sqrtm
               table net random_rand path batch_size cuda dims rand_data w in
  fst run = Raise (SystemExit 0)
  /\ exit_status (fst run) = 0%Z
  /\ heap (snd run) = heap w
  /\ trace (snd run)
     = trace w ++ InceptionV3_init [block]
                  :: (if cuda then [ModelCuda] else [])
                  ++ [Printed no_stats_msg].
Proof.
  intros Htable Hfile run. subst run.
  unfold calculate_fid_mnist_npy. rewrite Htable.
  destruct cuda;
    cbv beta iota delta [bind emit ret raise print os_path_exists];
    cbn [files heap trace]; rewrite Hfile;
    cbn [files heap trace fst snd exit_status];
    rewrite <- ?app_assoc; repeat split.
Qed.

Lemma missing_statistics_witness :
  let run := calculate_fid_mnist_npy (fun a => a) (fun a => a)
               (fun _ => PrimFloat.nan) sqrtm_diag block_index_sample
               (fun _ => pixel_net) (fun shp => mk_ndarray shp [])
               ["generated.npy"%string] 50 false 2048 false (world_of []) in
  fst run = Raise (SystemExit 0)
  /\ exit_status (fst run) = 0%Z
  /\ heap (snd run) = []
  /\ trace (snd run) = [InceptionV3_init [3%Z]; Printed no_stats_msg].
Proof.
  exact (missing_statistics_exit_with_status_zero (fun a => a) (fun a => a)
           (fun _ => PrimFloat.nan) sqrtm_diag block_index_sample
           (fun _ => pixel_net) (fun shp => mk_ndarray shp [])
           ["generated.npy"%string] 50 false 2048 false (world_of [])
           (block:=3%Z) eq_refl eq_refl).
Defined.

(* ===================================================================== *)
(** ** Self-distance and zero covariances in binary64 *)
(* ===================================================================== *)







(** Whatever is subtracted from an infinite sum, the result is infinite
    or NaN. *)
Lemma float_infinity_sub (y : float) :
  PrimFloat.is_finite (infinity - y) = false /\
  (PrimFloat.abs (infinity - y) <? 1e-4)%float = false.
Proof.
  assert (E : Prim2SF (infinity - y) = S754_infinity false \/
              Prim2SF (infinity - y) = S754_nan).
  { rewrite FloatAxioms.sub_spec.
    change (Prim2SF infinity) with (S754_infinity false).
    destruct (Prim2SF y) as [s|s| |s m e]; try destruct s; auto. }
  unfold PrimFloat.is_finite, PrimFloat.is_nan, PrimFloat.is_infinity.
  rewrite FloatAxioms.ltb_spec, !FloatAxioms.eqb_spec, !FloatAxioms.abs_spec.
  destruct E as [-> | ->]; split; reflexivity.
Qed.






Lemma np_sum_zeros {A} (l : list A) :
  np_sum (map (fun _ => 0%float) l) = 0%float.
Proof.
  destruct l as [|x l]; [reflexivity|]. cbn [map np_sum].
  induction l as [|y l IH]; [reflexivity|]. exact IH.
Qed.

Lemma Tr_zeros (d : nat) : Tr d (repeat 0%float (d * d)) = 0%float.
Proof.
  unfold Tr.
  rewrite (map_ext _ (fun _ => 0%float)); [apply np_sum_zeros|].
  intro i. unfold get2. change (from_int 0) with 0%float.
  destruct (Nat.lt_ge_cases (i * d + i) (d * d)) as [Hlt | Hge].
  - now rewrite nth_repeat_lt.
  - apply nth_overflow. now rewrite repeat_length.
Qed.




Lemma float_is_finite_SF (x : float) :
  PrimFloat.is_finite x
  = match Prim2SF x with
    | S754_zero _ | S754_finite _ _ _ => true
    | _ => false
    end.
Proof.
  unfold PrimFloat.is_finite, PrimFloat.is_nan, PrimFloat.is_infinity.
  rewrite !FloatAxioms.eqb_spec, FloatAxioms.abs_spec.
  change (Prim2SF infinity) with (S754_infinity false).
  destruct (Prim2SF x) as [[|]|[|]| |s m e]; try reflexivity.
  cbn [SFabs]. rewrite !SFeqb_finite_refl.
  destruct s; reflexivity.
Qed.

(** Adding the two zero traces changes nothing but the sign of a zero. *)
Lemma float_add_zeros_sub (x y : float) :
  PrimFloat.is_finite (x + 0 + 0 - y) = PrimFloat.is_finite (x - y).
Proof.
  rewrite !float_is_finite_SF.
  rewrite !FloatAxioms.sub_spec, !FloatAxioms.add_spec.
  change (Prim2SF 0%float) with (S754_zero false).
  destruct (Prim2SF x) as [sx|sx| |sx mx ex]; try reflexivity.
  destruct (Prim2SF y) as [sy|sy| |sy my ey]; destruct sx; try destruct sy; reflexivity.
Qed.




(** C9 (as amended).  In binary64, when both covariances are all-zero
    [d] x [d] matrices and the means are [n]-vectors: the function takes
    the epsilon fallback (the message, then a second call of [sqrtm]) when
    the first answer of [sqrtm], for the zero product, has an element that
    is not finite, and only then; and whenever the root it ends up using
    is [d] x [d], real or of negligible imaginary diagonal, it raises
    nothing and returns [||mu1 - mu2||^2 + 0 + 0 - 2 Tr(root)], which is
    finite exactly when [||mu1 - mu2||^2 - 2 Tr(root)] is. *)
Theorem zero_covariances
    sqrtm mu1 sigma1 mu2 sigma2 (eps : float) (w : world) (n d : nat) first :
  hshape (np_atleast_1d mu1) = [n] ->
  hshape (np_atleast_1d mu2) = [n] ->
  hshape (np_atleast_2d sigma1) = [d; d] ->
  hshape (np_atleast_2d sigma2) = [d; d] ->
  buffer w sigma1 = repeat 0%float (d * d) ->
  buffer w sigma2 = repeat 0%float (d * d) ->
  sqrtm (product d (repeat 0%float (d * d)) (repeat 0%float (d * d))) = Ok first ->
  let run := calculate_frechet_distance sqrtm mu1 sigma1 mu2 sigma2 eps w in
  let zeros := repeat 0%float (d * d) in
  let dd := sq_norm n (vec_sub (buffer w mu1) (buffer w mu2)) in
  (has_nonfinite_entry first ->
   trace (snd run)
   = trace w ++ [SqrtmCall (product d zeros zeros) false;
                 Printed [Str "fid calculation produces singular product; adding ";
                          Num eps; Str " to diagonal of cov estimates"];
                 SqrtmCall (regularised_product d eps zeros zeros) true])
  /\ (~ has_nonfinite_entry first ->
      trace (snd run) = trace w ++ [SqrtmCall (product d zeros zeros) false])
  /\ forall root,
       root_used sqrtm d eps zeros zeros = Ok root ->
       shape (real_part root) = [d; d] ->
       negligible_imag d root ->
       let r := Tr d (data (real_part root)) in
       fst run = Ok (dd + 0 + 0 - 2 * r)%float
       /\ PrimFloat.is_finite (dd + 0 + 0 - 2 * r)
          = PrimFloat.is_finite (dd - 2 * r).
Proof.
  intros Hm1 Hm2 Hs1 Hs2 Hz1 Hz2 Hfirst run zeros dd. subst run zeros dd.
  rewrite (frechet_run sqrtm _ _ _ _ eps w Hm1 Hm2 Hs1 Hs2).
  rewrite Hz1, Hz2. cbn [fst snd trace]. split; [|split].
  - intro Hnon. apply np_isfinite_all_false in Hnon.
    unfold sqrtm_events. now rewrite Hfirst, Hnon.
  - intro Hfin.
    destruct (np_isfinite_all first) eqn:E.
    + unfold sqrtm_events. now rewrite Hfirst, E.
    + exfalso. apply Hfin. now apply np_isfinite_all_false.
  - intros root Hroot Hshape Him. cbv zeta. split.
    + rewrite Hroot.
      rewrite finish_value with (d:=d) by assumption.
      unfold frechet_value. now rewrite Tr_zeros.
    + apply float_add_zeros_sub.
Qed.

(** Zero 2 x 2 covariances and means that differ by [(1, 2)]: the root of
    the zero product is the zero matrix, no fallback is taken, and the
    distance is 5. *)
Lemma zero_covariances_witness :
  let run := calculate_frechet_distance sqrtm_diag
               (mk_handle 0 [2%nat]) (mk_handle 1 [2; 2]%nat)
               (mk_handle 2 [2%nat]) (mk_handle 3 [2; 2]%nat) 1e-6%float
               (world_of [[1; 2]%float; [0; 0; 0; 0]%float;
                          [0; 0]%float; [0; 0; 0; 0]%float]) in
  trace (snd run) = [SqrtmCall (mk_ndarray [2; 2]%nat [0; 0; 0; 0]%float) false]
  /\ fst run = Ok 5%float
  /\ PrimFloat.is_finite 5 = true.
Proof.
  cbv zeta.
  pose proof (zero_covariances sqrtm_diag
           (mk_handle 0 [2%nat]) (mk_handle 1 [2; 2]%nat)
           (mk_handle 2 [2%nat]) (mk_handle 3 [2; 2]%nat) 1e-6%float
           (world_of [[1; 2]%float; [0; 0; 0; 0]%float;
                      [0; 0]%float; [0; 0; 0; 0]%float])
           (n:=2) (d:=2)
           (first:=RealArray (mk_ndarray [2; 2]%nat [0; 0; 0; 0]%float))
           eq_refl eq_refl eq_refl eq_refl eq_refl eq_refl eq_refl) as H.
  cbv zeta in H. destruct H as (_ & Hquiet & Hvalue).
  split.
  - apply Hquiet. intros (x & Hin & Hx).
    repeat (destruct Hin as [<- | Hin]; [discriminate Hx|]). exact Hin.
  - destruct (Hvalue (RealArray (mk_ndarray [2; 2]%nat [0; 0; 0; 0]%float))
                eq_refl eq_refl I) as [Hrun Hfinite].
    split; [exact Hrun | exact Hfinite].
Defined.

(** C9, the claim as stated fails.  For zero 1 x 1 covariances the root
    of the zero product is the finite 0: the function calls [sqrtm] once,
    prints nothing and takes no fallback.  And with the means 1e200 and 0,
    [||mu1 - mu2||^2] overflows, and whatever [sqrtm] answers the function
    returns no finite value (it returns an infinity or NaN, or raises). *)
Lemma zero_covariances_counterexample :
  (let run := calculate_frechet_distance sqrtm_diag
                (mk_handle 0 [1%nat]) (mk_handle 1 [1%nat; 1%nat])
                (mk_handle 2 [1%nat]) (mk_handle 3 [1%nat; 1%nat]) eps_default
                (world_of [[3%float]; [0%float]; [1%float]; [0%float]]) in
   sqrtm_diag (mk_ndarray [1; 1]%nat [0%float])
   = Ok (RealArray (mk_ndarray [1; 1]%nat [0%float]))
   /\ trace (snd run) = [SqrtmCall (mk_ndarray [1; 1]%nat [0%float]) false]
   /\ fst run = Ok 4%float)
  /\
  (let mu1 := mk_handle 0 [1%nat] in
   let sigma1 := mk_handle 1 [1%nat; 1%nat] in
   let mu2 := mk_handle 2 [1%nat] in
   let sigma2 := mk_handle 3 [1%nat; 1%nat] in
   let w := world_of [[1e200%float]; [0%float]; [0%float]; [0%float]] in
   (hshape mu1 = hshape mu2 /\ hshape sigma1 = hshape sigma2 /\
    buffer w sigma1 = [0%float] /\ buffer w sigma2 = [0%float]) /\
   forall sqrtm dist,
     fst (calculate_frechet_distance sqrtm mu1 sigma1 mu2 sigma2 eps_default w)
     = Ok dist ->
     PrimFloat.is_finite dist = false).
Proof.
  split.
  - cbv zeta. repeat split.
  - cbv zeta. split; [repeat split|]. intros sqrtm dist.
    rewrite (frechet_run sqrtm (mk_handle 0 [1%nat]) (mk_handle 1 [1%nat; 1%nat])
               (mk_handle 2 [1%nat]) (mk_handle 3 [1%nat; 1%nat]) eps_default
               (world_of [[1e200%float]; [0%float]; [0%float]; [0%float]])
               (n:=1) (d:=1) eq_refl eq_refl eq_refl eq_refl).
    cbn [fst].
    destruct (root_used _ _ _ _ _) as [root|e]; [|discriminate].
    unfold finish.
    destruct (imaginary_check root); [|discriminate].
    destruct (np_trace (real_part root)) as [t|e]; [|discriminate].
    intro H. injection H as <-.
    apply (proj1 (float_infinity_sub _)).
Qed.

(* ===================================================================== *)
(** * Properties of the whole script *)
(* ===================================================================== *)

(** ** Running the monad step by step; lists as tables *)

Section Stepping.
Context {F : Type} {SF : Scalar F}.

Lemma bind_ret A B (a : A) (k : A -> Py (F:=F) B) w : bind (ret a) k w = k a w.
Proof. reflexivity. Qed.
Lemma bind_lift_ok A B (a : A) (k : A -> Py (F:=F) B) w :
  bind (lift (Ok a)) k w = k a w.
Proof. reflexivity. Qed.
Lemma bind_emit B (ev : event) (k : unit -> Py (F:=F) B) w :
  bind (emit ev) k w = k tt (mk_world (heap w) (files w) (trace w ++ [ev])).
Proof. reflexivity. Qed.
Lemma bind_load B (h : handle) (k : ndarray F -> Py B) w :
  bind (load h) k w = k (mk_ndarray (hshape h) (nth (base h) (heap w) [])) w.
Proof. reflexivity. Qed.
Lemma bind_alloc B (a : ndarray F) (k : handle -> Py B) w :
  bind (alloc a) k w
  = k (mk_handle (List.length (heap w)) (shape a))
      (mk_world (heap w ++ [data a]) (files w) (trace w)).
Proof. reflexivity. Qed.
Lemma bind_store B (h : handle) (d : list F) (k : unit -> Py B) w :
  bind (store h d) k w
  = k tt (mk_world (set_nth (base h) d (heap w)) (files w) (trace w)).
Proof. reflexivity. Qed.
Lemma bind_bind A B C (m : Py (F:=F) A) (k : A -> Py B) (k' : B -> Py C) w :
  bind (bind m k) k' w = bind m (fun a => bind (k a) k') w.
Proof. unfold bind. destruct (m w) as [[a|e] w']; reflexivity. Qed.

Lemma set_nth_last A (l : list A) (x y : A) :
  set_nth (List.length l) y (l ++ [x]) = l ++ [y].
Proof. induction l as [|z l IH]; simpl; [reflexivity|]. now rewrite IH. Qed.

Lemma nth_map_block (d : list F) (def : F) (c o : nat) :
  (o + c <= List.length d)%nat ->
  map (fun j => nth (o + j) d def) (seq 0 c) = firstn c (skipn o d).
Proof.
  revert o d. induction c as [|c IH]; intros o d H; [reflexivity|].
  cbn [seq map]. rewrite <- seq_shift, map_map.
  destruct (skipn o d) as [|x t] eqn:E.
  - assert (List.length (skipn o d) = 0%nat) by now rewrite E.
    rewrite length_skipn in H0. lia.
  - cbn [firstn]. f_equal.
    + rewrite Nat.add_0_r.
      rewrite <- (firstn_skipn o d) at 1.
      rewrite app_nth2; rewrite length_firstn; [|lia].
      replace (o - Nat.min o (List.length d))%nat with 0%nat by lia.
      now rewrite E.
    + rewrite (map_ext _ (fun j => nth (S o + j) d def))
        by (intro j; f_equal; lia).
      rewrite IH by lia.
      f_equal. replace (S o) with (1 + o)%nat by lia.
      rewrite <- skipn_skipn, E. reflexivity.
Qed.

Lemma tabulate2_get2 (k c : nat) (d : list F) :
  (k * c <= List.length d)%nat ->
  tabulate2 k c (get2 c d) = firstn (k * c) d.
Proof.
  unfold tabulate2.
  induction k as [|k IH]; intro H; [reflexivity|].
  rewrite seq_S, flat_map_app, IH by lia. cbn [flat_map plus].
  rewrite app_nil_r. unfold get2.
  rewrite nth_map_block by lia.
  replace (S k * c)%nat with (k * c + c)%nat by lia.
  rewrite <- (firstn_skipn (k * c) d) at 3.
  rewrite firstn_app, firstn_firstn.
  rewrite length_firstn.
  replace (Nat.min (k * c + c) (k * c)) with (k * c)%nat by lia.
  replace (k * c + c - Nat.min (k * c) (List.length d))%nat with c by lia.
  reflexivity.
Qed.

Lemma tabulate2_broadcast (k c : nat) (d : list F) :
  List.length d = (k * c)%nat ->
  tabulate2 k c (fun i j =>
     get2 c d (if Nat.eqb k 1 then 0%nat else i) (if Nat.eqb c 1 then 0%nat else j))
  = d.
Proof.
  intro H.
  rewrite (@tabulate2_ext F SF k c _ (get2 c d)).
  - rewrite tabulate2_get2 by lia. rewrite <- H. apply firstn_all.
  - intros i j Hi Hj.
    destruct (Nat.eqb_spec k 1); destruct (Nat.eqb_spec c 1); f_equal; lia.
Qed.

End Stepping.


(** ** The run of the extractor *)

Ltac py_step :=
  first [ rewrite bind_ret | rewrite bind_lift_ok | rewrite bind_emit
        | rewrite bind_load | rewrite bind_alloc | rewrite bind_bind ];
  cbv beta.

Section Extractor.
Context {F : Type} {SF : Scalar F}.
Variable to_FloatTensor pool : ndarray F -> ndarray F.
Variable uninitialised : nat -> F.

Lemma range_positive (N : nat) (b : Z) :
  (0 < N)%nat -> (0 < b)%Z ->
  exists cnt,
    python_range (F:=F) 0 (Z.of_nat N) b
    = Ok (map (fun k => (0 + Z.of_nat k * b)%Z) (seq 0 cnt))
    /\ (forall k, (k < cnt)%nat -> (k * Z.to_nat b < N)%nat)
    /\ (N <= cnt * Z.to_nat b)%nat.
Proof.
  intros HN Hb. unfold python_range.
  destruct (Z.eqb_spec b 0); [lia|].
  destruct (Z.ltb_spec 0 b); [|lia].
  destruct (Z.ltb_spec 0 (Z.of_nat N)); [|lia].
  eexists. split; [reflexivity|].
  replace (Z.of_nat N - 0 - 1)%Z with (Z.of_nat N - 1)%Z by lia.
  assert (H1 : (0 <= (Z.of_nat N - 1) / b)%Z) by (apply Z.div_pos; lia).
  assert (H2 : (b * ((Z.of_nat N - 1) / b) <= Z.of_nat N - 1)%Z)
    by (apply Z.mul_div_le; lia).
  assert (H3 : (Z.of_nat N - 1 < b * ((Z.of_nat N - 1) / b + 1))%Z).
  { pose proof (Z.mul_succ_div_gt (Z.of_nat N - 1) b Hb). lia. }
  split.
  - intros k Hk. nia.
  - nia.
Qed.

(** Lines 106-109, whatever follows them. *)
Lemma clamp_step A (N : nat) (B : Z) (k : Z -> Py (F:=F) A) w0 :
  bind (if (Z.of_nat N <? B)%Z
        then bind (emit (Printed batch_warning)) (fun _ => ret (Z.of_nat N))
        else ret B) k w0
  = k (effective_batch_size N B)
      (mk_world (heap w0) (files w0)
         (trace w0 ++ (if (Z.of_nat N <? B)%Z
                       then [Printed batch_warning] else []))).
Proof.
  unfold effective_batch_size. destruct (Z.of_nat N <? B)%Z.
  - reflexivity.
  - rewrite bind_ret, app_nil_r. destruct w0; reflexivity.
Qed.

(** The run of the extractor on a non-empty input with a positive batch
    size, when the network answers every batch: the result, the heap and
    the trace. *)
Lemma extractor_run_pooled
    (np_array : handle) (mdl : model) (B dims : Z) (cuda : bool)
    (w : world) (N : nat) (rest : list nat) (net : ndarray F -> ndarray F) :
  hshape np_array = N :: rest ->
  (base np_array < List.length (heap w))%nat ->
  (0 < N)%nat -> (0 < B)%Z -> (0 <= dims)%Z ->
  let a := mk_ndarray (N :: rest) (buffer w np_array) in
  let b := effective_batch_size N B in
  (forall i, In i (batch_starts (F:=F) N b) ->
     forward mdl (batch_at to_FloatTensor a b i)
     = Ok (net (batch_at to_FloatTensor a b i))
     /\ (4 <= List.length (shape (net (batch_at to_FloatTensor a b i))))%nat
     /\ shape (pooled pool (net (batch_at to_FloatTensor a b i)))
        = [rows_at N b i; Z.to_nat dims; 1; 1]%nat
     /\ List.length (data (pooled pool (net (batch_at to_FloatTensor a b i))))
        = (rows_at N b i * Z.to_nat dims)%nat) ->
  get_activations_numpy to_FloatTensor pool uninitialised
    np_array mdl B dims cuda false w
  = (Ok (mk_handle (List.length (heap w)) [N; Z.to_nat dims]),
     mk_world
       (heap w ++ [flat_map (fun i => data (pooled pool
                                             (net (batch_at to_FloatTensor a b i))))
                            (batch_starts (F:=F) N b)])
       (files w)
       (trace w ++ extractor_prelude (N :: rest) N B
                ++ map (fun i => ModelForward (batch_at to_FloatTensor a b i) cuda)
                       (batch_starts (F:=F) N b)))
  /\ List.length (flat_map (fun i => data (pooled pool
                                            (net (batch_at to_FloatTensor a b i))))
                           (batch_starts (F:=F) N b))
     = (N * Z.to_nat dims)%nat.
Proof.
  intros Hshape Hbase HN HB Hd a b Hnet.
  assert (Hb : (0 < b)%Z).
  { subst b. unfold effective_batch_size.
    destruct (Z.ltb_spec (Z.of_nat N) B); lia. }
  destruct (range_positive HN Hb) as (cnt & Hrange & Hlt & Hge).
  assert (Hstarts : batch_starts (F:=F) N b
                    = map (fun k => (0 + Z.of_nat k * b)%Z) (seq 0 cnt)).
  { unfold batch_starts. now rewrite Hrange. }
  rewrite Hstarts in *.
  set (bn := Z.to_nat b) in *.
  set (c := Z.to_nat dims) in *.
  set (st := fun k : nat => (0 + Z.of_nat k * b)%Z) in *.
  set (od := fun i : Z =>
               data (pooled pool (net (batch_at to_FloatTensor a b i)))) in *.
  set (ev := fun i : Z => ModelForward (batch_at to_FloatTensor a b i) cuda).
  set (U := map uninitialised (seq 0 (size_of [N; c]))).
  set (done := fun j : nat => flat_map od (map st (seq 0 j))).
  assert (Hst : forall k, Z.to_nat (st k) = (k * bn)%nat /\
                          Z.to_nat (st k + b) = (k * bn + bn)%nat).
  { intro k. subst st bn. cbv beta. split; nia. }
  assert (Hrows : forall k, (k < cnt)%nat ->
            rows_at N b (st k) = (Nat.min (k * bn + bn) N - k * bn)%nat).
  { intros k Hk. unfold rows_at. destruct (Hst k) as [-> ->]. reflexivity. }
  assert (Hdone_S : forall j, done (S j) = done j ++ od (st j)).
  { intro j. unfold done. rewrite seq_S, map_app, flat_map_app.
    cbn [map flat_map plus]. now rewrite app_nil_r. }
  assert (Hlen : forall j, (j <= cnt)%nat ->
            List.length (done j) = (Nat.min (j * bn) N * c)%nat).
  { induction j as [|j IH]; intro Hj; [reflexivity|].
    rewrite Hdone_S, length_app, IH by lia.
    destruct (Hnet (st j)) as (_ & _ & _ & Hl).
    { apply in_map, in_seq. lia. }
    unfold od. rewrite Hl, Hrows by lia.
    pose proof (Hlt j ltac:(lia)).
    replace (S j * bn)%nat with (j * bn + bn)%nat by lia.
    rewrite Nat.min_l by lia. nia. }
  assert (Hfinal : List.length (done cnt) = (N * c)%nat).
  { rewrite Hlen by lia. rewrite Nat.min_r by lia. reflexivity. }
  split; [|exact Hfinal].
  (* the prelude *)
  unfold get_activations_numpy.
  destruct np_array as [nb nshape]. cbn [hshape base] in *. subst nshape.
  unfold print. do 3 py_step. cbn [hshape base shape heap files trace].
  unfold py_len at 1. cbn [shape]. do 2 py_step.
  cbn [heap files trace].
  rewrite clamp_step. fold b. cbv beta. cbn [heap files trace].
  destruct (Z.ltb_spec dims 0); [lia|].
  do 2 py_step. cbn [heap files trace shape data np_empty].
  fold c. fold U.
  rewrite Hrange. py_step.
  match goal with
  | |- bind (for_each _ ?bd) _ _ = _ => set (body := bd)
  end.
  (* one turn of the loop *)
  assert (Hbody : forall j w0,
     (j < cnt)%nat ->
     heap w0 = heap w ++ [done j ++ skipn (List.length (done j)) U] ->
     body (st j) w0
     = (Ok tt,
        mk_world (heap w ++ [done (S j) ++ skipn (List.length (done (S j))) U])
          (files w0) (trace w0 ++ [ev (st j)]))).
  { intros j w0 Hj Hheap. unfold body.
    rewrite bind_ret, bind_load. cbn [hshape base].
    rewrite Hheap, app_nth1 by exact Hbase.
    change (nth nb (heap w) []) with (buffer w (mk_handle nb (N :: rest))).
    fold a.
    change (to_FloatTensor
              (slice_rows (Z.to_nat (st j)) (Z.to_nat (st j + b)) a))
      with (batch_at to_FloatTensor a b (st j)).
    rewrite bind_emit. cbn [heap files trace].
    destruct (Hnet (st j)) as (Hfw & Hdim & Hsh & Hl).
    { apply in_map, in_seq. lia. }
    rewrite Hfw, bind_lift_ok.
    (* lines 136-137 *)
    assert (Hpool : forall (k : bool -> Py (F:=F) unit) w1,
       bind (lift (tensor_size (net (batch_at to_FloatTensor a b (st j))) 2))
         (fun h =>
            bind (if negb (Nat.eqb h 1) then ret true
                  else bind (lift (tensor_size
                                     (net (batch_at to_FloatTensor a b (st j))) 3))
                         (fun w => ret (negb (Nat.eqb w 1))))
                 k) w1
       = k (negb (Nat.eqb (nth 2 (shape (net (batch_at to_FloatTensor a b (st j)))) 1%nat) 1)
            || negb (Nat.eqb (nth 3 (shape (net (batch_at to_FloatTensor a b (st j)))) 1%nat) 1))
           w1).
    { intros k w1. unfold tensor_size.
      destruct (shape (net (batch_at to_FloatTensor a b (st j))))
        as [|x0 [|x1 [|x2 [|x3 l]]]]; cbn [List.length] in Hdim; try lia.
      cbn [nth_error nth]. rewrite bind_lift_ok.
      destruct (Nat.eqb x2 1); cbn [negb orb].
      - rewrite bind_bind, bind_lift_ok, bind_ret. reflexivity.
      - rewrite bind_ret. reflexivity. }
    rewrite Hpool. cbv beta.
    fold (pooled pool (net (batch_at to_FloatTensor a b (st j)))).
    unfold reshape_rows. rewrite Hsh.
    pose proof (Hlt j Hj) as Hjn.
    assert (Hk : rows_at N b (st j) <> 0%nat) by (rewrite Hrows by lia; lia).
    destruct (rows_at N b (st j)) as [|k'] eqn:Ek; [congruence|].
    rewrite <- Ek in *. clear Ek k'.
    rewrite bind_lift_ok, bind_load. cbn [hshape base heap].
    rewrite Hheap, nth_middle.
    unfold set_rows. cbn [shape data size_of fold_right].
    rewrite !Nat.mul_1_r.
    change (Nat.min (Z.to_nat (st j + b)) N - Z.to_nat (st j))%nat
      with (rows_at N b (st j)).
    rewrite !Nat.eqb_refl. cbn [orb andb].
    rewrite bind_lift_ok.
    unfold store. cbn [base heap files trace].
    rewrite set_nth_last.
    rewrite tabulate2_broadcast by exact Hl.
    do 3 f_equal.
    destruct (Hst j) as [-> _].
    pose proof (Hlen j ltac:(lia)) as Hlj. rewrite Nat.min_l in Hlj by lia.
    rewrite Hdone_S, length_app. fold (od (st j)).
    rewrite <- app_assoc.
    rewrite firstn_app, firstn_all2 by lia.
    rewrite Hlj, Nat.sub_diag. cbn [firstn]. rewrite app_nil_r.
    do 2 f_equal.
    rewrite skipn_app, skipn_all2 by lia. cbn [app].
    rewrite skipn_skipn. unfold od. rewrite Hl, Hlj.
    do 2 f_equal. nia. }
  (* the loop *)
  assert (Hloop : forall m j w0,
     (j + m = cnt)%nat ->
     heap w0 = heap w ++ [done j ++ skipn (List.length (done j)) U] ->
     for_each (map st (seq j m)) body w0
     = (Ok tt,
        mk_world (heap w ++ [done cnt ++ skipn (List.length (done cnt)) U])
          (files w0) (trace w0 ++ map ev (map st (seq j m))))).
  { induction m as [|m IH]; intros j w0 Hjm Hheap.
    - cbn [seq map for_each]. replace j with cnt in Hheap by lia.
      rewrite app_nil_r, <- Hheap. destruct w0; reflexivity.
    - cbn [seq map for_each]. unfold bind at 1.
      rewrite (Hbody j w0) by (lia || exact Hheap).
      rewrite IH by (lia || reflexivity).
      cbn [heap files trace]. now rewrite <- app_assoc. }
  unfold bind at 1.
  rewrite (Hloop cnt 0%nat) by (reflexivity || lia).
  cbn [heap files trace]. py_step.
  unfold ret. f_equal.
  rewrite Hfinal.
  rewrite skipn_all2, app_nil_r
    by (subst U; rewrite length_map, length_seq; cbn [size_of fold_right]; lia).
  unfold extractor_prelude. rewrite <- !app_assoc. reflexivity.
Qed.

Lemma flat_map_ext_in A B (f g : A -> list B) (l : list A) :
  (forall x, In x l -> f x = g x) -> flat_map f l = flat_map g l.
Proof.
  intro H. rewrite !flat_map_concat_map. f_equal. now apply map_ext_in.
Qed.

(** The same when the answers are of size 1 x 1 already: no pooling. *)
Lemma extractor_run
    (np_array : handle) (mdl : model) (B dims : Z) (cuda : bool)
    (w : world) (N : nat) (rest : list nat) (net : ndarray F -> ndarray F) :
  hshape np_array = N :: rest ->
  (base np_array < List.length (heap w))%nat ->
  (0 < N)%nat -> (0 < B)%Z -> (0 <= dims)%Z ->
  let a := mk_ndarray (N :: rest) (buffer w np_array) in
  let b := effective_batch_size N B in
  (forall i, In i (batch_starts (F:=F) N b) ->
     forward mdl (batch_at to_FloatTensor a b i)
     = Ok (net (batch_at to_FloatTensor a b i))
     /\ shape (net (batch_at to_FloatTensor a b i))
        = [rows_at N b i; Z.to_nat dims; 1; 1]%nat
     /\ List.length (data (net (batch_at to_FloatTensor a b i)))
        = (rows_at N b i * Z.to_nat dims)%nat) ->
  get_activations_numpy to_FloatTensor pool uninitialised
    np_array mdl B dims cuda false w
  = (Ok (mk_handle (List.length (heap w)) [N; Z.to_nat dims]),
     mk_world
       (heap w ++ [flat_map (fun i => data (net (batch_at to_FloatTensor a b i)))
                            (batch_starts (F:=F) N b)])
       (files w)
       (trace w ++ extractor_prelude (N :: rest) N B
                ++ map (fun i => ModelForward (batch_at to_FloatTensor a b i) cuda)
                       (batch_starts (F:=F) N b)))
  /\ List.length (flat_map (fun i => data (net (batch_at to_FloatTensor a b i)))
                           (batch_starts (F:=F) N b))
     = (N * Z.to_nat dims)%nat.
Proof.
  intros Hshape Hbase HN HB Hd a b Hnet.
  assert (Hid : forall i, In i (batch_starts (F:=F) N b) ->
            pooled pool (net (batch_at to_FloatTensor a b i))
            = net (batch_at to_FloatTensor a b i)).
  { intros i Hi. destruct (Hnet i Hi) as (_ & Hsh & _).
    unfold pooled. now rewrite Hsh. }
  assert (Hrows : flat_map (fun i => data (pooled pool
                                            (net (batch_at to_FloatTensor a b i))))
                           (batch_starts (F:=F) N b)
                  = flat_map (fun i => data (net (batch_at to_FloatTensor a b i)))
                             (batch_starts (F:=F) N b)).
  { apply flat_map_ext_in. intros i Hi. now rewrite Hid. }
  rewrite <- Hrows.
  apply (extractor_run_pooled np_array mdl cuda w net Hshape Hbase HN HB Hd).
  intros i Hi. destruct (Hnet i Hi) as (Hfw & Hsh & Hl).
  fold a b. rewrite (Hid i Hi), Hsh. cbn [List.length].
  repeat split; auto; lia.
Qed.

End Extractor.


Section ExtractorFacts.
Context {F : Type} {SF : Scalar F}.
Variable to_FloatTensor pool : ndarray F -> ndarray F.
Variable uninitialised : nat -> F.

(** X1.  For an input of [N >= 1] images, a positive batch size and a
    network that answers each batch of [k] images with a [(k, dims, 1, 1)]
    tensor, [get_activations_numpy] (not verbose) returns a fresh array of
    shape [(N, dims)] that holds the features of all the batches in order:
    [N * dims] numbers, the trailing partial batch included, and nothing
    of what [np.empty] found in memory. *)
Theorem extractor_returns_every_row
    (np_array : handle) (mdl : model) (B dims : Z) (cuda : bool)
    (w : world) (N : nat) (rest : list nat) (net : ndarray F -> ndarray F) :
  hshape np_array = N :: rest ->
  (base np_array < List.length (heap w))%nat ->
  (0 < N)%nat -> (0 < B)%Z -> (0 <= dims)%Z ->
  let a := mk_ndarray (N :: rest) (buffer w np_array) in
  let b := effective_batch_size N B in
  (forall i, In i (batch_starts (F:=F) N b) ->
     forward mdl (batch_at to_FloatTensor a b i)
     = Ok (net (batch_at to_FloatTensor a b i))
     /\ shape (net (batch_at to_FloatTensor a b i))
        = [rows_at N b i; Z.to_nat dims; 1; 1]%nat
     /\ List.length (data (net (batch_at to_FloatTensor a b i)))
        = (rows_at N b i * Z.to_nat dims)%nat) ->
  let run := get_activations_numpy to_FloatTensor pool uninitialised
               np_array mdl B dims cuda false w in
  let rows := flat_map (fun i => data (net (batch_at to_FloatTensor a b i)))
                       (batch_starts (F:=F) N b) in
  fst run = Ok (mk_handle (List.length (heap w)) [N; Z.to_nat dims])
  /\ heap (snd run) = heap w ++ [rows]
  /\ List.length rows = (N * Z.to_nat dims)%nat.
Proof.
  intros Hshape Hbase HN HB Hd a b Hnet run rows.
  destruct (extractor_run to_FloatTensor pool uninitialised np_array mdl cuda
              w net Hshape Hbase HN HB Hd Hnet) as [Hrun Hlen].
  subst run. rewrite Hrun. cbn [fst snd heap]. auto.
Qed.

(** X2.  Under the same conditions the extractor prints the shape and the
    length, then runs the network once per start of
    [range(0, N, batch_size)], on [np_array[i : i + batch_size]], in
    order; the slices are consecutive row ranges that cover all [N] rows,
    and there are [ceil(N / batch_size)] of them. *)
Theorem extractor_calls_the_network_batch_by_batch
    (np_array : handle) (mdl : model) (B dims : Z) (cuda : bool)
    (w : world) (N : nat) (rest : list nat) (net : ndarray F -> ndarray F) :
  hshape np_array = N :: rest ->
  (base np_array < List.length (heap w))%nat ->
  (0 < N)%nat -> (0 < B)%Z -> (0 <= dims)%Z ->
  let a := mk_ndarray (N :: rest) (buffer w np_array) in
  let b := effective_batch_size N B in
  (forall i, In i (batch_starts (F:=F) N b) ->
     forward mdl (batch_at to_FloatTensor a b i)
     = Ok (net (batch_at to_FloatTensor a b i))
     /\ shape (net (batch_at to_FloatTensor a b i))
        = [rows_at N b i; Z.to_nat dims; 1; 1]%nat
     /\ List.length (data (net (batch_at to_FloatTensor a b i)))
        = (rows_at N b i * Z.to_nat dims)%nat) ->
  let run := get_activations_numpy to_FloatTensor pool uninitialised
               np_array mdl B dims cuda false w in
  trace (snd run)
  = trace w ++ extractor_prelude (N :: rest) N B
            ++ map (fun i => ModelForward (batch_at to_FloatTensor a b i) cuda)
                   (batch_starts (F:=F) N b)
  /\ flat_map (fun i => seq (Z.to_nat i) (rows_at N b i)) (batch_starts (F:=F) N b)
     = seq 0 N
  /\ Z.of_nat (List.length (batch_starts (F:=F) N b))
     = ((Z.of_nat N + b - 1) / b)%Z.
Proof.
  intros Hshape Hbase HN HB Hd a b Hnet run.
  destruct (extractor_run to_FloatTensor pool uninitialised np_array mdl cuda
              w net Hshape Hbase HN HB Hd Hnet) as [Hrun _].
  subst run. rewrite Hrun. cbn [snd trace].
  assert (Hb : (0 < b)%Z).
  { subst b. unfold effective_batch_size.
    destruct (Z.ltb_spec (Z.of_nat N) B); lia. }
  split; [reflexivity|]. split.
  - destruct (batches_cover_every_row (F:=F) N Hb) as (starts & Hr & Hcover).
    unfold batch_starts. rewrite Hr. exact Hcover.
  - unfold batch_starts, python_range.
    destruct (Z.eqb_spec b 0); [lia|].
    destruct (Z.ltb_spec 0 b); [|lia].
    destruct (Z.ltb_spec 0 (Z.of_nat N)); [|lia].
    rewrite length_map, length_seq.
    replace (Z.of_nat N + b - 1)%Z with (Z.of_nat N - 1 + 1 * b)%Z by lia.
    rewrite Z.div_add by lia.
    replace (Z.of_nat N - 0 - 1)%Z with (Z.of_nat N - 1)%Z by lia.
    assert ((0 <= (Z.of_nat N - 1) / b)%Z) by (apply Z.div_pos; lia).
    lia.
Qed.

Lemma slice_rows_all (N : nat) (rest : list nat) (d : list F) :
  List.length d = size_of (N :: rest) ->
  slice_rows 0 N (mk_ndarray (N :: rest) d) = mk_ndarray (N :: rest) d.
Proof.
  intro H. unfold slice_rows. cbn [shape data skipn Nat.mul].
  rewrite Nat.min_id, Nat.sub_0_r. f_equal.
  apply firstn_all2. cbn [size_of fold_right] in H. fold (size_of rest) in H. lia.
Qed.

(** X3.  A batch size larger than the number of images is cut down to
    it: the warning is printed and the network is run exactly once, on the
    whole array. *)
Theorem oversized_batch_is_one_batch
    (np_array : handle) (mdl : model) (B dims : Z) (cuda : bool)
    (w : world) (N : nat) (rest : list nat) (out : ndarray F) :
  hshape np_array = N :: rest ->
  (base np_array < List.length (heap w))%nat ->
  List.length (buffer w np_array) = size_of (N :: rest) ->
  (0 < N)%nat -> (Z.of_nat N < B)%Z -> (0 <= dims)%Z ->
  let a := mk_ndarray (N :: rest) (buffer w np_array) in
  forward mdl (to_FloatTensor a) = Ok out ->
  shape out = [N; Z.to_nat dims; 1; 1]%nat ->
  List.length (data out) = (N * Z.to_nat dims)%nat ->
  get_activations_numpy to_FloatTensor pool uninitialised
    np_array mdl B dims cuda false w
  = (Ok (mk_handle (List.length (heap w)) [N; Z.to_nat dims]),
     mk_world (heap w ++ [data out]) (files w)
       (trace w ++ [ModelEval; Printed [Tuple (N :: rest)];
                    Printed [Str "len "; Int (Z.of_nat N)];
                    Printed batch_warning;
                    ModelForward (to_FloatTensor a) cuda])).
Proof.
  intros Hshape Hbase Hwf HN HB Hd a Hfw Hsh Hl.
  assert (Eb : effective_batch_size N B = Z.of_nat N).
  { unfold effective_batch_size. destruct (Z.ltb_spec (Z.of_nat N) B); lia. }
  assert (Es : batch_starts (F:=F) N (Z.of_nat N) = [0%Z]).
  { unfold batch_starts, python_range.
    destruct (Z.eqb_spec (Z.of_nat N) 0); [lia|].
    destruct (Z.ltb_spec 0 (Z.of_nat N)); [|lia].
    replace ((Z.of_nat N - 0 - 1) / Z.of_nat N + 1)%Z with 1%Z
      by (rewrite Z.div_small; lia).
    reflexivity. }
  assert (Ea : batch_at to_FloatTensor a (Z.of_nat N) 0 = to_FloatTensor a).
  { unfold batch_at. cbn [Z.add Z.to_nat]. rewrite Nat2Z.id.
    subst a. now rewrite slice_rows_all. }
  assert (Er : rows_at N (Z.of_nat N) 0 = N).
  { unfold rows_at. cbn [Z.add Z.to_nat]. rewrite Nat2Z.id. lia. }
  destruct (extractor_run to_FloatTensor pool uninitialised np_array mdl cuda
              w (fun _ => out) Hshape Hbase HN (B:=B) ltac:(lia) Hd) as [Hrun _].
  { rewrite Eb, Es. intros i [<-|[]]. fold a. rewrite Ea, Er. auto. }
  rewrite Hrun, Eb, Es. fold a. cbn [map flat_map]. rewrite Ea, app_nil_r.
  unfold extractor_prelude.
  destruct (Z.ltb_spec (Z.of_nat N) B); [|lia].
  reflexivity.
Qed.

(** X4.  With [verbose=True], on a non-empty input and a positive batch
    size, the first turn of the loop raises [NameError] for [n_batches],
    a name the script never binds: the network has not been run, and the
    array of [np.empty] stays behind uninitialised. *)
Theorem verbose_run_stops_on_n_batches
    (np_array : handle) (mdl : model) (B dims : Z) (cuda : bool)
    (w : world) (N : nat) (rest : list nat) :
  hshape np_array = N :: rest ->
  (0 < N)%nat -> (0 < B)%Z -> (0 <= dims)%Z ->
  get_activations_numpy to_FloatTensor pool uninitialised
    np_array mdl B dims cuda true w
  = (Raise (NameError "n_batches"),
     mk_world (heap w ++ [data (np_empty uninitialised [N; Z.to_nat dims])])
       (files w) (trace w ++ extractor_prelude (N :: rest) N B)).
Proof.
  intros Hshape HN HB Hd.
  assert (Hb : (0 < effective_batch_size N B)%Z).
  { unfold effective_batch_size.
    destruct (Z.ltb_spec (Z.of_nat N) B); lia. }
  destruct (range_positive (F:=F) HN Hb) as (cnt & Hrange & Hlt & Hge).
  unfold get_activations_numpy, print.
  destruct np_array as [nb nshape]. cbn [hshape base] in *. subst nshape.
  do 3 py_step. cbn [hshape base shape heap files trace].
  unfold py_len at 1. cbn [shape]. do 2 py_step.
  cbn [heap files trace].
  rewrite clamp_step. cbv beta. cbn [heap files trace].
  destruct (Z.ltb_spec dims 0); [lia|].
  do 2 py_step. cbn [heap files trace shape].
  rewrite Hrange. py_step.
  destruct cnt as [|cnt]; [cbn in Hge; lia|].
  cbn [seq map for_each]. unfold bind, raise.
  unfold extractor_prelude. rewrite <- !app_assoc. reflexivity.
Qed.

(** X5.  When the batch size the loop would use is 0 (a batch size of
    0, or an empty input with a batch size that is not negative, which is
    cut down to 0), [range] refuses the step: [ValueError], after the
    result array was allocated and before any run of the network. *)
Theorem zero_step_is_a_value_error
    (np_array : handle) (mdl : model) (B dims : Z) (cuda verbose : bool)
    (w : world) (N : nat) (rest : list nat) :
  hshape np_array = N :: rest ->
  effective_batch_size N B = 0%Z -> (0 <= dims)%Z ->
  get_activations_numpy to_FloatTensor pool uninitialised
    np_array mdl B dims cuda verbose w
  = (Raise (ValueError [Str "range() arg 3 must not be zero"]),
     mk_world (heap w ++ [data (np_empty uninitialised [N; Z.to_nat dims])])
       (files w) (trace w ++ extractor_prelude (N :: rest) N B)).
Proof.
  intros Hshape Hb Hd.
  unfold get_activations_numpy, print.
  destruct np_array as [nb nshape]. cbn [hshape base] in *. subst nshape.
  do 3 py_step. cbn [hshape base shape heap files trace].
  unfold py_len at 1. cbn [shape]. do 2 py_step.
  cbn [heap files trace].
  rewrite clamp_step. cbv beta. cbn [heap files trace].
  destruct (Z.ltb_spec dims 0); [lia|].
  do 2 py_step. cbn [heap files trace shape].
  rewrite Hb. unfold python_range. cbn [Z.eqb].
  unfold bind, lift.
  unfold extractor_prelude. rewrite <- !app_assoc. reflexivity.
Qed.

(** X6.  With a negative batch size the range is empty: the network is
    never run and the function returns the [(N, dims)] array of
    [np.empty] as it found it. *)
Theorem negative_batch_size_skips_the_network
    (np_array : handle) (mdl : model) (B dims : Z) (cuda verbose : bool)
    (w : world) (N : nat) (rest : list nat) :
  hshape np_array = N :: rest ->
  (B < 0)%Z -> (0 <= dims)%Z ->
  get_activations_numpy to_FloatTensor pool uninitialised
    np_array mdl B dims cuda verbose w
  = (Ok (mk_handle (List.length (heap w)) [N; Z.to_nat dims]),
     mk_world (heap w ++ [map uninitialised (seq 0 (N * Z.to_nat dims))])
       (files w)
       (trace w ++ [ModelEval; Printed [Tuple (N :: rest)];
                    Printed [Str "len "; Int (Z.of_nat N)]]
                ++ (if verbose then [Printed [Str " done"]] else []))).
Proof.
  intros Hshape HB Hd.
  assert (Eb : effective_batch_size N B = B).
  { unfold effective_batch_size. destruct (Z.ltb_spec (Z.of_nat N) B); lia. }
  unfold get_activations_numpy, print.
  destruct np_array as [nb nshape]. cbn [hshape base] in *. subst nshape.
  do 3 py_step. cbn [hshape base shape heap files trace].
  unfold py_len at 1. cbn [shape]. do 2 py_step.
  cbn [heap files trace].
  rewrite clamp_step. cbv beta. cbn [heap files trace].
  destruct (Z.ltb_spec (Z.of_nat N) B); [lia|].
  destruct (Z.ltb_spec dims 0); [lia|].
  do 2 py_step. cbn [heap files trace shape data np_empty size_of fold_right].
  rewrite Nat.mul_1_r.
  rewrite Eb. unfold python_range.
  destruct (Z.eqb_spec B 0); [lia|].
  destruct (Z.ltb_spec 0 B); [lia|].
  destruct (Z.ltb_spec (Z.of_nat N) 0); [lia|].
  py_step. cbn [Z.to_nat seq map for_each]. py_step.
  rewrite app_nil_r.
  destruct verbose.
  - py_step. cbn [heap files trace]. unfold ret. rewrite <- !app_assoc. reflexivity.
  - py_step. unfold ret. rewrite <- !app_assoc. reflexivity.
Qed.

(** X26.  When the network answers its batches with feature maps that are
    not of size 1 x 1 (a dimensionality other than 2048), the extractor
    stores what [adaptive_avg_pool2d] makes of each answer, not the
    answer: the rows of the result are the pooled maps of the batches, in
    order. *)
Theorem feature_maps_are_pooled
    (np_array : handle) (mdl : model) (B dims : Z) (cuda : bool)
    (w : world) (N : nat) (rest : list nat) (net : ndarray F -> ndarray F) :
  hshape np_array = N :: rest ->
  (base np_array < List.length (heap w))%nat ->
  (0 < N)%nat -> (0 < B)%Z -> (0 <= dims)%Z ->
  let a := mk_ndarray (N :: rest) (buffer w np_array) in
  let b := effective_batch_size N B in
  (forall i, In i (batch_starts (F:=F) N b) ->
     let out := net (batch_at to_FloatTensor a b i) in
     forward mdl (batch_at to_FloatTensor a b i) = Ok out
     /\ (exists height width,
           shape out = [rows_at N b i; Z.to_nat dims; height; width]
           /\ (height <> 1 \/ width <> 1)%nat)
     /\ shape (pool out) = [rows_at N b i; Z.to_nat dims; 1; 1]%nat
     /\ List.length (data (pool out)) = (rows_at N b i * Z.to_nat dims)%nat) ->
  let run := get_activations_numpy to_FloatTensor pool uninitialised
               np_array mdl B dims cuda false w in
  let rows := flat_map (fun i => data (pool (net (batch_at to_FloatTensor a b i))))
                       (batch_starts (F:=F) N b) in
  fst run = Ok (mk_handle (List.length (heap w)) [N; Z.to_nat dims])
  /\ heap (snd run) = heap w ++ [rows]
  /\ List.length rows = (N * Z.to_nat dims)%nat.
Proof.
  intros Hshape Hbase HN HB Hd a b Hnet run rows.
  assert (Hp : forall i, In i (batch_starts (F:=F) N b) ->
            pooled pool (net (batch_at to_FloatTensor a b i))
            = pool (net (batch_at to_FloatTensor a b i))).
  { intros i Hi. destruct (Hnet i Hi) as (_ & (h & wd & Hsh & Hne) & _).
    unfold pooled. rewrite Hsh. cbn [nth].
    destruct (Nat.eqb_spec h 1); destruct (Nat.eqb_spec wd 1);
      try reflexivity.
    exfalso. destruct Hne; congruence. }
  assert (Hrows : flat_map (fun i => data (pooled pool
                                            (net (batch_at to_FloatTensor a b i))))
                           (batch_starts (F:=F) N b) = rows).
  { apply flat_map_ext_in. intros i Hi. now rewrite Hp. }
  destruct (extractor_run_pooled to_FloatTensor pool uninitialised np_array mdl
              cuda w net Hshape Hbase HN HB Hd) as [Hrun Hlen].
  { intros i Hi. destruct (Hnet i Hi) as (Hfw & (h & wd & Hsh & _) & Hps & Hpl).
    fold a b. rewrite (Hp i Hi). split; [exact Hfw|]. split; [|split; assumption].
    rewrite Hsh. cbn [List.length]. lia. }
  subst run. rewrite Hrun. cbn [fst snd heap].
  rewrite <- Hrows. auto.
Qed.

End ExtractorFacts.


(** ** Properties of the world that the script maintains *)

Section Stable.
Context {F : Type} {SF : Scalar F}.
Variable Inv : world (F:=F) -> Prop.

Lemma stable_ret A (a : A) : stable Inv (ret a).
Proof. intros w H. exact H. Qed.
Lemma stable_raise A (e : exn F) : stable Inv (@raise F A e).
Proof. intros w H. exact H. Qed.
Lemma stable_lift A (r : result F A) : stable Inv (lift r).
Proof. intros w H. exact H. Qed.
Lemma stable_load (h : handle) : stable Inv (load h).
Proof. intros w H. exact H. Qed.
Lemma stable_assert (c : bool) (msg : string) : stable Inv (py_assert c msg).
Proof. intros w H. destruct c; exact H. Qed.
Lemma stable_exists (p : string) : stable Inv (os_path_exists p).
Proof. intros w H. exact H. Qed.
Lemma stable_bind A B (m : Py A) (k : A -> Py B) :
  stable Inv m -> (forall a, stable Inv (k a)) -> stable Inv (bind m k).
Proof.
  intros Hm Hk w H. unfold bind. specialize (Hm w H).
  destruct (m w) as [[a|e] w']; cbn [snd] in *.
  - now apply Hk.
  - exact Hm.
Qed.
Lemma stable_if A (b : bool) (m1 m2 : Py A) :
  stable Inv m1 -> stable Inv m2 -> stable Inv (if b then m1 else m2).
Proof. destruct b; auto. Qed.
Lemma stable_for_each A (l : list A) (body : A -> Py unit) :
  (forall x, stable Inv (body x)) -> stable Inv (for_each l body).
Proof.
  intro Hb. induction l as [|x l IH]; cbn [for_each].
  - apply stable_ret.
  - apply stable_bind; auto.
Qed.

End Stable.

Ltac stable_step tac :=
  first
    [ progress cbv beta iota
    | tac
    | apply stable_ret | apply stable_raise | apply stable_lift
    | apply stable_load | apply stable_assert | apply stable_exists
    | apply stable_if
    | apply stable_for_each; intro
    | apply stable_bind; [ | intro ]
    | match goal with
      | |- stable _ (match ?x with _ => _ end) => destruct x
      end ].


Section Invariants.
Context {F : Type} {SF : Scalar F}.
Variable to_FloatTensor pool : ndarray F -> ndarray F.
Variable uninitialised : nat -> F.
Variable sqrtm : ndarray F -> result F (carray F).
Variable table : Z -> option Z.
Variable net : list Z -> model (F:=F).
Variable random_rand : list nat -> ndarray F.

Variable Inv : world (F:=F) -> Prop.
Variables cuda rand_data : bool.
Hypothesis Inv_emit : forall ev, permitted cuda rand_data ev -> stable Inv (emit ev).
Hypothesis Inv_alloc : forall a, stable Inv (alloc a).
Hypothesis Inv_store : forall h d, stable Inv (store h d).

Lemma extractor_stable
    (np_array : handle) (mdl : model) (B dims : Z) (verbose : bool) :
  stable Inv (get_activations_numpy to_FloatTensor pool uninitialised
                np_array mdl B dims cuda verbose).
Proof.
  unfold get_activations_numpy, print.
  repeat stable_step
    ltac:(first [ apply Inv_alloc | apply Inv_store
                | apply Inv_emit; solve [cbn; auto] ]).
Qed.

Lemma frechet_stable (mu1 sigma1 mu2 sigma2 : handle) (eps : F) :
  stable Inv (calculate_frechet_distance sqrtm mu1 sigma1 mu2 sigma2 eps).
Proof.
  unfold calculate_frechet_distance, linalg_sqrtm, print.
  repeat stable_step ltac:(apply Inv_emit; solve [cbn; auto]).
Qed.

Lemma moments_stable (act : handle) : stable Inv (moments act).
Proof.
  unfold moments. repeat stable_step ltac:(apply Inv_alloc).
Qed.

Lemma np_load_stable (p : string) : stable Inv (np_load p).
Proof.
  unfold np_load. apply stable_bind; [apply Inv_emit; exact I|].
  intros _ w H. destruct (files w p); exact H.
Qed.

Lemma switch_stable (b : bool) (m : Py (F:=F) unit) (flag : bool) :
  b = flag -> (flag = true -> stable Inv m) ->
  stable Inv (if b then m else ret tt).
Proof.
  intros Hb Hm. destruct b.
  - apply Hm. now symmetry.
  - apply stable_ret.
Qed.

Lemma driver_stable (path : list string) (B : Z) (dims : Z) :
  stable Inv (calculate_fid_mnist_npy to_FloatTensor pool uninitialised sqrtm
                table net random_rand path B cuda dims rand_data).
Proof.
  unfold calculate_fid_mnist_npy, print.
  repeat stable_step
    ltac:(first [ apply extractor_stable | apply frechet_stable
                | apply moments_stable | apply np_load_stable
                | apply Inv_alloc
                | apply (@switch_stable cuda _ cuda eq_refl); intro
                | apply (@switch_stable rand_data _ rand_data eq_refl); intro
                | apply Inv_emit; solve [cbn; auto] ]).
Qed.

End Invariants.


(** ** What the script never does *)

Section NeverDoes.
Context {F : Type} {SF : Scalar F}.
Variable to_FloatTensor pool : ndarray F -> ndarray F.
Variable uninitialised : nat -> F.
Variable sqrtm : ndarray F -> result F (carray F).
Variable table : Z -> option Z.
Variable net : list Z -> model (F:=F).
Variable random_rand : list nat -> ndarray F.

Lemma grown_by_refl (P : event (F:=F) -> Prop) w : grown_by P w w.
Proof. exists []. now rewrite app_nil_r. Qed.

Lemma grown_by_emit (P : event (F:=F) -> Prop) w0 ev :
  P ev -> stable (grown_by P w0) (emit ev).
Proof.
  intros Hev w (evs & Ht & Hall). exists (evs ++ [ev]).
  cbn [emit snd trace]. rewrite Ht, app_assoc. split; [reflexivity|].
  apply Forall_app. auto.
Qed.

Lemma grown_by_alloc (P : event (F:=F) -> Prop) w0 a :
  stable (grown_by P w0) (alloc a).
Proof. intros w H. exact H. Qed.

Lemma grown_by_store (P : event (F:=F) -> Prop) w0 h d :
  stable (grown_by P w0) (store h d).
Proof. intros w H. exact H. Qed.

Lemma driver_trace (path : list string) (B : Z) (cuda : bool) (dims : Z)
    (rand_data : bool) (w : world) :
  grown_by (permitted cuda rand_data) w
    (snd (calculate_fid_mnist_npy to_FloatTensor pool uninitialised sqrtm
            table net random_rand path B cuda dims rand_data w)).
Proof.
  apply (@driver_stable F SF to_FloatTensor pool uninitialised sqrtm table net
           random_rand (grown_by (permitted cuda rand_data) w) cuda rand_data).
  - intros ev Hev. now apply grown_by_emit.
  - intro a. apply grown_by_alloc.
  - intros h d. apply grown_by_store.
  - apply grown_by_refl.
Qed.

(** X19.  Without [rand_data] the driver never touches [np.random]:
    no seeding and no draw, however the run ends. *)
Theorem np_random_is_left_alone_without_rand_data
    (path : list string) (B : Z) (cuda : bool) (dims : Z) (w : world) :
  exists evs,
    trace (snd (calculate_fid_mnist_npy to_FloatTensor pool uninitialised sqrtm
                  table net random_rand path B cuda dims false w))
    = trace w ++ evs
    /\ Forall (fun ev => uses_random ev = false) evs.
Proof.
  destruct (driver_trace path B cuda dims false w) as (evs & Ht & Hall).
  exists evs. split; [exact Ht|].
  eapply Forall_impl; [|exact Hall].
  intros [] H; cbn in *; congruence.
Qed.

(** X20.  With [cuda=False] the driver never moves the network to the
    GPU and never sends it a batch there, however the run ends. *)
Theorem cpu_run_never_touches_the_gpu
    (path : list string) (B : Z) (dims : Z) (rand_data : bool) (w : world) :
  exists evs,
    trace (snd (calculate_fid_mnist_npy to_FloatTensor pool uninitialised sqrtm
                  table net random_rand path B false dims rand_data w))
    = trace w ++ evs
    /\ Forall (fun ev => uses_gpu ev = false) evs.
Proof.
  destruct (driver_trace path B false dims rand_data w) as (evs & Ht & Hall).
  exists evs. split; [exact Ht|].
  eapply Forall_impl; [|exact Hall].
  intros [] H; cbn in *; try congruence. now subst.
Qed.

(** X8.  [model.eval()] is the first thing the extractor does, on every
    path; all it does to the outside afterwards is print and run the
    network, on the device the parameter [cuda] names. *)
Theorem eval_mode_comes_first
    (np_array : handle) (mdl : model) (B dims : Z) (cuda verbose : bool)
    (w : world) :
  exists evs,
    trace (snd (get_activations_numpy to_FloatTensor pool uninitialised
                  np_array mdl B dims cuda verbose w))
    = trace w ++ ModelEval :: evs
    /\ Forall (fun ev => match ev with
                         | Printed _ => True
                         | ModelForward _ on_gpu => on_gpu = cuda
                         | _ => False
                         end) evs.
Proof.
  unfold get_activations_numpy, print. py_step.
  set (P := fun ev : event (F:=F) =>
              match ev with
              | Printed _ => True
              | ModelForward _ on_gpu => on_gpu = cuda
              | _ => False
              end).
  match goal with
  | |- context [snd (?m ?w1)] =>
      assert (Hst : stable (grown_by P w1) m)
  end.
  { repeat stable_step
      ltac:(first [ apply grown_by_alloc | apply grown_by_store
                  | apply grown_by_emit; exact I
                  | apply grown_by_emit; reflexivity ]). }
  match goal with
  | |- context [snd (?m ?w1)] =>
      destruct (Hst w1 (grown_by_refl P w1)) as (evs & Ht & Hall)
  end.
  exists evs. split; [|exact Hall].
  rewrite Ht. cbn [trace]. now rewrite <- app_assoc.
Qed.

(** X7.  Whatever the network answers and however the call ends,
    [get_activations_numpy] adds at most one array to the heap and leaves
    every array that existed before the call (its input among them) and
    every file as it was. *)
Theorem extractor_keeps_the_existing_arrays
    (np_array : handle) (mdl : model) (B dims : Z) (cuda verbose : bool)
    (w : world) :
  let run := get_activations_numpy to_FloatTensor pool uninitialised
               np_array mdl B dims cuda verbose w in
  (exists ext, heap (snd run) = heap w ++ ext /\ (List.length ext <= 1)%nat)
  /\ (forall h, (base h < List.length (heap w))%nat ->
                buffer (snd run) h = buffer w h)
  /\ files (snd run) = files w.
Proof.
  intro run.
  assert (Hfiles : files (snd run) = files w).
  { subst run.
    apply (@extractor_stable F SF to_FloatTensor pool uninitialised
             (fun w' => files w' = files w) cuda false);
      try reflexivity; intros; intros w0 H0; exact H0. }
  assert (Hheap : exists ext, heap (snd run) = heap w ++ ext
                              /\ (List.length ext <= 1)%nat).
  { subst run. unfold get_activations_numpy, print.
    assert (Hnone : forall A (r : result F A * world),
              heap (snd r) = heap w ->
              exists ext, heap (snd r) = heap w ++ ext /\ (List.length ext <= 1)%nat).
    { intros A r Hr. exists []. rewrite app_nil_r. split; [exact Hr | cbn; lia]. }
    do 3 py_step. cbn [heap files trace].
    destruct (py_len _) as [n|e]; [|apply Hnone; reflexivity].
    do 2 py_step. cbn [heap files trace].
    rewrite clamp_step. cbv beta. cbn [heap files trace].
    destruct (dims <? 0)%Z; [apply Hnone; reflexivity|].
    do 2 py_step. cbn [heap files trace shape data].
    set (Inv := fun w' : world (F:=F) =>
                  exists x, heap w' = heap w ++ [x]).
    assert (Hone : forall A (r : result F A * world),
              Inv (snd r) ->
              exists ext, heap (snd r) = heap w ++ ext /\ (List.length ext <= 1)%nat).
    { intros A r [x Hx]. exists [x]. split; [exact Hx | cbn; lia]. }
    apply Hone.
    match goal with
    | |- Inv (snd (?m ?w0)) =>
        assert (Hst : stable Inv m);
        [ | apply Hst; eexists; cbn [heap]; reflexivity ]
    end.
    repeat stable_step ltac:(fail).
    all: try (intros w0 [y Hy]; exists y; exact Hy).
    intros w0 [y Hy]. unfold store. cbn [snd heap base].
    rewrite Hy, set_nth_last. eexists. reflexivity. }
  split; [exact Hheap|]. split; [|exact Hfiles].
  intros h Hh. destruct Hheap as (ext & He & _).
  unfold buffer. rewrite He. now apply app_nth1.
Qed.

End NeverDoes.


(** ** The distance, the moments and the errors of the driver *)

Section MoreStepping.
Context {F : Type} {SF : Scalar F}.

Lemma bind_exists B (p : string) (k : bool -> Py (F:=F) B) w :
  bind (os_path_exists p) k w
  = k (match files w p with Some _ => true | None => false end) w.
Proof. reflexivity. Qed.

Lemma bind_np_load B (p : string) (k : file -> Py (F:=F) B) w :
  bind (np_load p) k w
  = match files w p with
    | Some f => k f (mk_world (heap w) (files w) (trace w ++ [NpLoad p]))
    | None => (Raise (FileNotFoundError p),
               mk_world (heap w) (files w) (trace w ++ [NpLoad p]))
    end.
Proof.
  unfold np_load, bind, emit. cbn [files]. destruct (files w p); reflexivity.
Qed.

End MoreStepping.

Section Distance.
Context {F : Type} {SF : Scalar F}.
Variable sqrtm : ndarray F -> result F (carray F).

(** X10.  When the first answer of [sqrtm] is finite (or [sqrtm] raises),
    [calculate_frechet_distance] calls [sqrtm] once and prints nothing,
    and [eps] plays no part: the run is the same for every [eps]. *)
Theorem finite_first_root_needs_no_fallback
    mu1 sigma1 mu2 sigma2 (eps eps' : F) (w : world) (n d : nat) :
  hshape (np_atleast_1d mu1) = [n] ->
  hshape (np_atleast_1d mu2) = [n] ->
  hshape (np_atleast_2d sigma1) = [d; d] ->
  hshape (np_atleast_2d sigma2) = [d; d] ->
  match sqrtm (product d (buffer w sigma1) (buffer w sigma2)) with
  | Ok root => np_isfinite_all root = true
  | Raise _ => True
  end ->
  let run := calculate_frechet_distance sqrtm mu1 sigma1 mu2 sigma2 eps w in
  trace (snd run)
  = trace w ++ [SqrtmCall (product d (buffer w sigma1) (buffer w sigma2)) false]
  /\ run = calculate_frechet_distance sqrtm mu1 sigma1 mu2 sigma2 eps' w.
Proof.
  intros Hm1 Hm2 Hs1 Hs2 Hroot run. subst run.
  rewrite (frechet_run sqrtm _ _ _ _ eps w Hm1 Hm2 Hs1 Hs2).
  rewrite (frechet_run sqrtm _ _ _ _ eps' w Hm1 Hm2 Hs1 Hs2).
  unfold root_used, sqrtm_events.
  destruct (sqrtm (product d (buffer w sigma1) (buffer w sigma2))) as [r|e].
  - rewrite Hroot. split; reflexivity.
  - split; reflexivity.
Qed.

(** X11.  Covariances of one and the same shape [(r, c)] with [r <> c]
    pass both assertions; the function then fails in
    [sigma1.dot(sigma2)] with [ValueError], before [sqrtm] is called. *)
Theorem rectangular_covariances_fail_in_the_product
    mu1 sigma1 mu2 sigma2 (eps : F) (w : world) (r c : nat) :
  hshape (np_atleast_1d mu1) = hshape (np_atleast_1d mu2) ->
  hshape (np_atleast_2d sigma1) = [r; c] ->
  hshape (np_atleast_2d sigma2) = [r; c] ->
  r <> c ->
  calculate_frechet_distance sqrtm mu1 sigma1 mu2 sigma2 eps w
  = (Raise (ValueError [Str "shapes not aligned"]), w).
Proof.
  intros Hm Hs1 Hs2 Hrc.
  unfold calculate_frechet_distance. cbv zeta.
  rewrite Hm, Hs1, Hs2, !shape_eqb_refl.
  unfold py_assert. do 4 py_step.
  unfold np_subtract, zip_with. cbn [shape]. rewrite Hm, shape_eqb_refl.
  do 3 py_step.
  unfold np_dot_mat. cbn [shape]. rewrite Hs1, Hs2.
  destruct (Nat.eqb_spec c r); [congruence|]. reflexivity.
Qed.

End Distance.

Section Moments.
Context {F : Type} {SF : Scalar F}.

Lemma moments_run (act : handle) (w : world (F:=F)) (N D : nat) :
  hshape act = [N; D] ->
  (base act < List.length (heap w))%nat ->
  exists mean cov,
    np_mean_axis0 (mk_ndarray [N; D] (buffer w act)) = Ok mean
    /\ np_cov_rowvar_false (mk_ndarray [N; D] (buffer w act)) = Ok cov
    /\ shape mean = [D]
    /\ hshape (np_atleast_2d (mk_handle (S (List.length (heap w))) (shape cov)))
       = (if Nat.eqb N 1 then [1; 1] else [D; D])%nat
    /\ moments act w
       = (Ok (mk_handle (List.length (heap w)) [D],
              mk_handle (S (List.length (heap w))) (shape cov)),
          mk_world (heap w ++ [data mean; data cov]) (files w) (trace w)).
Proof.
  intros Hshape Hbase.
  destruct act as [ab ashape]. cbn [hshape base] in *. subst ashape.
  unfold buffer. cbn [base].
  destruct (np_mean_axis0 (mk_ndarray [N; D] (nth ab (heap w) []))) as [mean|e] eqn:Em;
    [|discriminate Em].
  destruct (np_cov_rowvar_false (mk_ndarray [N; D] (nth ab (heap w) []))) as [cov|e] eqn:Ec.
  2:{ unfold np_cov_rowvar_false in Ec. cbn [shape] in Ec.
      destruct (Nat.eqb _ 0) in Ec; discriminate Ec. }
  exists mean, cov.
  assert (Hms : shape mean = [D]).
  { unfold np_mean_axis0 in Em. cbn [shape] in Em. injection Em as <-. reflexivity. }
  assert (Hcs : hshape (np_atleast_2d (mk_handle (S (List.length (heap w))) (shape cov)))
                = (if Nat.eqb N 1 then [1; 1] else [D; D])%nat).
  { unfold np_cov_rowvar_false in Ec. cbn [shape] in Ec.
    destruct (Nat.eqb_spec N 1) as [->|HN]; cbn [negb] in Ec.
    - cbn [Nat.eqb] in Ec. injection Ec as <-. reflexivity.
    - destruct (Nat.eqb_spec D 0) as [->|HD].
      + injection Ec as <-. reflexivity.
      + injection Ec as <-. unfold np_squeeze, np_atleast_2d.
        cbn [shape hshape filter base].
        destruct (Nat.eqb_spec D 1) as [->|HD1]; reflexivity. }
  repeat split; try assumption.
  unfold moments.
  py_step. cbn [hshape base]. rewrite Em. do 2 py_step.
  cbn [heap files trace]. py_step. cbn [hshape base heap].
  rewrite app_nth1 by exact Hbase. rewrite Ec. do 2 py_step.
  cbn [heap files trace]. unfold ret.
  rewrite Hms, length_app, <- app_assoc. cbn [List.length app].
  rewrite Nat.add_1_r. reflexivity.
Qed.

(** X12.  The moments of an [(N, D)] activation matrix are two fresh
    arrays; after the promotions of [calculate_frechet_distance] the mean
    has shape [(D,)], and the covariance has shape [(D, D)] unless
    [N = 1], where [np.cov] takes the single row for one variable and the
    shape is [(1, 1)]. *)
Theorem moments_have_the_shapes_the_distance_expects
    (act : handle) (w : world (F:=F)) (N D : nat) :
  hshape act = [N; D] ->
  (base act < List.length (heap w))%nat ->
  exists m2 s2 mean cov,
    moments act w
    = (Ok (m2, s2),
       mk_world (heap w ++ [mean; cov]) (files w) (trace w))
    /\ base m2 = List.length (heap w)
    /\ base s2 = S (List.length (heap w))
    /\ hshape (np_atleast_1d m2) = [D]
    /\ hshape (np_atleast_2d s2) = (if Nat.eqb N 1 then [1; 1] else [D; D])%nat.
Proof.
  intros Hshape Hbase.
  destruct (moments_run act w Hshape Hbase)
    as (mean & cov & _ & _ & _ & Hcs & Hrun).
  eexists _, _, _, _. split; [exact Hrun|].
  cbn [base]. split; [reflexivity|]. split; [reflexivity|].
  split; [reflexivity | exact Hcs].
Qed.

(** X13.  Lines 228-231 on a single image: for an activation matrix of
    one row and [D >= 2] features against reference statistics of [D]
    features, the distance evaluator raises the assertion on the shapes
    of the covariances. *)
Theorem a_single_image_cannot_be_scored
    (sqrtm : ndarray F -> result F (carray F))
    (act m1 s1 : handle) (eps : F) (w : world (F:=F)) (D : nat) :
  hshape act = [1; D]%nat ->
  (base act < List.length (heap w))%nat ->
  (2 <= D)%nat ->
  hshape (np_atleast_1d m1) = [D] ->
  hshape (np_atleast_2d s1) = [D; D] ->
  fst (bind (moments act)
         (fun ms => calculate_frechet_distance sqrtm m1 s1 (fst ms) (snd ms) eps) w)
  = Raise (AssertionError
             "Training and test covariances have different dimensions").
Proof.
  intros Hshape Hbase HD Hm1 Hs1.
  destruct (moments_run act w Hshape Hbase)
    as (mean & cov & _ & _ & _ & Hcs & Hrun).
  unfold bind at 1. rewrite Hrun. cbn [fst snd].
  unfold calculate_frechet_distance. cbv zeta.
  rewrite Hm1, Hs1, Hcs. cbn [Nat.eqb np_atleast_1d hshape].
  rewrite shape_eqb_refl.
  unfold py_assert. py_step.
  rewrite shape_eqb_neq by (intro H; injection H; lia).
  reflexivity.
Qed.

End Moments.




Section DriverErrors.
Context {F : Type} {SF : Scalar F}.
Variable to_FloatTensor pool : ndarray F -> ndarray F.
Variable uninitialised : nat -> F.
Variable sqrtm : ndarray F -> result F (carray F).
Variable table : Z -> option Z.
Variable net : list Z -> model (F:=F).
Variable random_rand : list nat -> ndarray F.

(** X15.  A dimensionality that [BLOCK_INDEX_BY_DIM] does not list ends
    [calculate_fid_mnist_npy] with [KeyError] at once: no network is
    built, no file is looked at, nothing is printed. *)
Theorem unknown_dimensionality_is_a_key_error
    (path : list string) (B : Z) (cuda : bool) (dims : Z) (rand_data : bool)
    (w : world) :
  table dims = None ->
  calculate_fid_mnist_npy to_FloatTensor pool uninitialised sqrtm
    table net random_rand path B cuda dims rand_data w
  = (Raise (KeyError [Int dims]), w).
Proof.
  intro H. unfold calculate_fid_mnist_npy. now rewrite H.
Qed.

(** X17.  The driver reads the reference statistics before the
    generated images: when [path[0]] does not exist it raises
    [FileNotFoundError] with the network built and [mu] and [sigma]
    already loaded. *)
Theorem statistics_are_read_before_the_samples
    (p : string) (rest : list string) (B : Z) (cuda : bool) (dims : Z)
    (rand_data : bool) (w : world) (block : Z)
    (entries : list (string * ndarray F)) (mu sigma : ndarray F) :
  table dims = Some block ->
  files w stats_path = Some (NpzFile entries) ->
  assoc "mu" entries = Some mu -> shape mu <> [] ->
  assoc "sigma" entries = Some sigma -> shape sigma <> [] ->
  files w p = None ->
  calculate_fid_mnist_npy to_FloatTensor pool uninitialised sqrtm
    table net random_rand (p :: rest) B cuda dims rand_data w
  = (Raise (FileNotFoundError p),
     mk_world (heap w ++ [data mu; data sigma]) (files w)
       (trace w ++ InceptionV3_init [block]
                :: (if cuda then [ModelCuda] else [])
                ++ [NpLoad stats_path; NpLoad p])).
Proof.
  intros Htable Hstats Hmu Hmus Hsigma Hsigmas Hp.
  unfold calculate_fid_mnist_npy. rewrite Htable.
  do 2 py_step. cbn [heap files trace].
  assert (Hc : forall (k : unit -> Py (F:=F) unit) w0,
            bind (if cuda then emit ModelCuda else ret tt) k w0
            = k tt (mk_world (heap w0) (files w0)
                      (trace w0 ++ (if cuda then [ModelCuda] else [])))).
  { intros k w0. destruct cuda; [reflexivity|].
    rewrite bind_ret, app_nil_r. destruct w0; reflexivity. }
  rewrite Hc. cbv beta. cbn [heap files trace].
  rewrite bind_exists. cbn [files]. rewrite Hstats.
  rewrite bind_bind, bind_np_load. cbn [files heap trace]. rewrite Hstats.
  unfold npz_item. rewrite Hmu, Hsigma.
  destruct (shape mu) eqn:Emu; [congruence|].
  destruct (shape sigma) eqn:Esigma; [congruence|].
  rewrite bind_bind. py_step. rewrite bind_bind. py_step.
  rewrite bind_bind. py_step. rewrite bind_bind. py_step.
  cbn [heap files trace]. do 2 py_step.
  rewrite bind_np_load. cbn [files heap trace]. rewrite Hp.
  rewrite <- !app_assoc. reflexivity.
Qed.

(** X16.  A statistics archive without the entry [mu] ends the driver
    with [KeyError('mu')], after the network was built and the archive
    opened, and before the generated images are looked at. *)
Theorem statistics_without_mu_are_a_key_error
    (path : list string) (B : Z) (cuda : bool) (dims : Z)
    (rand_data : bool) (w : world) (block : Z)
    (entries : list (string * ndarray F)) :
  table dims = Some block ->
  files w stats_path = Some (NpzFile entries) ->
  assoc "mu" entries = None ->
  calculate_fid_mnist_npy to_FloatTensor pool uninitialised sqrtm
    table net random_rand path B cuda dims rand_data w
  = (Raise (KeyError [Str "mu"]),
     mk_world (heap w) (files w)
       (trace w ++ InceptionV3_init [block]
                :: (if cuda then [ModelCuda] else [])
                ++ [NpLoad stats_path])).
Proof.
  intros Htable Hstats Hmu.
  unfold calculate_fid_mnist_npy. rewrite Htable.
  do 2 py_step. cbn [heap files trace].
  assert (Hc : forall (k : unit -> Py (F:=F) unit) w0,
            bind (if cuda then emit ModelCuda else ret tt) k w0
            = k tt (mk_world (heap w0) (files w0)
                      (trace w0 ++ (if cuda then [ModelCuda] else [])))).
  { intros k w0. destruct cuda; [reflexivity|].
    rewrite bind_ret, app_nil_r. destruct w0; reflexivity. }
  rewrite Hc. cbv beta. cbn [heap files trace].
  rewrite bind_exists. cbn [files]. rewrite Hstats.
  rewrite bind_bind, bind_np_load. cbn [files heap trace]. rewrite Hstats.
  unfold npz_item. rewrite Hmu.
  unfold bind, lift. rewrite <- !app_assoc. reflexivity.
Qed.

(** X27.  Given an [.npz] archive as [path[0]] (the help of the command
    line allows statistic files there), the driver raises [TypeError]:
    the archive that [np.load] returns cannot be multiplied by 0.5.  The
    network has been built and the reference statistics loaded, nothing
    was printed. *)
Theorem archive_in_place_of_samples_is_a_type_error
    (p : string) (rest : list string) (B : Z) (cuda : bool) (dims : Z)
    (rand_data : bool) (w : world) (block : Z)
    (entries es : list (string * ndarray F)) (mu sigma : ndarray F) :
  table dims = Some block ->
  files w stats_path = Some (NpzFile entries) ->
  assoc "mu" entries = Some mu -> shape mu <> [] ->
  assoc "sigma" entries = Some sigma -> shape sigma <> [] ->
  files w p = Some (NpzFile es) ->
  calculate_fid_mnist_npy to_FloatTensor pool uninitialised sqrtm
    table net random_rand (p :: rest) B cuda dims rand_data w
  = (Raise (TypeError "unsupported operand type(s) for *: 'NpzFile' and 'float'"),
     mk_world (heap w ++ [data mu; data sigma]) (files w)
       (trace w ++ InceptionV3_init [block]
                :: (if cuda then [ModelCuda] else [])
                ++ [NpLoad stats_path; NpLoad p])).
Proof.
  intros Htable Hstats Hmu Hmus Hsigma Hsigmas Hp.
  unfold calculate_fid_mnist_npy. rewrite Htable.
  do 2 py_step. cbn [heap files trace].
  assert (Hc : forall (k : unit -> Py (F:=F) unit) w0,
            bind (if cuda then emit ModelCuda else ret tt) k w0
            = k tt (mk_world (heap w0) (files w0)
                      (trace w0 ++ (if cuda then [ModelCuda] else [])))).
  { intros k w0. destruct cuda; [reflexivity|].
    rewrite bind_ret, app_nil_r. destruct w0; reflexivity. }
  rewrite Hc. cbv beta. cbn [heap files trace].
  rewrite bind_exists. cbn [files]. rewrite Hstats.
  rewrite bind_bind, bind_np_load. cbn [files heap trace]. rewrite Hstats.
  unfold npz_item. rewrite Hmu, Hsigma.
  destruct (shape mu) eqn:Emu; [congruence|].
  destruct (shape sigma) eqn:Esigma; [congruence|].
  rewrite bind_bind. py_step. rewrite bind_bind. py_step.
  rewrite bind_bind. py_step. rewrite bind_bind. py_step.
  cbn [heap files trace]. do 2 py_step.
  rewrite bind_np_load. cbn [files heap trace]. rewrite Hp.
  unfold bind, raise.
  rewrite <- !app_assoc. reflexivity.
Qed.

(** X28.  An array of no element as [path[0]] ends the driver with the
    [ValueError] of [min()] on an empty sequence, before the network is
    run. *)
Theorem empty_samples_are_a_value_error
    (p : string) (rest : list string) (B : Z) (cuda : bool) (dims : Z)
    (rand_data : bool) (w : world) (block : Z)
    (entries : list (string * ndarray F)) (mu sigma : ndarray F)
    (shp : list nat) :
  table dims = Some block ->
  files w stats_path = Some (NpzFile entries) ->
  assoc "mu" entries = Some mu -> shape mu <> [] ->
  assoc "sigma" entries = Some sigma -> shape sigma <> [] ->
  files w p = Some (NpyFile (mk_ndarray shp [])) ->
  calculate_fid_mnist_npy to_FloatTensor pool uninitialised sqrtm
    table net random_rand (p :: rest) B cuda dims rand_data w
  = (Raise (ValueError [Str "min() arg is an empty sequence"]),
     mk_world (heap w ++ [data mu; data sigma]) (files w)
       (trace w ++ InceptionV3_init [block]
                :: (if cuda then [ModelCuda] else [])
                ++ [NpLoad stats_path; NpLoad p])).
Proof.
  intros Htable Hstats Hmu Hmus Hsigma Hsigmas Hp.
  unfold calculate_fid_mnist_npy. rewrite Htable.
  do 2 py_step. cbn [heap files trace].
  assert (Hc : forall (k : unit -> Py (F:=F) unit) w0,
            bind (if cuda then emit ModelCuda else ret tt) k w0
            = k tt (mk_world (heap w0) (files w0)
                      (trace w0 ++ (if cuda then [ModelCuda] else [])))).
  { intros k w0. destruct cuda; [reflexivity|].
    rewrite bind_ret, app_nil_r. destruct w0; reflexivity. }
  rewrite Hc. cbv beta. cbn [heap files trace].
  rewrite bind_exists. cbn [files]. rewrite Hstats.
  rewrite bind_bind, bind_np_load. cbn [files heap trace]. rewrite Hstats.
  unfold npz_item. rewrite Hmu, Hsigma.
  destruct (shape mu) eqn:Emu; [congruence|].
  destruct (shape sigma) eqn:Esigma; [congruence|].
  rewrite bind_bind. py_step. rewrite bind_bind. py_step.
  rewrite bind_bind. py_step. rewrite bind_bind. py_step.
  cbn [heap files trace]. do 2 py_step.
  rewrite bind_np_load. cbn [files heap trace]. rewrite Hp.
  py_step.
  unfold bind, lift. cbn.
  rewrite <- !app_assoc. reflexivity.
Qed.

End DriverErrors.


(** ** Tables and slices *)

Section Tables.
Context {F : Type} {SF : Scalar F}.

Lemma nth_rows (c : nat) (f : nat -> nat -> F) (def : F) (r s i j : nat) :
  (i < r)%nat -> (j < c)%nat ->
  nth (i * c + j) (flat_map (fun i => map (f i) (seq 0 c)) (seq s r)) def
  = f (s + i)%nat j.
Proof.
  revert s i. induction r as [|r IH]; intros s i Hi Hj; [lia|].
  cbn [seq flat_map]. destruct i as [|i].
  - cbn [Nat.mul Nat.add]. rewrite app_nth1 by (rewrite length_map, length_seq; lia).
    rewrite (nth_indep _ def (f s 0%nat)) by (rewrite length_map, length_seq; lia).
    rewrite (map_nth (f s)), seq_nth by lia. now rewrite Nat.add_0_r.
  - rewrite app_nth2 by (rewrite length_map, length_seq; lia).
    rewrite length_map, length_seq.
    replace (S i * c + j - c)%nat with (i * c + j)%nat by lia.
    rewrite IH by lia. f_equal. lia.
Qed.

Lemma get2_tabulate2 (r c : nat) (f : nat -> nat -> F) (i j : nat) :
  (i < r)%nat -> (j < c)%nat -> get2 c (tabulate2 r c f) i j = f i j.
Proof. intros Hi Hj. unfold get2, tabulate2. now rewrite nth_rows. Qed.

Lemma length_tabulate2 (r c : nat) (f : nat -> nat -> F) :
  List.length (tabulate2 r c f) = (r * c)%nat.
Proof.
  unfold tabulate2.
  assert (H : forall s, List.length
                (flat_map (fun i => map (f i) (seq 0 c)) (seq s r)) = (r * c)%nat).
  { induction r as [|r IH]; intro s; [reflexivity|].
    cbn [seq flat_map]. rewrite length_app, IH, length_map, length_seq. lia. }
  apply H.
Qed.

(** X9.  The slice assignment and the slice of the extractor agree:
    after [a[s:e] = v] on an [(n, c)] array (with [v] of the shape of the
    slice), [a[s:e]] reads [v] back, and the rows before [s] and from the
    end of the slice on are the ones [a] had. *)
Theorem rows_written_are_rows_read
    (s e n c : nat) (a v : ndarray F) :
  shape a = [n; c] -> List.length (data a) = (n * c)%nat ->
  shape v = [Nat.min e n - s; c]%nat ->
  List.length (data v) = ((Nat.min e n - s) * c)%nat ->
  (s <= n)%nat ->
  exists d,
    set_rows s e v a = Ok d
    /\ List.length d = (n * c)%nat
    /\ slice_rows s e (mk_ndarray [n; c] d) = v
    /\ slice_rows 0 s (mk_ndarray [n; c] d) = slice_rows 0 s a
    /\ slice_rows (Nat.max s (Nat.min e n)) n (mk_ndarray [n; c] d)
       = slice_rows (Nat.max s (Nat.min e n)) n a.
Proof.
  intros Ha Hla Hv Hlv Hs.
  set (k := (Nat.min e n - s)%nat) in *.
  destruct a as [ash ad], v as [vsh vd]. cbn [shape data] in *. subst ash vsh.
  unfold set_rows. cbn [shape data]. fold k.
  rewrite !Nat.eqb_refl. cbn [orb andb].
  rewrite tabulate2_broadcast by exact Hlv.
  eexists. split; [reflexivity|].
  assert (Hsk : (s + k <= n)%nat) by (subst k; lia).
  assert (Hf : List.length (firstn (s * c) ad) = (s * c)%nat)
    by (rewrite length_firstn; nia).
  assert (Hmax : Nat.max s (Nat.min e n) = (s + k)%nat) by (subst k; lia).
  split; [|split; [|split]].
  - rewrite !length_app, Hf, Hlv, length_skipn. nia.
  - unfold slice_rows. cbn [shape data size_of fold_right]. fold k.
    rewrite Nat.mul_1_r. f_equal.
    rewrite skipn_app, Hf, Nat.sub_diag, skipn_all2 by lia. cbn [skipn app].
    rewrite firstn_app, Hlv, Nat.sub_diag. cbn [firstn].
    rewrite firstn_all2 by lia. apply app_nil_r.
  - unfold slice_rows. cbn [shape data size_of fold_right skipn Nat.mul].
    rewrite Nat.mul_1_r. f_equal.
    replace (Nat.min s n - 0)%nat with s by lia.
    rewrite firstn_app, Hf, Nat.sub_diag. cbn [firstn]. rewrite app_nil_r.
    apply firstn_firstn_min || (rewrite firstn_firstn; f_equal; lia).
  - rewrite Hmax. unfold slice_rows. cbn [shape data size_of fold_right].
    rewrite Nat.mul_1_r, Nat.min_id. f_equal. f_equal.
    rewrite app_assoc, skipn_app.
    rewrite skipn_all2 by (rewrite length_app, Hf, Hlv; nia).
    rewrite length_app, Hf, Hlv. cbn [app].
    replace ((s + k) * c - (s * c + k * c))%nat with 0%nat by nia.
    reflexivity.
Qed.

End Tables.

(** ** The builder of reference statistics and the image reader *)

Section BuilderFacts.
Context {F : Type} {SF : Scalar F}.
Variable to_FloatTensor pool : ndarray F -> ndarray F.
Variable uninitialised : nat -> F.
Variable table : Z -> option Z.
Variable net : list Z -> model (F:=F).
Variable mnist : string -> bool -> bool -> Py (F:=F) (ndarray F).

(** X24.  A data set whose size is not [10000 * 1 * 28 * 28] is refused
    by the reshape with [ValueError], after the network was built and
    before it is run. *)
Theorem dataset_of_another_size_is_refused
    (path : list string) (B : Z) (cuda : bool) (dims : Z) (w w' : world)
    (block : Z) (ds : ndarray F) :
  table dims = Some block ->
  mnist mnist_root false true
    (mk_world (heap w) (files w)
       (trace w ++ InceptionV3_init [block] :: (if cuda then [ModelCuda] else [])))
  = (Ok ds, w') ->
  size_of (shape ds) <> size_of [10000; 1; 28; 28]%nat ->
  calculate_fid_mnist_test_set to_FloatTensor pool uninitialised
    table net mnist path B cuda dims w
  = (Raise (ValueError [Str "cannot reshape array of size ";
                        Int (Z.of_nat (size_of (shape ds)));
                        Str " into shape "; Tuple [10000; 1; 28; 28]%nat]),
     w').
Proof.
  intros Htable Hmnist Hsize.
  unfold calculate_fid_mnist_test_set. rewrite Htable.
  do 2 py_step. cbn [heap files trace].
  assert (Hc : forall (k : unit -> Py (F:=F) unit) w0,
            bind (if cuda then emit ModelCuda else ret tt) k w0
            = k tt (mk_world (heap w0) (files w0)
                      (trace w0 ++ (if cuda then [ModelCuda] else [])))).
  { intros k w0. destruct cuda; [reflexivity|].
    rewrite bind_ret, app_nil_r. destruct w0; reflexivity. }
  rewrite Hc. cbv beta. cbn [heap files trace].
  rewrite <- app_assoc. cbn [app].
  unfold bind at 1. rewrite Hmnist.
  unfold np_reshape.
  destruct (Nat.eqb_spec (size_of (shape ds)) (size_of [10000; 1; 28; 28]%nat));
    [contradiction|].
  reflexivity.
Qed.

End BuilderFacts.

Section ImreadFacts.
Context {F : Type} {SF : Scalar F}.
Variable Image_open : string -> Py (F:=F) (ndarray F).
Variable as_uint8 : F -> F.

(** X25.  [imread] returns the image with at most three entries along
    its last axis: the shape [front ++ [c]] becomes
    [front ++ [min 3 c]], and each entry kept is the [uint8] cast of the
    entry of the image at the same place (the alpha channel of an RGBA
    image is dropped; a 2-d greyscale image loses columns, not
    channels). *)
Theorem imread_keeps_at_most_three_channels
    (filename : string) (w w' : world (F:=F)) (img : ndarray F)
    (front : list nat) (c : nat) :
  Image_open filename w = (Ok img, w') ->
  shape img = front ++ [c] ->
  List.length (data img) = (size_of front * c)%nat ->
  exists r,
    imread Image_open as_uint8 filename w = (Ok r, w')
    /\ shape r = front ++ [Nat.min 3 c]
    /\ List.length (data r) = (size_of front * Nat.min 3 c)%nat
    /\ forall q ch, (q < size_of front)%nat -> (ch < Nat.min 3 c)%nat ->
         get2 (Nat.min 3 c) (data r) q ch = as_uint8 (get2 c (data img) q ch).
Proof.
  intros Hopen Hshape Hlen.
  unfold imread, bind. rewrite Hopen. unfold lift, first_channels.
  cbn [shape data]. rewrite Hshape, rev_unit, rev_involutive.
  eexists. split; [reflexivity|]. cbn [shape data].
  split; [reflexivity|]. split; [apply length_tabulate2|].
  intros q ch Hq Hch. rewrite get2_tabulate2 by assumption.
  unfold get2.
  rewrite (nth_indep _ (from_int 0) (as_uint8 (from_int 0)))
    by (rewrite length_map; nia).
  apply map_nth.
Qed.

End ImreadFacts.


(** ** The driver, end to end *)

Section EndToEnd.
Context {F : Type} {SF : Scalar F}.
Variable to_FloatTensor pool : ndarray F -> ndarray F.
Variable uninitialised : nat -> F.
Variable sqrtm : ndarray F -> result F (carray F).
Variable table : Z -> option Z.
Variable net : list Z -> model (F:=F).
Variable random_rand : list nat -> ndarray F.

Lemma buffer_at (H : list (list F)) (fs : string -> option file)
    (tr : list event) (l : list (list F)) (k n : nat) (shp : list nat) :
  n = (List.length H + k)%nat ->
  buffer (mk_world (H ++ l) fs tr) (mk_handle n shp) = nth k l [].
Proof.
  intros ->. unfold buffer. cbn [base heap].
  rewrite app_nth2 by lia. f_equal. lia.
Qed.

Lemma driver_run
    (p : string) (others : list string) (B : Z) (cuda : bool) (dims : Z)
    (w : world) (block : Z) (entries : list (string * ndarray F))
    (mu sigma imgs : ndarray F) (N : nat) (rest : list nat)
    (out : ndarray F -> ndarray F) (mean cov : ndarray F) (root : carray F) :
  let D := Z.to_nat dims in
  table dims = Some block ->
  files w stats_path = Some (NpzFile entries) ->
  assoc "mu" entries = Some mu -> shape mu = [D] ->
  assoc "sigma" entries = Some sigma -> shape sigma = [D; D] ->
  files w p = Some (NpyFile imgs) ->
  shape imgs = N :: rest -> data imgs <> [] ->
  (2 <= N)%nat -> (0 < B)%Z -> (0 <= dims)%Z ->
  let half := lit (1 # 2)%Q in
  let np_1 := mk_ndarray (N :: rest)
                (map (fun y => (y + half)%num)
                     (map (fun y => (y * half)%num) (data imgs))) in
  let b := effective_batch_size N B in
  (forall i, In i (batch_starts (F:=F) N b) ->
     forward (net [block]) (batch_at to_FloatTensor np_1 b i)
     = Ok (out (batch_at to_FloatTensor np_1 b i))
     /\ shape (out (batch_at to_FloatTensor np_1 b i))
        = [rows_at N b i; D; 1; 1]%nat
     /\ List.length (data (out (batch_at to_FloatTensor np_1 b i)))
        = (rows_at N b i * D)%nat) ->
  let act := mk_ndarray [N; D]
               (flat_map (fun i => data (out (batch_at to_FloatTensor np_1 b i)))
                         (batch_starts (F:=F) N b)) in
  np_mean_axis0 act = Ok mean ->
  np_cov_rowvar_false act = Ok cov ->
  sqrtm (product D (data sigma) (data cov)) = Ok root ->
  np_isfinite_all root = true ->
  shape (real_part root) = [D; D] ->
  negligible_imag D root ->
  exists lo hi,
    py_min (data np_1) = Ok lo /\ py_max (data np_1) = Ok hi /\
    calculate_fid_mnist_npy to_FloatTensor pool uninitialised sqrtm
      table net random_rand (p :: others) B cuda dims false w
    = (Ok tt,
       mk_world
         (heap w ++ [data mu; data sigma; data np_1; data act; data mean; data cov])
         (files w)
         (trace w
          ++ InceptionV3_init [block] :: (if cuda then [ModelCuda] else [])
          ++ [NpLoad stats_path; NpLoad p;
              Printed [Str "min "; Num lo; Str "  max "; Num hi; Str " "]]
          ++ extractor_prelude (N :: rest) N B
          ++ map (fun i => ModelForward (batch_at to_FloatTensor np_1 b i) cuda)
                 (batch_starts (F:=F) N b)
          ++ [SqrtmCall (product D (data sigma) (data cov)) false;
              Printed [Str "FID: "; Str " ";
                       Num (frechet_value D D (data mu) (data sigma)
                              (data mean) (data cov) (data (real_part root)))]])).
Proof.
  intros D Htable Hstats Hmu Hmus Hsigma Hsigmas Hp Himgs Hne HN HB Hd
         half np_1 b Hnet act Hmean Hcov Hroot Hfin Hre Him.
  unfold calculate_fid_mnist_npy. rewrite Htable.
  do 2 py_step. cbn [heap files trace].
  assert (Hc : forall (k : unit -> Py (F:=F) unit) w0,
            bind (if cuda then emit ModelCuda else ret tt) k w0
            = k tt (mk_world (heap w0) (files w0)
                      (trace w0 ++ (if cuda then [ModelCuda] else [])))).
  { intros k w0. destruct cuda; [reflexivity|].
    rewrite bind_ret, app_nil_r. destruct w0; reflexivity. }
  rewrite Hc. cbv beta. cbn [heap files trace].
  rewrite bind_exists. cbn [files]. rewrite Hstats.
  rewrite bind_bind, bind_np_load. cbn [files heap trace]. rewrite Hstats.
  unfold npz_item. rewrite Hmu, Hsigma, Hmus, Hsigmas.
  rewrite bind_bind. py_step. rewrite bind_bind. py_step.
  rewrite bind_bind. py_step. rewrite bind_bind. py_step.
  cbn [heap files trace]. do 2 py_step.
  rewrite bind_np_load. cbn [files heap trace]. rewrite Hp.
  py_step.
  unfold np_shift, np_scale. cbn [shape data]. rewrite Himgs.
  fold half. fold np_1.
  change (map (fun y => (y + half)%num)
              (map (fun y => (y * half)%num) (data imgs))) with (data np_1).
  destruct (py_min (data np_1)) as [lo|e] eqn:Elo.
  2:{ exfalso. subst np_1. cbn [data] in Elo.
      destruct (data imgs); [congruence | discriminate Elo]. }
  destruct (py_max (data np_1)) as [hi|e] eqn:Ehi.
  2:{ exfalso. subst np_1. cbn [data] in Ehi.
      destruct (data imgs); [congruence | discriminate Ehi]. }
  exists lo, hi. split; [reflexivity|]. split; [reflexivity|].
  do 2 py_step. unfold print. py_step. cbn [heap files trace].
  py_step. cbn [heap files trace].
  rewrite <- !app_assoc. cbn [app].
  rewrite !length_app. cbn [List.length shape].
  set (L := List.length (heap w)).
  (* the extractor *)
  match goal with
  | |- bind (get_activations_numpy _ _ _ ?h ?m _ _ _ _) ?k ?w3 = _ =>
      destruct (@extractor_run F SF to_FloatTensor pool uninitialised
                  h m B dims cuda w3 N rest out) as [Hrun _];
        [ reflexivity | cbn [base heap]; rewrite !length_app; cbn; lia
        | lia | exact HB | exact Hd | | ]
  end.
  { rewrite buffer_at with (k := 2%nat) by reflexivity. cbn [nth]. exact Hnet. }
  unfold bind at 1. rewrite Hrun. clear Hrun.
  rewrite buffer_at with (k := 2%nat) by reflexivity. cbn [nth heap]. fold b. fold D. fold act.
  rewrite <- !app_assoc. cbn [app].
  rewrite !length_app. cbn [List.length]. fold L.
  (* the moments *)
  match goal with
  | |- bind (moments ?h) ?k ?w4 = _ =>
      destruct (@moments_run F SF h w4 N D) as
        (mean' & cov' & Hmean' & Hcov' & _ & Hcs & Hrun);
        [ reflexivity | cbn [base heap]; rewrite !length_app; cbn; lia | ]
  end.
  rewrite buffer_at with (k := 3%nat) in Hmean', Hcov' by reflexivity.
  cbn [nth] in Hmean', Hcov'.
  change (np_mean_axis0 act = Ok mean') in Hmean'.
  change (np_cov_rowvar_false act = Ok cov') in Hcov'.
  rewrite Hmean in Hmean'. rewrite Hcov in Hcov'.
  injection Hmean' as <-. injection Hcov' as <-.
  unfold bind at 1. rewrite Hrun. clear Hrun.
  cbn [heap files trace]. rewrite <- !app_assoc. cbn [app].
  cbn [heap] in Hcs.
  rewrite !length_app in *. cbn [List.length] in *. fold L in Hcs |- *.
  destruct (Nat.eqb_spec N 1) as [|_]; [lia|].
  (* the distance *)
  unfold bind at 1.
  rewrite frechet_run with (n := D) (d := D);
    [ | cbn; now rewrite Hmus | reflexivity
      | cbn; now rewrite Hsigmas | exact Hcs ].
  rewrite buffer_at with (k:=0%nat) (n:=L) by (subst L; lia).
  rewrite buffer_at with (k:=1%nat) (n:=(L + 1)%nat) by (subst L; lia).
  rewrite buffer_at with (k:=4%nat) (n:=(L + 4)%nat) by (subst L; lia).
  rewrite buffer_at with (k:=5%nat) (n:=S (L + 4)) by (subst L; lia).
  cbn [nth].
  unfold root_used. rewrite Hroot, Hfin.
  rewrite finish_value by assumption.
  unfold sqrtm_events. rewrite Hroot, Hfin.
  py_step. cbn [heap files trace]. unfold ret.
  do 2 f_equal.
  destruct cuda; cbn [app]; rewrite <- ?app_assoc; cbn [app];
    rewrite <- ?app_assoc; reflexivity.
Qed.

End EndToEnd.


(** ** The run of the builder *)

Lemma ten_thousand : 10000%nat = Z.to_nat 10000.
Proof.
  symmetry. apply Nat2Z.inj. rewrite Z2Nat.id by lia. vm_compute. reflexivity.
Qed.

Section BuilderRun.
Context {F : Type} {SF : Scalar F}.
Variable to_FloatTensor pool : ndarray F -> ndarray F.
Variable uninitialised : nat -> F.
Variable table : Z -> option Z.
Variable net : list Z -> model (F:=F).
Variable mnist : string -> bool -> bool -> Py (F:=F) (ndarray F).

Lemma builder_run
    (path : list string) (B : Z) (cuda : bool) (dims : Z) (w w2 : world)
    (block : Z) (ds ts : ndarray F) (out : ndarray F -> ndarray F)
    (mean cov : ndarray F) :
  let D := Z.to_nat dims in
  let N := 10000%nat in
  table dims = Some block ->
  mnist mnist_root false true
    (mk_world (heap w) (files w)
       (trace w ++ InceptionV3_init [block] :: (if cuda then [ModelCuda] else [])))
  = (Ok ds, w2) ->
  size_of (shape ds) = size_of [N; 1; 28; 28]%nat ->
  np_repeat
    (np_true_divide (mk_ndarray [N; 1; 28; 28]%nat (data ds)) (lit (255 # 1)%Q)) 3 1
  = Ok ts ->
  (0 < B)%Z -> (0 <= dims)%Z ->
  let b := effective_batch_size N B in
  (forall i, In i (batch_starts (F:=F) N b) ->
     forward (net [block]) (batch_at to_FloatTensor ts b i)
     = Ok (out (batch_at to_FloatTensor ts b i))
     /\ shape (out (batch_at to_FloatTensor ts b i))
        = [rows_at N b i; D; 1; 1]%nat
     /\ List.length (data (out (batch_at to_FloatTensor ts b i)))
        = (rows_at N b i * D)%nat) ->
  let act := mk_ndarray [N; D]
               (flat_map (fun i => data (out (batch_at to_FloatTensor ts b i)))
                         (batch_starts (F:=F) N b)) in
  np_mean_axis0 act = Ok mean ->
  np_cov_rowvar_false act = Ok cov ->
  calculate_fid_mnist_test_set to_FloatTensor pool uninitialised
    table net mnist path B cuda dims w
  = (Ok tt,
     mk_world
       (heap w2 ++ [data ts; data act; data mean; data cov])
       (fun q => if String.eqb q cov_path then Some (NpyFile cov)
                 else if String.eqb q mean_path then Some (NpyFile mean)
                 else files w2 q)
       (trace w2
        ++ extractor_prelude (shape ts) N B
        ++ map (fun i => ModelForward (batch_at to_FloatTensor ts b i) cuda)
               (batch_starts (F:=F) N b))).
Proof.
  intros D N Htable Hmnist Hsize Hts HB Hd b Hnet act Hmean Hcov.
  assert (HN : (2 <= N)%nat) by (subst N; rewrite ten_thousand; lia).
  unfold calculate_fid_mnist_test_set.
  change 10000%nat with N. clearbody N.
  assert (Hshape : shape ts = N :: [(1 * 3)%nat; 28; 28]%nat).
  { unfold np_repeat, np_true_divide in Hts. cbn [shape] in Hts.
    injection Hts as <-. reflexivity. }
  rewrite Htable.
  do 2 py_step. cbn [heap files trace].
  assert (Hc : forall (k : unit -> Py (F:=F) unit) w0,
            bind (if cuda then emit ModelCuda else ret tt) k w0
            = k tt (mk_world (heap w0) (files w0)
                      (trace w0 ++ (if cuda then [ModelCuda] else [])))).
  { intros k w0. destruct cuda; [reflexivity|].
    rewrite bind_ret, app_nil_r. destruct w0; reflexivity. }
  rewrite Hc. cbv beta. cbn [heap files trace].
  rewrite <- app_assoc. cbn [app].
  unfold bind at 1. rewrite Hmnist.
  unfold np_reshape. rewrite Hsize, Nat.eqb_refl.
  py_step. rewrite Hts. do 2 py_step. cbn [heap files trace].
  (* the extractor *)
  match goal with
  | |- bind (get_activations_numpy _ _ _ ?h ?m _ _ _ _) ?k ?w3 = _ =>
      destruct (@extractor_run F SF to_FloatTensor pool uninitialised
                  h m B dims cuda w3 N [(1 * 3)%nat; 28; 28]%nat out) as [Hrun _];
        [ exact Hshape | cbn [base heap]; rewrite !length_app; cbn; lia
        | lia | exact HB | exact Hd | | ]
  end.
  { rewrite buffer_at with (k := 0%nat) by (cbn [heap]; lia).
    cbn [nth]. rewrite <- Hshape.
    replace (mk_ndarray (shape ts) (data ts)) with ts by (destruct ts; reflexivity).
    exact Hnet. }
  unfold bind at 1. rewrite Hrun. clear Hrun.
  rewrite buffer_at with (k := 0%nat) by (cbn [heap]; lia).
  cbn [nth heap]. rewrite <- Hshape.
  replace (mk_ndarray (shape ts) (data ts)) with ts by (destruct ts; reflexivity).
  fold b. fold D. fold act.
  rewrite <- !app_assoc. cbn [app].
  rewrite !length_app. cbn [List.length].
  (* the moments *)
  match goal with
  | |- bind (moments ?h) ?k ?w4 = _ =>
      destruct (@moments_run F SF h w4 N D) as
        (mean' & cov' & Hmean' & Hcov' & Hms & _ & Hrun);
        [ reflexivity | cbn [base heap]; rewrite !length_app; cbn; lia | ]
  end.
  rewrite buffer_at with (k := 1%nat) in Hmean', Hcov' by (cbn [heap]; lia).
  cbn [nth] in Hmean', Hcov'.
  change (np_mean_axis0 act = Ok mean') in Hmean'.
  change (np_cov_rowvar_false act = Ok cov') in Hcov'.
  rewrite Hmean in Hmean'. rewrite Hcov in Hcov'.
  injection Hmean' as <-. injection Hcov' as <-.
  unfold bind at 1. rewrite Hrun. clear Hrun.
  cbn [heap files trace]. rewrite <- !app_assoc. cbn [app].
  rewrite !length_app. cbn [List.length].
  (* the two files *)
  unfold np_save. rewrite bind_bind, bind_load. cbn [hshape base heap].
  unfold bind at 1. cbn [heap files trace].
  rewrite bind_load. cbn [hshape base heap files trace].
  rewrite !app_nth2 by lia.
  replace (List.length (heap w2) + 2 - List.length (heap w2))%nat
    with 2%nat by lia.
  replace (S (List.length (heap w2) + 2) - List.length (heap w2))%nat
    with 3%nat by lia.
  cbn [nth]. rewrite <- Hms.
  replace (mk_ndarray (shape mean) (data mean)) with mean
    by (destruct mean; reflexivity).
  replace (mk_ndarray (shape cov) (data cov)) with cov
    by (destruct cov; reflexivity).
  reflexivity.
Qed.

End BuilderRun.

Section BuilderSaved.
Context {F : Type} {SF : Scalar F}.
Variable to_FloatTensor pool : ndarray F -> ndarray F.
Variable uninitialised : nat -> F.
Variable table : Z -> option Z.
Variable net : list Z -> model (F:=F).
Variable mnist : string -> bool -> bool -> Py (F:=F) (ndarray F).

(** X22.  [calculate_fid_mnist_test_set]: when the loader finds the
    10000 images and the network answers every batch of the tripled,
    rescaled images with [(k, D, 1, 1)] features, the function returns
    normally and has written the mean of the activations, of shape
    [(D,)], to [./mnist-mean.npy] and their covariance to
    [./mnist-cov.npy]. *)
Theorem reference_statistics_are_saved
    (path : list string) (B : Z) (cuda : bool) (dims : Z) (w w2 : world)
    (block : Z) (ds ts : ndarray F) (out : ndarray F -> ndarray F)
    (mean cov : ndarray F) :
  let D := Z.to_nat dims in
  let N := 10000%nat in
  table dims = Some block ->
  mnist mnist_root false true
    (mk_world (heap w) (files w)
       (trace w ++ InceptionV3_init [block] :: (if cuda then [ModelCuda] else [])))
  = (Ok ds, w2) ->
  size_of (shape ds) = size_of [N; 1; 28; 28]%nat ->
  np_repeat
    (np_true_divide (mk_ndarray [N; 1; 28; 28]%nat (data ds)) (lit (255 # 1)%Q)) 3 1
  = Ok ts ->
  (0 < B)%Z -> (0 <= dims)%Z ->
  let b := effective_batch_size N B in
  (forall i, In i (batch_starts (F:=F) N b) ->
     forward (net [block]) (batch_at to_FloatTensor ts b i)
     = Ok (out (batch_at to_FloatTensor ts b i))
     /\ shape (out (batch_at to_FloatTensor ts b i))
        = [rows_at N b i; D; 1; 1]%nat
     /\ List.length (data (out (batch_at to_FloatTensor ts b i)))
        = (rows_at N b i * D)%nat) ->
  let act := mk_ndarray [N; D]
               (flat_map (fun i => data (out (batch_at to_FloatTensor ts b i)))
                         (batch_starts (F:=F) N b)) in
  np_mean_axis0 act = Ok mean ->
  np_cov_rowvar_false act = Ok cov ->
  let run := calculate_fid_mnist_test_set to_FloatTensor pool uninitialised
               table net mnist path B cuda dims w in
  fst run = Ok tt
  /\ files (snd run) mean_path = Some (NpyFile mean)
  /\ files (snd run) cov_path = Some (NpyFile cov)
  /\ shape mean = [D]
  /\ heap (snd run) = heap w2 ++ [data ts; data act; data mean; data cov].
Proof.
  intros D N Htable Hmnist Hsize Hts HB Hd b Hnet act Hmean Hcov run.
  subst run.
  rewrite (@builder_run F SF to_FloatTensor pool uninitialised table net mnist
             path B cuda dims w w2 block ds ts out mean cov
             Htable Hmnist Hsize Hts HB Hd Hnet Hmean Hcov).
  cbn [fst snd files heap].
  split; [reflexivity|]. split; [reflexivity|]. split; [reflexivity|].
  split; [|reflexivity].
  clear - Hmean. clearbody N.
  unfold np_mean_axis0 in Hmean. subst act. cbn [shape] in Hmean.
  injection Hmean as <-. reflexivity.
Qed.

End BuilderSaved.


Section DriverPrints.
Context {F : Type} {SF : Scalar F}.
Variable to_FloatTensor pool : ndarray F -> ndarray F.
Variable uninitialised : nat -> F.
Variable sqrtm : ndarray F -> result F (carray F).
Variable table : Z -> option Z.
Variable net : list Z -> model (F:=F).
Variable random_rand : list nat -> ndarray F.

(** X18.  The driver end to end, without [rand_data]: with reference
    statistics of [D = dims] features, [N >= 2] generated images, a
    network that answers every batch with [(k, D, 1, 1)] features and a
    finite, real or negligibly complex root, [calculate_fid_mnist_npy]
    returns normally; it has run the network on the batches of
    [images * 0.5 + 0.5], asked [sqrtm] for the root of
    [sigma.dot(cov)], and its last print is ['FID: '] with
    [||mu - mean||^2 + Tr(sigma) + Tr(cov) - 2 Tr(root)], where [mean]
    and [cov] are the moments of the activations. *)
Theorem driver_prints_the_distance
    (p : string) (others : list string) (B : Z) (cuda : bool) (dims : Z)
    (w : world) (block : Z) (entries : list (string * ndarray F))
    (mu sigma imgs : ndarray F) (N : nat) (rest : list nat)
    (out : ndarray F -> ndarray F) (mean cov : ndarray F) (root : carray F) :
  let D := Z.to_nat dims in
  table dims = Some block ->
  files w stats_path = Some (NpzFile entries) ->
  assoc "mu" entries = Some mu -> shape mu = [D] ->
  assoc "sigma" entries = Some sigma -> shape sigma = [D; D] ->
  files w p = Some (NpyFile imgs) ->
  shape imgs = N :: rest -> data imgs <> [] ->
  (2 <= N)%nat -> (0 < B)%Z -> (0 <= dims)%Z ->
  let half := lit (1 # 2)%Q in
  let np_1 := mk_ndarray (N :: rest)
                (map (fun y => (y + half)%num)
                     (map (fun y => (y * half)%num) (data imgs))) in
  let b := effective_batch_size N B in
  (forall i, In i (batch_starts (F:=F) N b) ->
     forward (net [block]) (batch_at to_FloatTensor np_1 b i)
     = Ok (out (batch_at to_FloatTensor np_1 b i))
     /\ shape (out (batch_at to_FloatTensor np_1 b i))
        = [rows_at N b i; D; 1; 1]%nat
     /\ List.length (data (out (batch_at to_FloatTensor np_1 b i)))
        = (rows_at N b i * D)%nat) ->
  let act := mk_ndarray [N; D]
               (flat_map (fun i => data (out (batch_at to_FloatTensor np_1 b i)))
                         (batch_starts (F:=F) N b)) in
  np_mean_axis0 act = Ok mean ->
  np_cov_rowvar_false act = Ok cov ->
  sqrtm (product D (data sigma) (data cov)) = Ok root ->
  np_isfinite_all root = true ->
  shape (real_part root) = [D; D] ->
  negligible_imag D root ->
  let run := calculate_fid_mnist_npy to_FloatTensor pool uninitialised sqrtm
               table net random_rand (p :: others) B cuda dims false w in
  let fid := frechet_value D D (data mu) (data sigma) (data mean) (data cov)
               (data (real_part root)) in
  fst run = Ok tt
  /\ heap (snd run)
     = heap w ++ [data mu; data sigma; data np_1; data act; data mean; data cov]
  /\ exists evs,
       trace (snd run)
       = trace w ++ evs ++ [Printed [Str "FID: "; Str " "; Num fid]]
       /\ List.length (filter is_forward evs)
          = List.length (batch_starts (F:=F) N b)
       /\ In (SqrtmCall (product D (data sigma) (data cov)) false) evs.
Proof.
  intros D Htable Hstats Hmu Hmus Hsigma Hsigmas Hp Himgs Hne HN HB Hd
         half np_1 b Hnet act Hmean Hcov Hroot Hfin Hre Him run fid.
  destruct (@driver_run F SF to_FloatTensor pool uninitialised sqrtm table net
              random_rand p others B cuda dims w block entries mu sigma imgs
              N rest out mean cov root
              Htable Hstats Hmu Hmus Hsigma Hsigmas Hp Himgs Hne HN HB Hd
              Hnet Hmean Hcov Hroot Hfin Hre Him)
    as (lo & hi & _ & _ & Hrun).
  subst run. rewrite Hrun. cbn [fst snd heap trace].
  split; [reflexivity|]. split; [reflexivity|].
  eexists
    (InceptionV3_init [block] :: (if cuda then [ModelCuda] else [])
     ++ [NpLoad stats_path; NpLoad p;
         Printed [Str "min "; Num lo; Str "  max "; Num hi; Str " "]]
     ++ extractor_prelude (N :: rest) N B
     ++ map (fun i => ModelForward (batch_at to_FloatTensor np_1 b i) cuda)
            (batch_starts (F:=F) N b)
     ++ [SqrtmCall (product D (data sigma) (data cov)) false]).
  split; [|split].
  - f_equal. repeat (rewrite <- ?app_assoc; cbn [app]). reflexivity.
  - cbn [filter is_forward]. rewrite !filter_app. cbn [filter is_forward].
    assert (E1 : filter (is_forward (F:=F))
                   (if cuda then [ModelCuda] else []) = []).
    { destruct cuda; reflexivity. }
    assert (E2 : filter (is_forward (F:=F))
                   (extractor_prelude (N :: rest) N B) = []).
    { unfold extractor_prelude. cbn [app filter is_forward].
      destruct (Z.of_nat N <? B)%Z; reflexivity. }
    rewrite E1, E2. cbn [app]. rewrite ?app_nil_r.
    rewrite forallb_filter_id.
    + now rewrite length_map.
    + apply forallb_forall. intros ev Hev. apply in_map_iff in Hev.
      destruct Hev as (i & <- & _). reflexivity.
  - right. apply in_or_app. right. apply in_or_app. right.
    apply in_or_app. right. apply in_or_app. right. now left.
Qed.

End DriverPrints.


(** ** Concrete runs of the further properties *)

(** Seven images of one pixel in batches of three. *)
Lemma extractor_returns_every_row_witness :
  let run := get_activations_numpy (fun a => a) (fun a => a)
               (fun _ => PrimFloat.nan)
               (mk_handle 0 [7; 1; 1; 1]%nat) pixel_net 3 1 false false
               (world_of [seven_images]) in
  fst run = Ok (mk_handle 1 [7; 1]%nat)
  /\ heap (snd run) = [seven_images; [0; 1; 2; 3; 4; 5; 6]%float]
  /\ List.length [0; 1; 2; 3; 4; 5; 6]%float = 7%nat.
Proof.
  apply (@extractor_returns_every_row float float64 (fun a => a) (fun a => a)
           (fun _ => PrimFloat.nan) (mk_handle 0 [7; 1; 1; 1]%nat) pixel_net
           3 1 false (world_of [seven_images]) 7 [1; 1; 1]%nat pixel_out);
    [ reflexivity | cbn; lia | lia | lia | lia | ].
  intros i Hi. vm_compute in Hi.
  destruct Hi as [<-|[<-|[<-|[]]]]; repeat split.
Defined.

(** The same images in batches of four, on the GPU: two runs. *)
Lemma extractor_calls_witness :
  let run := get_activations_numpy (fun a => a) (fun a => a)
               (fun _ => PrimFloat.nan)
               (mk_handle 0 [7; 1; 1; 1]%nat) pixel_net 4 1 true false
               (world_of [seven_images]) in
  trace (snd run)
  = [ModelEval; Printed [Tuple [7; 1; 1; 1]%nat]; Printed [Str "len "; Int 7];
     ModelForward (mk_ndarray [4; 1; 1; 1]%nat [0; 1; 2; 3]%float) true;
     ModelForward (mk_ndarray [3; 1; 1; 1]%nat [4; 5; 6]%float) true]
  /\ [0; 1; 2; 3; 4; 5; 6]%nat = seq 0 7
  /\ 2%Z = ((7 + 4 - 1) / 4)%Z.
Proof.
  apply (@extractor_calls_the_network_batch_by_batch float float64
           (fun a => a) (fun a => a)
           (fun _ => PrimFloat.nan) (mk_handle 0 [7; 1; 1; 1]%nat) pixel_net
           4 1 true (world_of [seven_images]) 7 [1; 1; 1]%nat pixel_out);
    [ reflexivity | cbn; lia | lia | lia | lia | ].
  intros i Hi. vm_compute in Hi.
  destruct Hi as [<-|[<-|[]]]; repeat split.
Defined.

(** Seven images and a batch size of fifty. *)
Lemma oversized_batch_witness :
  get_activations_numpy (fun a => a) (fun a => a) (fun _ => PrimFloat.nan)
    (mk_handle 0 [7; 1; 1; 1]%nat) pixel_net 50 1 false false
    (world_of [seven_images])
  = (Ok (mk_handle 1 [7; 1]%nat),
     mk_world [seven_images; seven_images] (fun _ => None)
       [ModelEval; Printed [Tuple [7; 1; 1; 1]%nat]; Printed [Str "len "; Int 7];
        Printed batch_warning;
        ModelForward (mk_ndarray [7; 1; 1; 1]%nat seven_images) false]).
Proof.
  apply (@oversized_batch_is_one_batch float float64 (fun a => a) (fun a => a)
           (fun _ => PrimFloat.nan) (mk_handle 0 [7; 1; 1; 1]%nat) pixel_net
           50 1 false (world_of [seven_images]) 7 [1; 1; 1]%nat
           (mk_ndarray [7; 1; 1; 1]%nat seven_images));
    first [ reflexivity | cbn; lia | lia ].
Defined.

(** The verbose run on seven images. *)
Lemma verbose_run_witness :
  get_activations_numpy (fun a => a) (fun a => a) (fun _ => PrimFloat.nan)
    (mk_handle 0 [7; 1; 1; 1]%nat) pixel_net 3 1 false true
    (world_of [seven_images])
  = (Raise (NameError "n_batches"),
     mk_world [seven_images; repeat PrimFloat.nan 7] (fun _ => None)
       [ModelEval; Printed [Tuple [7; 1; 1; 1]%nat]; Printed [Str "len "; Int 7]]).
Proof.
  apply (@verbose_run_stops_on_n_batches float float64 (fun a => a) (fun a => a)
           (fun _ => PrimFloat.nan) (mk_handle 0 [7; 1; 1; 1]%nat) pixel_net
           3 1 false (world_of [seven_images]) 7 [1; 1; 1]%nat);
    first [ reflexivity | lia ].
Defined.

(** An empty input and a batch size of fifty. *)
Lemma zero_step_witness :
  get_activations_numpy (fun a => a) (fun a => a) (fun _ => PrimFloat.nan)
    (mk_handle 0 [0; 1; 1; 1]%nat) pixel_net 50 1 false false
    (world_of [[]])
  = (Raise (ValueError [Str "range() arg 3 must not be zero"]),
     mk_world [[]; []] (fun _ => None)
       [ModelEval; Printed [Tuple [0; 1; 1; 1]%nat]; Printed [Str "len "; Int 0];
        Printed batch_warning]).
Proof.
  apply (@zero_step_is_a_value_error float float64 (fun a => a) (fun a => a)
           (fun _ => PrimFloat.nan) (mk_handle 0 [0; 1; 1; 1]%nat) pixel_net
           50 1 false false (world_of [[]]) 0 [1; 1; 1]%nat);
    first [ reflexivity | lia ].
Defined.

(** Seven images and a batch size of -2. *)
Lemma negative_batch_size_witness :
  get_activations_numpy (fun a => a) (fun a => a) (fun _ => PrimFloat.nan)
    (mk_handle 0 [7; 1; 1; 1]%nat) pixel_net (-2) 1 false false
    (world_of [seven_images])
  = (Ok (mk_handle 1 [7; 1]%nat),
     mk_world [seven_images; repeat PrimFloat.nan 7] (fun _ => None)
       [ModelEval; Printed [Tuple [7; 1; 1; 1]%nat]; Printed [Str "len "; Int 7]]).
Proof.
  apply (@negative_batch_size_skips_the_network float float64
           (fun a => a) (fun a => a)
           (fun _ => PrimFloat.nan) (mk_handle 0 [7; 1; 1; 1]%nat) pixel_net
           (-2) 1 false false (world_of [seven_images]) 7 [1; 1; 1]%nat);
    first [ reflexivity | lia ].
Defined.

(** The one-dimensional case, for [eps = 1e-6] and [eps = 1000]. *)
Lemma finite_first_root_witness :
  let w := world_of [[0%float]; [1%float]; [1%float]; [1%float]] in
  let run := calculate_frechet_distance sqrtm_diag
               (mk_handle 0 [1%nat]) (mk_handle 1 [1%nat; 1%nat])
               (mk_handle 2 [1%nat]) (mk_handle 3 [1%nat; 1%nat]) 1e-6%float w in
  trace (snd run) = [SqrtmCall (mk_ndarray [1; 1]%nat [1%float]) false]
  /\ run = calculate_frechet_distance sqrtm_diag
             (mk_handle 0 [1%nat]) (mk_handle 1 [1%nat; 1%nat])
             (mk_handle 2 [1%nat]) (mk_handle 3 [1%nat; 1%nat]) 1000%float w.
Proof.
  apply (@finite_first_root_needs_no_fallback float float64 sqrtm_diag
           (mk_handle 0 [1%nat]) (mk_handle 1 [1%nat; 1%nat])
           (mk_handle 2 [1%nat]) (mk_handle 3 [1%nat; 1%nat])
           1e-6%float 1000%float
           (world_of [[0%float]; [1%float]; [1%float]; [1%float]]) 1 1);
    reflexivity.
Defined.

(** Two covariances of shape [(2, 3)]. *)
Lemma rectangular_covariances_witness :
  let w := world_of [[0; 0]%float; [1; 0; 0; 0; 1; 0]%float;
                     [0; 0]%float; [1; 0; 0; 0; 1; 0]%float] in
  calculate_frechet_distance sqrtm_diag
    (mk_handle 0 [2%nat]) (mk_handle 1 [2; 3]%nat)
    (mk_handle 2 [2%nat]) (mk_handle 3 [2; 3]%nat) eps_default w
  = (Raise (ValueError [Str "shapes not aligned"]), w).
Proof.
  apply (@rectangular_covariances_fail_in_the_product float float64 sqrtm_diag
           (mk_handle 0 [2%nat]) (mk_handle 1 [2; 3]%nat)
           (mk_handle 2 [2%nat]) (mk_handle 3 [2; 3]%nat) eps_default
           (world_of [[0; 0]%float; [1; 0; 0; 0; 1; 0]%float;
                      [0; 0]%float; [1; 0; 0; 0; 1; 0]%float]) 2 3);
    first [ reflexivity | lia ].
Defined.

(** Three activations of two features. *)
Lemma moments_shapes_witness :
  exists m2 s2 mean cov,
    moments (mk_handle 0 [3; 2]%nat) (world_of [[1; 2; 3; 4; 5; 6]%float])
    = (Ok (m2, s2),
       mk_world ([[1; 2; 3; 4; 5; 6]%float] ++ [mean; cov]) (fun _ => None) [])
    /\ base m2 = 1%nat
    /\ base s2 = 2%nat
    /\ hshape (np_atleast_1d m2) = [2%nat]
    /\ hshape (np_atleast_2d s2) = [2; 2]%nat.
Proof.
  apply (@moments_have_the_shapes_the_distance_expects float float64
           (mk_handle 0 [3; 2]%nat) (world_of [[1; 2; 3; 4; 5; 6]%float]) 3 2);
    first [ reflexivity | cbn; lia ].
Defined.

(** One activation of two features against two reference features. *)
Lemma single_image_witness :
  fst (bind (moments (mk_handle 2 [1; 2]%nat))
         (fun ms => calculate_frechet_distance sqrtm_diag
                      (mk_handle 0 [2%nat]) (mk_handle 1 [2; 2]%nat)
                      (fst ms) (snd ms) eps_default)
         (world_of [[0; 0]%float; [1; 0; 0; 1]%float; [3; 4]%float]))
  = Raise (AssertionError
             "Training and test covariances have different dimensions").
Proof.
  apply (@a_single_image_cannot_be_scored float float64 sqrtm_diag
           (mk_handle 2 [1; 2]%nat) (mk_handle 0 [2%nat]) (mk_handle 1 [2; 2]%nat)
           eps_default
           (world_of [[0; 0]%float; [1; 0; 0; 1]%float; [3; 4]%float]) 2);
    first [ reflexivity | cbn; lia ].
Defined.

(** The dimensionality 1000. *)
Lemma unknown_dimensionality_witness :
  calculate_fid_mnist_npy (fun a => a) (fun a => a)
    (fun _ => PrimFloat.nan) sqrtm_diag block_index_sample
    (fun _ => pixel_net) (fun shp => mk_ndarray shp [])
    ["generated.npy"%string] 50 false 1000 false sample_world
  = (Raise (KeyError [Int 1000]), sample_world).
Proof.
  apply (@unknown_dimensionality_is_a_key_error float float64).
  reflexivity.
Defined.

(** Statistics in place, generated images missing. *)
Lemma statistics_first_witness :
  calculate_fid_mnist_npy (fun a => a) (fun a => a)
    (fun _ => PrimFloat.nan) sqrtm_diag pixel_table
    (fun _ => pixel_net) (fun shp => mk_ndarray shp [])
    ["missing.npy"%string] 50 false 1 false sample_world
  = (Raise (FileNotFoundError "missing.npy"),
     mk_world ([] ++ [[0.5%float]; [1%float]]) sample_files
       ([] ++ InceptionV3_init [0%Z]
           :: [] ++ [NpLoad stats_path; NpLoad "missing.npy"])).
Proof.
  apply (@statistics_are_read_before_the_samples float float64
           (fun a => a) (fun a => a)
           (fun _ => PrimFloat.nan) sqrtm_diag pixel_table
           (fun _ => pixel_net) (fun shp => mk_ndarray shp [])
           "missing.npy"%string [] 50 false 1 false sample_world 0%Z
           [("mu"%string, mk_ndarray [1%nat] [0.5%float]);
            ("sigma"%string, mk_ndarray [1; 1]%nat [1%float])]
           (mk_ndarray [1%nat] [0.5%float]) (mk_ndarray [1; 1]%nat [1%float]));
    first [ reflexivity | discriminate ].
Defined.

(** An archive with the entry [m] only. *)
Lemma statistics_without_mu_witness :
  let w := mk_world [] (fun p => if String.eqb p stats_path
                                 then Some (NpzFile [("m"%string, mk_ndarray [1%nat] [0.5%float])])
                                 else None) [] in
  calculate_fid_mnist_npy (fun a => a) (fun a => a)
    (fun _ => PrimFloat.nan) sqrtm_diag pixel_table
    (fun _ => pixel_net) (fun shp => mk_ndarray shp [])
    ["generated.npy"%string] 50 true 1 false w
  = (Raise (KeyError [Str "mu"]),
     mk_world (heap w) (files w)
       (trace w ++ InceptionV3_init [0%Z] :: [ModelCuda] ++ [NpLoad stats_path])).
Proof.
  apply (@statistics_without_mu_are_a_key_error float float64
           (fun a => a) (fun a => a)
           (fun _ => PrimFloat.nan) sqrtm_diag pixel_table
           (fun _ => pixel_net) (fun shp => mk_ndarray shp [])
           ["generated.npy"%string] 50 true 1 false _ 0%Z
           [("m"%string, mk_ndarray [1%nat] [0.5%float])]);
    reflexivity.
Defined.

(** Rows 1 and 2 of a [(3, 2)] array, written through [a[1:5]]. *)
Lemma rows_written_witness :
  let a := mk_ndarray [3; 2]%nat [0; 0; 0; 0; 0; 0]%float in
  let v := mk_ndarray [2; 2]%nat [1; 2; 3; 4]%float in
  exists d,
    set_rows 1 5 v a = Ok d
    /\ List.length d = (3 * 2)%nat
    /\ slice_rows 1 5 (mk_ndarray [3; 2]%nat d) = v
    /\ slice_rows 0 1 (mk_ndarray [3; 2]%nat d) = slice_rows 0 1 a
    /\ slice_rows (Nat.max 1 (Nat.min 5 3)) 3 (mk_ndarray [3; 2]%nat d)
       = slice_rows (Nat.max 1 (Nat.min 5 3)) 3 a.
Proof.
  apply (@rows_written_are_rows_read float float64 1 5 3 2
           (mk_ndarray [3; 2]%nat [0; 0; 0; 0; 0; 0]%float)
           (mk_ndarray [2; 2]%nat [1; 2; 3; 4]%float));
    first [ reflexivity | lia ].
Defined.

(** A data set of two pixels. *)
Lemma dataset_size_witness :
  calculate_fid_mnist_test_set (fun a => a) (fun a => a)
    (fun _ => PrimFloat.nan) block_index_sample
    (fun _ => pixel_net) mnist_two [] 50 false 2048 sample_world
  = (Raise (ValueError [Str "cannot reshape array of size ";
                        Int (Z.of_nat (size_of [2; 1; 1]%nat));
                        Str " into shape "; Tuple [10000; 1; 28; 28]%nat]),
     mk_world [] sample_files [InceptionV3_init [3%Z]]).
Proof.
  apply (@dataset_of_another_size_is_refused float float64
           (fun a => a) (fun a => a)
           (fun _ => PrimFloat.nan) block_index_sample
           (fun _ => pixel_net) mnist_two [] 50 false 2048 sample_world
           (mk_world [] sample_files [InceptionV3_init [3%Z]]) 3%Z
           (mk_ndarray [2; 1; 1]%nat [0; 255]%float));
    [ reflexivity | reflexivity | ].
  cbn [shape size_of fold_right]. rewrite ten_thousand. lia.
Defined.

(** One RGBA pixel. *)
Lemma imread_witness :
  exists r,
    imread rgba_pixel (fun x => x) "pixel.png" sample_world = (Ok r, sample_world)
    /\ shape r = [1; 1]%nat ++ [Nat.min 3 4]
    /\ List.length (data r) = (size_of [1; 1]%nat * Nat.min 3 4)%nat
    /\ forall q ch, (q < size_of [1; 1]%nat)%nat -> (ch < Nat.min 3 4)%nat ->
         get2 (Nat.min 3 4) (data r) q ch
         = get2 4 [10; 20; 30; 255]%float q ch.
Proof.
  apply (@imread_keeps_at_most_three_channels float float64 rgba_pixel
           (fun x => x) "pixel.png" sample_world sample_world
           (mk_ndarray [1; 1; 4]%nat [10; 20; 30; 255]%float) [1; 1]%nat 4);
    reflexivity.
Defined.


(** Three generated images of one pixel, [-1], [0] and [1], against the
    reference [mu = 0.5], [sigma = 1]: the activations are [0], [0.5] and
    [1], their mean is [0.5] and their variance [0.25], and the distance
    printed is [0 + 1 + 0.25 - 2 * 0.5 = 0.25]. *)
Lemma driver_prints_witness :
  let run := calculate_fid_mnist_npy (fun a => a) (fun a => a)
               (fun _ => PrimFloat.nan) sqrtm_diag pixel_table
               (fun _ => pixel_net) (fun shp => mk_ndarray shp [])
               ["generated.npy"%string] 2 false 1 false sample_world in
  fst run = Ok tt
  /\ heap (snd run)
     = [[0.5]; [1]; [0; 0.5; 1]; [0; 0.5; 1]; [0.5]; [0.25]]%float
  /\ exists evs,
       trace (snd run) = evs ++ [Printed [Str "FID: "; Str " "; Num 0.25%float]]
       /\ List.length (filter is_forward evs) = 2%nat
       /\ In (SqrtmCall (mk_ndarray [1; 1]%nat [0.25%float]) false) evs.
Proof.
  apply (@driver_prints_the_distance float float64 (fun a => a) (fun a => a)
           (fun _ => PrimFloat.nan) sqrtm_diag pixel_table
           (fun _ => pixel_net) (fun shp => mk_ndarray shp [])
           "generated.npy"%string [] 2 false 1 sample_world 0%Z
           [("mu"%string, mk_ndarray [1%nat] [0.5%float]);
            ("sigma"%string, mk_ndarray [1; 1]%nat [1%float])]
           (mk_ndarray [1%nat] [0.5%float]) (mk_ndarray [1; 1]%nat [1%float])
           (mk_ndarray [3; 1; 1; 1]%nat [(-1)%float; 0%float; 1%float])
           3 [1; 1; 1]%nat pixel_out
           (mk_ndarray [1%nat] [0.5%float]) (mk_ndarray [] [0.25%float])
           (RealArray (mk_ndarray [1; 1]%nat [0.5%float])));
    try reflexivity; try lia; try discriminate; try exact I.
  intros i Hi. vm_compute in Hi.
  destruct Hi as [<-|[<-|[]]]; repeat split.
Defined.

(** Ten thousand black images and a network of 2048 zero features. *)
Lemma reference_statistics_witness :
  let run := calculate_fid_mnist_test_set (fun a => a) (fun a => a)
               (fun _ => PrimFloat.nan) block_index_sample
               (fun _ => zero_net 2048) mnist_zeros [] 50 false 2048
               (world_of []) in
  fst run = Ok tt
  /\ exists mean cov,
       files (snd run) mean_path = Some (NpyFile mean)
       /\ files (snd run) cov_path = Some (NpyFile cov)
       /\ shape mean = [2048%nat].
Proof.
  cbv zeta.
  pose (ds := mk_ndarray [10000; 28; 28]%nat (repeat 0%float (10000 * 28 * 28))).
  pose (ts := answer (np_repeat
                        (np_true_divide (mk_ndarray [10000; 1; 28; 28]%nat (data ds))
                           (lit (255 # 1)%Q)) 3 1)).
  pose (out := fun b : ndarray float =>
                 mk_ndarray [hd 0%nat (shape b); 2048; 1; 1]%nat
                   (repeat 0%float (hd 0%nat (shape b) * 2048))).
  pose (act := mk_ndarray [10000; Z.to_nat 2048]%nat
                 (flat_map
                    (fun i => data (out (batch_at (fun a => a) ts
                                           (effective_batch_size 10000 50) i)))
                    (batch_starts (F:=float) 10000 (effective_batch_size 10000 50)))).
  destruct (@reference_statistics_are_saved float float64
              (fun a => a) (fun a => a)
              (fun _ => PrimFloat.nan) block_index_sample
              (fun _ => zero_net 2048) mnist_zeros [] 50 false 2048
              (world_of []) (mk_world [] (fun _ => None) [InceptionV3_init [3%Z]])
              3%Z ds ts out
              (answer (np_mean_axis0 act)) (answer (np_cov_rowvar_false act)))
    as (H1 & H2 & H3 & H4 & _).
  - reflexivity.
  - reflexivity.
  - cbn [ds shape size_of fold_right]. rewrite ten_thousand. lia.
  - reflexivity.
  - lia.
  - lia.
  - intros i _. split; [reflexivity|]. split; [reflexivity|].
    cbn [out data]. rewrite repeat_length. reflexivity.
  - reflexivity.
  - reflexivity.
  - split; [exact H1|]. eexists _, _. split; [exact H2|]. split; [exact H3|exact H4].
Defined.

(** Two images of two pixels, one by one, through a network that answers
    with the image: the means of the pixels are stored. *)
Lemma feature_maps_witness :
  let run := get_activations_numpy (fun a => a) pool_pairs
               (fun _ => PrimFloat.nan)
               (mk_handle 0 [2; 1; 1; 2]%nat) map_net 1 1 false false
               (world_of [[1; 3; 5; 7]%float]) in
  fst run = Ok (mk_handle 1 [2; 1]%nat)
  /\ heap (snd run) = [[1; 3; 5; 7]%float; [2; 6]%float]
  /\ List.length [2; 6]%float = 2%nat.
Proof.
  apply (@feature_maps_are_pooled float float64 (fun a => a) pool_pairs
           (fun _ => PrimFloat.nan) (mk_handle 0 [2; 1; 1; 2]%nat) map_net
           1 1 false (world_of [[1; 3; 5; 7]%float]) 2 [1; 1; 2]%nat
           (fun b => b));
    [ reflexivity | cbn; lia | lia | lia | lia | ].
  intros i Hi. vm_compute in Hi.
  destruct Hi as [<-|[<-|[]]];
    (split; [reflexivity|]; split;
     [exists 1%nat, 2%nat; split; [reflexivity | right; discriminate]
     | split; reflexivity]).
Defined.

(** The statistics archive given as the samples too. *)
Lemma archive_in_place_of_samples_witness :
  calculate_fid_mnist_npy (fun a => a) (fun a => a) (fun _ => PrimFloat.nan)
    sqrtm_diag pixel_table (fun _ => pixel_net) (fun s => mk_ndarray s [])
    ["generated.npy"%string] 50 false 1 false
    (mk_world [] archive_files [])
  = (Raise (TypeError "unsupported operand type(s) for *: 'NpzFile' and 'float'"),
     mk_world [[0.5%float]; [1%float]] archive_files
       [InceptionV3_init [0%Z]; NpLoad stats_path; NpLoad "generated.npy"%string]).
Proof.
  apply (@archive_in_place_of_samples_is_a_type_error float float64
           (fun a => a) (fun a => a) (fun _ => PrimFloat.nan) sqrtm_diag
           pixel_table (fun _ => pixel_net) (fun s => mk_ndarray s [])
           "generated.npy"%string [] 50 false 1 false (mk_world [] archive_files [])
           0%Z
           [("mu"%string, mk_ndarray [1%nat] [0.5%float]);
            ("sigma"%string, mk_ndarray [1; 1]%nat [1%float])]
           [("mu"%string, mk_ndarray [1%nat] [0.5%float]);
            ("sigma"%string, mk_ndarray [1; 1]%nat [1%float])]
           (mk_ndarray [1%nat] [0.5%float])
           (mk_ndarray [1; 1]%nat [1%float]));
    first [ reflexivity | discriminate ].
Defined.

(** An array of shape (0, 1, 1, 1) as the samples. *)
Lemma empty_samples_witness :
  calculate_fid_mnist_npy (fun a => a) (fun a => a) (fun _ => PrimFloat.nan)
    sqrtm_diag pixel_table (fun _ => pixel_net) (fun s => mk_ndarray s [])
    ["generated.npy"%string] 50 false 1 false
    (mk_world [] empty_files [])
  = (Raise (ValueError [Str "min() arg is an empty sequence"]),
     mk_world [[0.5%float]; [1%float]] empty_files
       [InceptionV3_init [0%Z]; NpLoad stats_path; NpLoad "generated.npy"%string]).
Proof.
  apply (@empty_samples_are_a_value_error float float64
           (fun a => a) (fun a => a) (fun _ => PrimFloat.nan) sqrtm_diag
           pixel_table (fun _ => pixel_net) (fun s => mk_ndarray s [])
           "generated.npy"%string [] 50 false 1 false (mk_world [] empty_files [])
           0%Z
           [("mu"%string, mk_ndarray [1%nat] [0.5%float]);
            ("sigma"%string, mk_ndarray [1; 1]%nat [1%float])]
           (mk_ndarray [1%nat] [0.5%float])
           (mk_ndarray [1; 1]%nat [1%float]) [0; 1; 1; 1]%nat);
    first [ reflexivity | discriminate ].
Defined.
